(** * ado_mcp: the Azure DevOps REST client and the MCP tool dispatcher

    A shallow embedding of [src/ado.ts] (compiled to [dist/ado.js]) and of the
    two builds of [src/server.ts] found in the repository: the zod-validating
    server, version 1.0.0 ([dist/server.js]), and the earlier server, version
    0.1.0, which hands the raw arguments to the client.

    JavaScript strings are modelled by their UTF-8 bytes ([string]), a lone
    surrogate by the three bytes of its code point, which UTF-8 proper never
    holds ([Str.lone_surrogate]); numbers by integers ([Z]), which stand
    for the integral numbers of magnitude below 10^21, the ones JavaScript
    prints in full; asynchronous code by a state-and-exception monad over
    a world that holds the remote server and the trace of what the program
    did (requests sent, time slept). *)

From Stdlib Require Import ZArith List String Ascii Bool Lia.
From Stdlib Require Import DecimalString.
Import ListNotations.

Local Open Scope string_scope.
Local Open Scope Z_scope.

(** ** Strings *)

Module Str.

(** [String(n)] and the template literal of an integer-valued number of
    magnitude below 10^21 (from there on JavaScript prints an exponent). *)
Definition of_Z (n : Z) : string := NilZero.string_of_int (Z.to_int n).

(** [a.join(sep)] on strings. *)
Fixpoint join (sep : string) (l : list string) : string :=
  match l with
  | [] => ""
  | [x] => x
  | x :: rest => x ++ sep ++ join sep rest
  end.

(** [s.includes(p)]: [p] occurs in [s]. *)
Fixpoint includes (p s : string) : bool :=
  String.prefix p s ||
  match s with
  | EmptyString => false
  | String _ s' => includes p s'
  end.

(** [s.endsWith(p)]. *)
Fixpoint endsWith (p s : string) : bool :=
  String.eqb p s ||
  match s with
  | EmptyString => false
  | String _ s' => endsWith p s'
  end.

(** [s.length]: UTF-16 code units of the string whose UTF-8 bytes are [s].
    A continuation byte (10xxxxxx) adds nothing, the lead byte of a
    four-byte sequence (11110xxx) stands for a surrogate pair. *)
Fixpoint length (s : string) : Z :=
  match s with
  | EmptyString => 0
  | String c s' =>
      let b := Z.of_N (N_of_ascii c) in
      (if (128 <=? b) && (b <? 192) then 0
       else if 240 <=? b then 2 else 1) + length s'
  end.

Definition hex_digit (n : Z) : ascii :=
  match String.get (Z.to_nat n) "0123456789ABCDEF" with
  | Some c => c
  | None => "0"%char
  end.

(** [%XX] for one byte, upper-case hexadecimal. *)
Definition percent (c : ascii) : string :=
  let b := Z.of_N (N_of_ascii c) in
  String "%" (String (hex_digit (Z.shiftr b 4))
                (String (hex_digit (Z.land b 15)) EmptyString)).

Definition is_alnum (c : ascii) : bool :=
  let b := Z.of_N (N_of_ascii c) in
  ((48 <=? b) && (b <=? 57)) || ((65 <=? b) && (b <=? 90))
  || ((97 <=? b) && (b <=? 122)).

Definition mem (c : ascii) (set : string) : bool :=
  existsb (Ascii.eqb c) (list_ascii_of_string set).

Fixpoint flat_map (f : ascii -> string) (s : string) : string :=
  match s with
  | EmptyString => EmptyString
  | String c s' => f c ++ flat_map f s'
  end.

Fixpoint forallb (f : ascii -> bool) (s : string) : bool :=
  match s with
  | EmptyString => true
  | String c s' => f c && forallb f s'
  end.

Definition continuation (c : ascii) : bool :=
  let b := Z.of_N (N_of_ascii c) in (128 <=? b) && (b <? 192).

(** The characters of [s], each with all the bytes of its encoding. *)
Fixpoint chars (s : string) : list string :=
  match s with
  | EmptyString => []
  | String c s' =>
      match s' with
      | String d _ =>
          if continuation d
          then match chars s' with
               | h :: t => String c h :: t
               | [] => [String c EmptyString]
               end
          else String c EmptyString :: chars s'
      | EmptyString => [String c EmptyString]
      end
  end.

(** [s] holds a lone surrogate, a code unit from D800 to DFFF that is not
    half of a pair: the bytes ED A0..BF xx. A pair is one character of four
    bytes and has no such bytes. *)
Fixpoint lone_surrogate (s : string) : bool :=
  match s with
  | EmptyString => false
  | String c s' =>
      (Z.of_N (N_of_ascii c) =? 237)
      && match s' with
         | String d _ =>
             (160 <=? Z.of_N (N_of_ascii d)) && (Z.of_N (N_of_ascii d) <=? 191)
         | EmptyString => false
         end
      || lone_surrogate s'
  end.

End Str.

(** ** [encodeURIComponent], [URLSearchParams], [Buffer] *)

(** Characters [encodeURIComponent] leaves alone: letters, digits and
    [- _ . ! ~ * ' ( )]. *)
Definition uri_unreserved (c : ascii) : bool :=
  Str.is_alnum c || Str.mem c "-_.!~*'()".

(** Every other byte of the UTF-8 encoding becomes [%XX]. This is the
    string the call evaluates to when it returns; on a string that holds a
    lone surrogate the call throws, see [encodeURIComponent_call]. *)
Definition encodeURIComponent (s : string) : string :=
  Str.flat_map
    (fun c => if uri_unreserved c then String c EmptyString else Str.percent c) s.

Module URLSearchParams.

(** The list of name-value pairs, in order. *)
Definition t := list (string * string).

(** [q.set(name, value)]: the first pair named [name] takes the value and
    the other pairs of that name go; without one the pair is appended. *)
Fixpoint set (name value : string) (q : t) : t :=
  match q with
  | [] => [(name, value)]
  | (n, v) :: rest =>
      if String.eqb n name
      then (n, value) :: filter (fun p => negb (String.eqb (fst p) name)) rest
      else (n, v) :: set name value rest
  end.

(** [q.has(name)]. *)
Definition has (name : string) (q : t) : bool :=
  existsb (fun p => String.eqb (fst p) name) q.

(** [q.get(name)]. *)
Definition get (name : string) (q : t) : option string :=
  option_map snd (find (fun p => String.eqb (fst p) name) q).

(** The application/x-www-form-urlencoded byte serializer: letters, digits
    and [* - . _] stay, a space becomes [+], any other byte becomes [%XX]. *)
Definition form_byte (c : ascii) : string :=
  if Str.is_alnum c || Str.mem c "*-._" then String c EmptyString
  else if Ascii.eqb c " " then "+"
  else Str.percent c.

Definition form_encode (s : string) : string := Str.flat_map form_byte s.

(** [q.toString()], which is what the template literal of [q] gives. *)
Definition toString (q : t) : string :=
  Str.join "&" (map (fun p => form_encode (fst p) ++ "=" ++ form_encode (snd p)) q).

End URLSearchParams.

Module Buffer.

Definition alphabet : string :=
  "ABCDEFGHIJKLMNOPQRSTUVWXYZabcdefghijklmnopqrstuvwxyz0123456789+/".

Definition digit (n : Z) : ascii :=
  match String.get (Z.to_nat n) alphabet with
  | Some c => c
  | None => "="%char
  end.

Definition byte (c : ascii) : Z := Z.of_N (N_of_ascii c).

(** [Buffer.from(s).toString("base64")]: the bytes of [s], three at a
    time, as four digits of six bits; the last group is padded with [=]. *)
Fixpoint toString_base64 (s : string) : string :=
  match s with
  | EmptyString => EmptyString
  | String a EmptyString =>
      String (digit (Z.shiftr (byte a) 2))
     (String (digit (Z.shiftl (Z.land (byte a) 3) 4)) "==")
  | String a (String b EmptyString) =>
      String (digit (Z.shiftr (byte a) 2))
     (String (digit (Z.lor (Z.shiftl (Z.land (byte a) 3) 4) (Z.shiftr (byte b) 4)))
     (String (digit (Z.shiftl (Z.land (byte b) 15) 2)) "="))
  | String a (String b (String c rest)) =>
      String (digit (Z.shiftr (byte a) 2))
     (String (digit (Z.lor (Z.shiftl (Z.land (byte a) 3) 4) (Z.shiftr (byte b) 4)))
     (String (digit (Z.lor (Z.shiftl (Z.land (byte b) 15) 2) (Z.shiftr (byte c) 6)))
     (String (digit (Z.land (byte c) 63)) (toString_base64 rest))))
  end.

End Buffer.

(** ** JavaScript values *)

(** The values that travel through the program: what [JSON.parse] yields,
    and [undefined] for what is absent. An object lists its own properties
    in property order, each name once. *)
#[warnings="-register-all"] Inductive Value : Type :=
| VUndefined
| VNull
| VBool (b : bool)
| VNum (n : Z)
| VStr (s : string)
| VArr (items : list Value)
| VObj (props : list (string * Value)).

Module Js.

(** ToBoolean. *)
Definition truthy (v : Value) : bool :=
  match v with
  | VUndefined | VNull => false
  | VBool b => b
  | VNum n => negb (n =? 0)
  | VStr s => negb (String.eqb s "")
  | VArr _ | VObj _ => true
  end.

(** ToString, as a template literal and [String(v)] apply it. *)
Fixpoint ToString (v : Value) : string :=
  match v with
  | VUndefined => "undefined"
  | VNull => "null"
  | VBool true => "true"
  | VBool false => "false"
  | VNum n => Str.of_Z n
  | VStr s => s
  | VArr items =>
      Str.join ","
        (map (fun x => match x with
                       | VUndefined | VNull => ""
                       | _ => ToString x
                       end) items)
  | VObj _ => "[object Object]"
  end.

(** [items.join(sep)]. *)
Definition join (sep : string) (items : list Value) : string :=
  Str.join sep
    (map (fun x => match x with
                   | VUndefined | VNull => ""
                   | _ => ToString x
                   end) items).

Fixpoint lookup (k : string) (props : list (string * Value)) : Value :=
  match props with
  | [] => VUndefined
  | (k', v) :: rest => if String.eqb k' k then v else lookup k rest
  end.

(** [o[k] = v] on the property list: an own property keeps its place. *)
Fixpoint assign (k : string) (v : Value) (props : list (string * Value))
  : list (string * Value) :=
  match props with
  | [] => [(k, v)]
  | (k', v') :: rest =>
      if String.eqb k' k then (k', v) :: rest else (k', v') :: assign k v rest
  end.

(** [v.k] where [v] is neither [undefined] nor [null]; the only property
    of a primitive or an array the program reads is [length]. *)
Definition prop (v : Value) (k : string) : Value :=
  match v with
  | VObj props => lookup k props
  | VStr s => if String.eqb k "length" then VNum (Str.length s) else VUndefined
  | VArr items =>
      if String.eqb k "length" then VNum (Z.of_nat (List.length items))
      else VUndefined
  | _ => VUndefined
  end.

Fixpoint indexed {A} (i : Z) (l : list A) : list (Z * A) :=
  match l with
  | [] => []
  | x :: rest => (i, x) :: indexed (i + 1) rest
  end.

(** [Object.entries(v)] for a [v] that is neither [undefined] nor [null].
    A string gives its characters one by one; a character outside the
    Basic Multilingual Plane, two code units in JavaScript, is kept whole
    here. *)
Definition entries (v : Value) : list (string * Value) :=
  match v with
  | VObj props => props
  | VArr items => map (fun p => (Str.of_Z (fst p), snd p)) (indexed 0 items)
  | VStr s => map (fun p => (Str.of_Z (fst p), VStr (snd p))) (indexed 0 (Str.chars s))
  | _ => []
  end.

(** The name zod gives to the type of a value. *)
Definition parsedType (v : Value) : string :=
  match v with
  | VUndefined => "undefined"
  | VNull => "null"
  | VBool _ => "boolean"
  | VNum _ => "number"
  | VStr _ => "string"
  | VArr _ => "array"
  | VObj _ => "object"
  end.

End Js.

(** ** [JSON.stringify] *)

Module JSON.

Definition lower_hex (n : Z) : ascii :=
  match String.get (Z.to_nat n) "0123456789abcdef" with
  | Some c => c
  | None => "0"%char
  end.

(** The double quote. *)
Definition dquote : ascii := "034"%char.

(** One character inside a JSON string literal. *)
Definition escape (c : ascii) : string :=
  let b := Z.of_N (N_of_ascii c) in
  if b =? 34 then String "\" (String dquote EmptyString) else if b =? 92 then "\\"
  else if b =? 8 then "\b" else if b =? 9 then "\t"
  else if b =? 10 then "\n" else if b =? 12 then "\f"
  else if b =? 13 then "\r"
  else if b <? 32 then
    "\u00" ++ String (lower_hex (Z.shiftr b 4))
                (String (lower_hex (Z.land b 15)) EmptyString)
  else String c EmptyString.

Definition quote (s : string) : string :=
  String dquote (Str.flat_map escape s ++ String dquote EmptyString).

Definition newline : string := String (ascii_of_nat 10) EmptyString.

(** [JSON.stringify(v, null, gap)] at the indentation [indent]; [None] is
    [undefined]. An [undefined] array element is written [null], an
    [undefined] property is left out. *)
Fixpoint serialize (gap indent : string) (v : Value) : option string :=
  let inner := indent ++ gap in
  let wrap (opening closing : string) (parts : list string) :=
    match parts with
    | [] => opening ++ closing
    | _ =>
        if String.eqb gap ""
        then opening ++ Str.join "," parts ++ closing
        else opening ++ newline ++ inner
             ++ Str.join ("," ++ newline ++ inner) parts
             ++ newline ++ indent ++ closing
    end in
  match v with
  | VUndefined => None
  | VNull => Some "null"
  | VBool true => Some "true"
  | VBool false => Some "false"
  | VNum n => Some (Str.of_Z n)
  | VStr s => Some (quote s)
  | VArr items =>
      Some (wrap "[" "]"
              (map (fun x => match serialize gap inner x with
                             | Some s => s
                             | None => "null"
                             end) items))
  | VObj props =>
      Some (wrap "{" "}"
              (flat_map (fun kv => match serialize gap inner (snd kv) with
                                   | Some s =>
                                       [quote (fst kv)
                                        ++ (if String.eqb gap "" then ":" else ": ")
                                        ++ s]
                                   | None => []
                                   end) props))
  end.

(** [JSON.stringify(v)]. *)
Definition stringify (v : Value) : option string := serialize "" "" v.

(** [JSON.stringify(v, null, 2)]. *)
Definition stringify2 (v : Value) : option string := serialize "  " "" v.

End JSON.

(** ** Errors *)

(** The error codes of the MCP SDK the server uses. *)
Inductive ErrorCode : Type := MethodNotFound | InvalidParams | InternalError.

Definition ErrorCode_number (c : ErrorCode) : Z :=
  match c with
  | MethodNotFound => -32601
  | InvalidParams => -32602
  | InternalError => -32603
  end.

(** An [Error] object: its [name], its [message], and the [code] an
    [McpError] carries. *)
Record JsError : Type := mkJsError {
  name : string;
  message : string;
  code : option ErrorCode
}.

(** [new Error(msg)]. *)
Definition Error (msg : string) : JsError := mkJsError "Error" msg None.

(** [TypeError], raised by the engine. *)
Definition TypeError (msg : string) : JsError := mkJsError "TypeError" msg None.

(** [URIError], raised by [encodeURIComponent]. *)
Definition URIError (msg : string) : JsError := mkJsError "URIError" msg None.

(** [new McpError(code, msg)]: the SDK's constructor passes
    [`MCP error ${code}: ${msg}`] to [Error] and names the object. *)
Definition McpError (c : ErrorCode) (msg : string) : JsError :=
  mkJsError "McpError"
    ("MCP error " ++ Str.of_Z (ErrorCode_number c) ++ ": " ++ msg) (Some c).

(** [String(error)] and [`${error}`]: [Error.prototype.toString]. *)
Definition JsError_toString (e : JsError) : string :=
  if String.eqb (name e) "" then message e
  else if String.eqb (message e) "" then name e
  else name e ++ ": " ++ message e.

(** ** The world: the remote server and the trace *)

Inductive Outcome (E A : Type) : Type :=
| Return (a : A)
| Throw (e : E).
Arguments Return {E A} a.
Arguments Throw {E A} e.

(** What undici's [request(url, options)] sends. *)
Record Request : Type := mkRequest {
  method : string;
  url : string;
  headers : list (string * string);
  body : option string
}.

(** What it resolves to: the status code, and what [res.body.json()] gives,
    a value or a rejection when the body is not JSON. *)
Record Response : Type := mkResponse {
  statusCode : Z;
  body_json : Outcome JsError Value
}.

Inductive Event : Type :=
| Requested (r : Request)
| Slept (ms : Z).

(** The remote side answers a request knowing all that happened before, or
    the request fails (no connection, time-out). *)
Definition Network : Type := list Event -> Request -> Outcome JsError Response.

Record World : Type := mkWorld {
  net : Network;
  trace : list Event
}.

(** Asynchronous code that may throw an [E]. *)
Definition M (E A : Type) : Type := World -> Outcome E A * World.

Definition ret {E A} (a : A) : M E A := fun w => (Return a, w).

Definition throw {E A} (e : E) : M E A := fun w => (Throw e, w).

Definition bind {E A B} (m : M E A) (k : A -> M E B) : M E B :=
  fun w =>
    match m w with
    | (Return a, w') => k a w'
    | (Throw e, w') => (Throw e, w')
    end.

(** [try { m } catch (e) { handler(e) }]. *)
Definition try_catch {E E' A} (m : M E A) (handler : E -> M E' A) : M E' A :=
  fun w =>
    match m w with
    | (Return a, w') => (Return a, w')
    | (Throw e, w') => handler e w'
    end.

(** The same computation among more kinds of error. *)
Definition lift {E E' A} (f : E -> E') (m : M E A) : M E' A :=
  try_catch m (fun e => throw (f e)).

Definition of_outcome {E A} (o : Outcome E A) : M E A := fun w => (o, w).

Declare Scope js_scope.
Delimit Scope js_scope with js.
Notation "x <- m ;; k" := (bind m (fun x => k))
  (at level 61, m at next level, right associativity) : js_scope.
Notation "m ;; k" := (bind m (fun _ => k))
  (at level 61, right associativity) : js_scope.
Local Open Scope js_scope.

(** [await request(url, options)]. *)
Definition request (r : Request) : M JsError Response :=
  fun w => (net w (trace w) r, mkWorld (net w) (trace w ++ [Requested r])%list).

(** [await sleep(ms)]. *)
Definition sleep (ms : Z) : M JsError unit :=
  fun w => (Return tt, mkWorld (net w) (trace w ++ [Slept ms])%list).

(** The events a run added to the trace. *)
Definition requests (t : list Event) : list Request :=
  flat_map (fun e => match e with Requested r => [r] | Slept _ => [] end) t.

Definition sleeps (t : list Event) : list Z :=
  flat_map (fun e => match e with Requested _ => [] | Slept ms => [ms] end) t.

(** The call [encodeURIComponent(s)]: it throws [URIError: URI malformed]
    when [s] holds a lone surrogate and returns the encoding otherwise. *)
Definition encodeURIComponent_call (s : string) : M JsError string :=
  if Str.lone_surrogate s then throw (URIError "URI malformed")
  else ret (encodeURIComponent s).

(** ** The REST client, [src/ado.ts] *)

Module Ado.

(** A parameter with a default value: [None] is an omitted argument. *)
Definition default {A} (d : A) (o : option A) : A :=
  match o with Some a => a | None => d end.

(** The organization and the project are variables of the environment,
    which Node hands over as well-formed strings: encoding them returns. *)
Definition baseUrl (org : string) : string :=
  "https://" ++ encodeURIComponent org ++ ".visualstudio.com".

Definition authHeader (pat : string) : string :=
  "Basic " ++ Buffer.toString_base64 (":" ++ pat).

(** The [for] loop of [adoGet] from [i] on, [remaining] = [3 - i]. *)
Fixpoint adoGet_from (remaining : nat) (i : Z) (url pat : string)
  : M JsError Value :=
  match remaining with
  | O => throw (Error ("Retries exceeded: GET " ++ url))
  | S remaining' =>
      res <- request (mkRequest "GET" url
                        [("Authorization", authHeader pat)] None) ;;
      if (statusCode res >=? 200) && (statusCode res <? 300)
      then of_outcome (body_json res)
      else if (statusCode res =? 429) || (statusCode res >=? 500)
      then sleep (250 * (i + 1)) ;; adoGet_from remaining' (i + 1) url pat
      else throw (Error (Str.of_Z (statusCode res) ++ " GET " ++ url))
  end.

Definition adoGet (url pat : string) : M JsError Value :=
  adoGet_from 3 0 url pat.

Definition adoPost (url pat : string) (body : Value)
  (contentType : option string) : M JsError Value :=
  let contentType := default "application/json" contentType in
  res <- request (mkRequest "POST" url
                    [("Authorization", authHeader pat);
                     ("Content-Type", contentType)]
                    (JSON.stringify body)) ;;
  if (statusCode res <? 200) || (statusCode res >=? 300)
  then throw (Error (Str.of_Z (statusCode res) ++ " POST " ++ url))
  else of_outcome (body_json res).

Definition adoPatch (url pat : string) (body : Value)
  (contentType : option string) : M JsError Value :=
  let contentType := default "application/json-patch+json" contentType in
  res <- request (mkRequest "PATCH" url
                    [("Authorization", authHeader pat);
                     ("Content-Type", contentType)]
                    (JSON.stringify body)) ;;
  if (statusCode res <? 200) || (statusCode res >=? 300)
  then throw (Error (Str.of_Z (statusCode res) ++ " PATCH " ++ url))
  else of_outcome (body_json res).

(** [s.replace(/\/$/, "")]: a slash that ends the string goes. *)
Fixpoint strip_final_slash (s : string) : string :=
  match s with
  | EmptyString => EmptyString
  | String c s' =>
      if Ascii.eqb c "/" && String.eqb s' "" then EmptyString
      else String c (strip_final_slash s')
  end.

Record ADOOpts : Type := mkADOOpts {
  org : string;
  project : option string;
  pat : string
}.

(** The object [makeADO] returns. *)
Record ADO : Type := mkADO {
  listProjects : M JsError Value;
  listPipelines : M JsError Value;
  listBuilds : Value -> M JsError Value;
  wiqlTeam : Value -> Value -> M JsError Value;
  getWorkItem : Value -> M JsError Value;
  getWorkItems : Value -> Value -> M JsError Value;
  createWorkItem : Value -> Value -> M JsError Value;
  updateWorkItem : Value -> Value -> M JsError Value;
  addComment : Value -> Value -> M JsError Value;
  listBoardColumns : Value -> M JsError Value;
  listTeamIterations : Value -> Value -> M JsError Value;
  getIterationWorkItems : Value -> Value -> M JsError Value
}.

Definition orgBase (o : ADOOpts) : string :=
  strip_final_slash
    (baseUrl (org o) ++ "/"
     ++ match project o with
        | Some p => if negb (String.eqb p "") then encodeURIComponent p else ""
        | None => ""
        end).

(** [opts.k]: reading a property of [undefined] or [null] throws. *)
Definition read {A} (opts : Value) (k : string) (cont : Value -> Outcome JsError A)
  : Outcome JsError A :=
  match opts with
  | VUndefined | VNull =>
      Throw (TypeError ("Cannot read properties of " ++ Js.ToString opts
                        ++ " (reading '" ++ k ++ "')"))
  | _ => cont (Js.prop opts k)
  end.

(** [v?.length]. *)
Definition optional_length (v : Value) : Value :=
  match v with
  | VUndefined | VNull => VUndefined
  | _ => Js.prop v "length"
  end.

(** The query of [listBuilds], lines 62 to 70 of [dist/ado.js]. *)
Definition listBuilds_query (opts : Value) : Outcome JsError URLSearchParams.t :=
  let q := [("api-version", "6.0")] in
  read opts "top" (fun top =>
  let q := if Js.truthy top
           then URLSearchParams.set "$top" (Js.ToString top) q else q in
  read opts "branchName" (fun branchName =>
  let q := if Js.truthy branchName
           then URLSearchParams.set "branchName" (Js.ToString branchName) q
           else q in
  read opts "definitions" (fun definitions =>
  let continue q :=
    read opts "continuationToken" (fun continuationToken =>
    Return (if Js.truthy continuationToken
            then URLSearchParams.set "continuationToken"
                   (Js.ToString continuationToken) q
            else q)) in
  if Js.truthy (optional_length definitions)
  then match definitions with
       | VArr items =>
           continue (URLSearchParams.set "definitions" (Js.join "," items) q)
       | _ => Throw (TypeError "opts.definitions.join is not a function")
       end
  else continue q))).

Definition obj (props : list (string * Value)) : Value := VObj props.

Definition makeADO (o : ADOOpts) : ADO :=
  let org := org o in
  let pat := pat o in
  let orgBase := orgBase o in
  {|
    listProjects :=
      let url := baseUrl org ++ "/_apis/projects?api-version=6.0" in
      adoGet url pat;
    listPipelines :=
      let url := orgBase ++ "/_apis/pipelines?api-version=6.0-preview.1" in
      adoGet url pat;
    listBuilds := fun opts =>
      q <- of_outcome (listBuilds_query opts) ;;
      let url := orgBase ++ "/_apis/build/builds?" ++ URLSearchParams.toString q in
      adoGet url pat;
    wiqlTeam := fun team wiql =>
      encoded <- encodeURIComponent_call (Js.ToString team) ;;
      let url := orgBase ++ "/" ++ encoded ++ "/_apis/wit/wiql?api-version=6.0" in
      adoPost url pat (obj [("query", wiql)]) None;
    getWorkItem := fun id =>
      let url := orgBase ++ "/_apis/wit/workitems/" ++ Js.ToString id
                 ++ "?api-version=6.0" in
      adoGet url pat;
    getWorkItems := fun ids fields =>
      let url := orgBase ++ "/_apis/wit/workitemsbatch?api-version=6.0" in
      adoPost url pat (obj [("ids", ids); ("fields", fields)]) None;
    createWorkItem := fun type ops =>
      encoded <- encodeURIComponent_call (Js.ToString type) ;;
      let url := orgBase ++ "/_apis/wit/workitems/$" ++ encoded
                 ++ "?api-version=6.0" in
      adoPatch url pat ops (Some "application/json-patch+json");
    updateWorkItem := fun id ops =>
      let url := orgBase ++ "/_apis/wit/workitems/" ++ Js.ToString id
                 ++ "?api-version=6.0" in
      adoPatch url pat ops (Some "application/json-patch+json");
    addComment := fun id text =>
      let url := orgBase ++ "/_apis/wit/workItems/" ++ Js.ToString id
                 ++ "/comments?api-version=6.0-preview.4" in
      adoPost url pat (obj [("text", text)]) None;
    listBoardColumns := fun team =>
      url <- (if Js.truthy team
              then encoded <- encodeURIComponent_call (Js.ToString team) ;;
                   ret (orgBase ++ "/" ++ encoded
                        ++ "/_apis/work/boardcolumns?api-version=6.0")
              else ret (orgBase ++ "/_apis/work/boardcolumns?api-version=6.0")) ;;
      adoGet url pat;
    listTeamIterations := fun team timeframe =>
      let q := [("api-version", "6.0")] in
      let q := if Js.truthy timeframe
               then URLSearchParams.set "$timeframe" (Js.ToString timeframe) q
               else q in
      encoded <- encodeURIComponent_call (Js.ToString team) ;;
      let url := orgBase ++ "/" ++ encoded
                 ++ "/_apis/work/teamsettings/iterations?"
                 ++ URLSearchParams.toString q in
      adoGet url pat;
    getIterationWorkItems := fun team iterationId =>
      encoded <- encodeURIComponent_call (Js.ToString team) ;;
      let url := orgBase ++ "/" ++ encoded
                 ++ "/_apis/work/teamsettings/iterations/"
                 ++ Js.ToString iterationId ++ "/workitems?api-version=6.0" in
      adoGet url pat
  |}.

End Ado.

(** ** Argument validation: the part of zod the server uses *)

Module Zod.

Inductive PathSeg : Type := Key (k : string) | Index (i : Z).

(** An issue of a [ZodError]: where, and the message of zod's default
    error map. *)
Record Issue : Type := mkIssue {
  path : list PathSeg;
  message : string
}.

(** [path.join(sep)]. *)
Definition path_join (sep : string) (p : list PathSeg) : string :=
  Str.join sep (map (fun seg => match seg with
                                | Key k => k
                                | Index i => Str.of_Z i
                                end) p).

Inductive Schema : Type :=
| string_ (min : option Z)            (* z.string(), z.string().min(n) *)
| number_ (min max : option Z)        (* z.number(), .min(a).max(b) *)
| enum_ (values : list string)        (* z.enum([...]) *)
| array_ (item : Schema)              (* z.array(item) *)
| record_ (value : Schema)            (* z.record(value) *)
| optional_ (inner : Schema).         (* inner.optional() *)

(** [z.object({...})]: the keys in the order they are written. *)
Definition Shape : Type := list (string * Schema).

Definition invalid_type (expected : string) (p : list PathSeg) (v : Value) : Issue :=
  mkIssue p
    match v with
    | VUndefined => "Required"
    | _ => "Expected " ++ expected ++ ", received " ++ Js.parsedType v
    end.

Definition joinValues (values : list string) : string :=
  Str.join " | " (map (fun v => "'" ++ v ++ "'") values).

Fixpoint check (t : Schema) (p : list PathSeg) (v : Value) : list Issue :=
  match t with
  | optional_ inner =>
      match v with
      | VUndefined => []
      | _ => check inner p v
      end
  | string_ min =>
      match v with
      | VStr s =>
          match min with
          | Some m =>
              if Str.length s <? m
              then [mkIssue p ("String must contain at least " ++ Str.of_Z m
                               ++ " character(s)")]
              else []
          | None => []
          end
      | _ => [invalid_type "string" p v]
      end
  | number_ min max =>
      match v with
      | VNum n =>
          (match min with
          | Some m =>
              if n <? m
              then [mkIssue p ("Number must be greater than or equal to "
                               ++ Str.of_Z m)]
              else []
          | None => []
          end
          ++
          match max with
          | Some m =>
              if m <? n
              then [mkIssue p ("Number must be less than or equal to "
                               ++ Str.of_Z m)]
              else []
          | None => []
          end)%list
      | _ => [invalid_type "number" p v]
      end
  | enum_ values =>
      match v with
      | VStr s =>
          if existsb (String.eqb s) values then []
          else [mkIssue p ("Invalid enum value. Expected " ++ joinValues values
                           ++ ", received '" ++ s ++ "'")]
      | _ => [invalid_type (joinValues values) p v]
      end
  | array_ item =>
      match v with
      | VArr items =>
          (fix each (i : Z) (l : list Value) : list Issue :=
             match l with
             | [] => []
             | x :: rest => (check item (p ++ [Index i]) x ++ each (i + 1) rest)%list
             end) 0 items
      | _ => [invalid_type "array" p v]
      end
  | record_ value =>
      match v with
      | VObj props =>
          flat_map (fun kv => check value (p ++ [Key (fst kv)])%list (snd kv)) props
      | _ => [invalid_type "object" p v]
      end
  end.

Definition has_key (k : string) (props : list (string * Value)) : bool :=
  existsb (fun kv => String.eqb (fst kv) k) props.

(** What a schema hands back for a value that passed it. zod builds an
    array and a record anew from the parsed items, and a record without the
    key [__proto__]; a string and a number come back as they are. *)
Fixpoint output (t : Schema) (v : Value) : Value :=
  match t with
  | optional_ inner =>
      match v with
      | VUndefined => VUndefined
      | _ => output inner v
      end
  | array_ item =>
      match v with
      | VArr items => VArr (map (output item) items)
      | _ => v
      end
  | record_ value =>
      match v with
      | VObj props =>
          VObj (flat_map (fun kv => if String.eqb (fst kv) "__proto__" then []
                                    else [(fst kv, output value (snd kv))]) props)
      | _ => v
      end
  | string_ _ | number_ _ _ | enum_ _ => v
  end.

(** [z.object(shape).parse(v)]: every key of the shape is checked, the
    issues are gathered, and the result keeps the keys of the shape only,
    each with what its schema hands back. *)
Definition parse (shape : Shape) (v : Value) : Outcome (list Issue) Value :=
  match v with
  | VObj props =>
      match flat_map (fun ks => check (snd ks) [Key (fst ks)]
                                  (Js.lookup (fst ks) props)) shape with
      | [] =>
          Return (VObj (flat_map
                          (fun ks => if has_key (fst ks) props
                                     then [(fst ks,
                                            output (snd ks) (Js.lookup (fst ks) props))]
                                     else []) shape))
      | issues => Throw issues
      end
  | _ => Throw [invalid_type "object" [] v]
  end.

(** The key [k] of the shape is an offending field of the object: its
    check reports an issue. *)
Definition offending (shape : Shape) (props : list (string * Value)) (k : string) : Prop :=
  exists t, In (k, t) shape /\ check t [Key k] (Js.lookup k props) <> [].

End Zod.

(** ** What both servers share *)

Record TextContent : Type := mkTextContent {
  type : string;
  text : option string
}.

(** The result of a tool call. *)
Record CallToolResult : Type := mkCallToolResult {
  content : list TextContent
}.

(** [{ content: [{ type: "text", text: JSON.stringify(result, null, 2) }] }]. *)
Definition text_result (result : Value) : CallToolResult :=
  mkCallToolResult [mkTextContent "text" (JSON.stringify2 result)].

(** [switch (name) { case ...: ... default: ... }]. *)
Fixpoint switch {A} (scrutinee : string) (cases : list (string * A)) (otherwise : A) : A :=
  match cases with
  | [] => otherwise
  | (label, branch) :: rest =>
      if String.eqb scrutinee label then branch else switch scrutinee rest otherwise
  end.

(** [{ op: "add", path, value }]. *)
Definition op_add (path : string) (value : Value) : Value :=
  VObj [("op", VStr "add"); ("path", VStr path); ("value", value)].

(** [if (cond) ops.push(item)]. *)
Definition push_if (cond : Value) (item : Value) (ops : list Value) : list Value :=
  if Js.truthy cond then (ops ++ [item])%list else ops.

(** The environment of the process. *)
Record Env : Type := mkEnv {
  ADO_ORG : string;
  ADO_PAT : string;
  ADO_PROJECT : option string
}.

(** ** The server of [dist/server.js], version 1.0.0 *)

Module Server.

Import Zod.

Definition ListBuildsSchema : Shape :=
  [("definitions", optional_ (array_ (number_ None None)));
   ("branchName", optional_ (string_ None));
   ("top", optional_ (number_ (Some 1) (Some 200)));
   ("continuationToken", optional_ (string_ None))].

Definition WiqlQueryTeamSchema : Shape :=
  [("team", string_ (Some 1)); ("wiql", string_ (Some 5))].

Definition WorkItemGetSchema : Shape := [("id", number_ None None)].

Definition WorkItemsGetSchema : Shape :=
  [("ids", array_ (number_ None None));
   ("fields", optional_ (array_ (string_ None)))].

Definition WorkItemCreateSchema : Shape :=
  [("type", string_ None);
   ("title", string_ None);
   ("description", optional_ (string_ None));
   ("iterationPath", optional_ (string_ None));
   ("areaPath", optional_ (string_ None))].

Definition WorkItemUpdateSchema : Shape :=
  [("id", number_ None None);
   ("state", optional_ (string_ None));
   ("iterationPath", optional_ (string_ None));
   ("fields", optional_ (record_ (string_ None)))].

Definition WorkItemCommentAddSchema : Shape :=
  [("id", number_ None None); ("text", string_ (Some 1))].

Definition BoardsListColumnsSchema : Shape := [("team", optional_ (string_ None))].

Definition IterationsListSchema : Shape :=
  [("team", string_ None);
   ("timeframe", optional_ (enum_ ["past"; "current"; "future"]))].

Definition IterationWorkItemsSchema : Shape :=
  [("team", string_ None); ("iterationId", string_ None)].

Definition BoardMoveSchema : Shape :=
  [("id", number_ None None);
   ("stateName", optional_ (string_ None));
   ("iterationPath", optional_ (string_ None))].

(** What the [try] block can throw: a [ZodError] or any other error. *)
Inductive Exception : Type :=
| ZodError (issues : list Issue)
| Raised (e : JsError).

(** [Schema.parse(args)]. *)
Definition parse_args (shape : Shape) (args : Value) : M Exception Value :=
  match parse shape args with
  | Return parsed => ret parsed
  | Throw issues => throw (ZodError issues)
  end.

(** [await ado.method(...)] inside the [try] block. *)
Definition await {A} (m : M JsError A) : M Exception A := lift Raised m.

Definition ado (env : Env) : Ado.ADO :=
  Ado.makeADO (Ado.mkADOOpts (ADO_ORG env) (ADO_PROJECT env) (ADO_PAT env)).

(** The patch documents of the three tools that write work items. *)
Definition create_ops (parsed : Value) : list Value :=
  let ops := [op_add "/fields/System.Title" (Js.prop parsed "title")] in
  let ops := push_if (Js.prop parsed "description")
               (op_add "/fields/System.Description" (Js.prop parsed "description")) ops in
  let ops := push_if (Js.prop parsed "iterationPath")
               (op_add "/fields/System.IterationPath" (Js.prop parsed "iterationPath")) ops in
  let ops := push_if (Js.prop parsed "areaPath")
               (op_add "/fields/System.AreaPath" (Js.prop parsed "areaPath")) ops in
  ops.

Definition update_ops (parsed : Value) : list Value :=
  let ops := [] in
  let ops := push_if (Js.prop parsed "state")
               (op_add "/fields/System.State" (Js.prop parsed "state")) ops in
  let ops := push_if (Js.prop parsed "iterationPath")
               (op_add "/fields/System.IterationPath" (Js.prop parsed "iterationPath")) ops in
  let ops := if Js.truthy (Js.prop parsed "fields")
             then (ops ++ map (fun fv => op_add ("/fields/" ++ fst fv) (snd fv))
                           (Js.entries (Js.prop parsed "fields")))%list
             else ops in
  ops.

Definition move_ops (parsed : Value) : list Value :=
  let ops := [] in
  let ops := push_if (Js.prop parsed "stateName")
               (op_add "/fields/System.State" (Js.prop parsed "stateName")) ops in
  let ops := push_if (Js.prop parsed "iterationPath")
               (op_add "/fields/System.IterationPath" (Js.prop parsed "iterationPath")) ops in
  ops.

(** The [switch] inside the [try] block of the call-tool handler. *)
Definition dispatch (env : Env) (name : string) (args : Value)
  : M Exception CallToolResult :=
  let ado := ado env in
  switch name
    [("list_projects",
       result <- await (Ado.listProjects ado) ;;
       ret (text_result result));
     ("list_pipelines",
       result <- await (Ado.listPipelines ado) ;;
       ret (text_result result));
     ("list_builds",
       parsed <- parse_args ListBuildsSchema args ;;
       result <- await (Ado.listBuilds ado parsed) ;;
       ret (text_result result));
     ("wiql_query_team",
       parsed <- parse_args WiqlQueryTeamSchema args ;;
       result <- await (Ado.wiqlTeam ado (Js.prop parsed "team") (Js.prop parsed "wiql")) ;;
       ret (text_result result));
     ("work_item_get",
       parsed <- parse_args WorkItemGetSchema args ;;
       result <- await (Ado.getWorkItem ado (Js.prop parsed "id")) ;;
       ret (text_result result));
     ("work_items_get",
       parsed <- parse_args WorkItemsGetSchema args ;;
       result <- await (Ado.getWorkItems ado (Js.prop parsed "ids") (Js.prop parsed "fields")) ;;
       ret (text_result result));
     ("work_item_create",
       parsed <- parse_args WorkItemCreateSchema args ;;
       let ops := create_ops parsed in
       result <- await (Ado.createWorkItem ado (Js.prop parsed "type") (VArr ops)) ;;
       ret (text_result result));
     ("work_item_update",
       parsed <- parse_args WorkItemUpdateSchema args ;;
       let ops := update_ops parsed in
       result <- await (Ado.updateWorkItem ado (Js.prop parsed "id") (VArr ops)) ;;
       ret (text_result result));
     ("work_item_comment_add",
       parsed <- parse_args WorkItemCommentAddSchema args ;;
       result <- await (Ado.addComment ado (Js.prop parsed "id") (Js.prop parsed "text")) ;;
       ret (text_result result));
     ("boards_list_columns",
       parsed <- parse_args BoardsListColumnsSchema args ;;
       result <- await (Ado.listBoardColumns ado (Js.prop parsed "team")) ;;
       ret (text_result result));
     ("iterations_list",
       parsed <- parse_args IterationsListSchema args ;;
       result <- await (Ado.listTeamIterations ado (Js.prop parsed "team")
                          (Js.prop parsed "timeframe")) ;;
       ret (text_result result));
     ("iteration_work_items",
       parsed <- parse_args IterationWorkItemsSchema args ;;
       result <- await (Ado.getIterationWorkItems ado (Js.prop parsed "team")
                          (Js.prop parsed "iterationId")) ;;
       ret (text_result result));
     ("board_move",
       parsed <- parse_args BoardMoveSchema args ;;
       let ops := move_ops parsed in
       result <- await (Ado.updateWorkItem ado (Js.prop parsed "id") (VArr ops)) ;;
       ret (text_result result))]
    (throw (Raised (McpError MethodNotFound ("Unknown tool: " ++ name)))).

(** [error.errors.map(e => `${e.path.join('.')}: ${e.message}`).join(', ')]. *)
Definition issues_text (issues : list Issue) : string :=
  Str.join ", " (map (fun e => path_join "." (path e) ++ ": " ++ message e) issues).

(** The [catch] block. *)
Definition on_error {A} (error : Exception) : M JsError A :=
  match error with
  | ZodError issues =>
      throw (McpError InvalidParams ("Invalid arguments: " ++ issues_text issues))
  | Raised e =>
      throw (McpError InternalError ("Tool execution failed: " ++ JsError_toString e))
  end.

(** The handler of [CallToolRequestSchema]. *)
Definition call_tool (env : Env) (name : string) (args : Value)
  : M JsError CallToolResult :=
  try_catch (dispatch env name args) on_error.

(** The names the tool list announces. *)
Definition tool_names : list string :=
  ["list_projects"; "list_pipelines"; "list_builds"; "wiql_query_team";
   "work_item_get"; "work_items_get"; "work_item_create"; "work_item_update";
   "work_item_comment_add"; "boards_list_columns"; "iterations_list";
   "iteration_work_items"; "board_move"].

(** The schema each tool parses its arguments with; the first two tools
    parse nothing. *)
Definition tool_schema (name : string) : option Shape :=
  switch name
    [("list_builds", Some ListBuildsSchema);
     ("wiql_query_team", Some WiqlQueryTeamSchema);
     ("work_item_get", Some WorkItemGetSchema);
     ("work_items_get", Some WorkItemsGetSchema);
     ("work_item_create", Some WorkItemCreateSchema);
     ("work_item_update", Some WorkItemUpdateSchema);
     ("work_item_comment_add", Some WorkItemCommentAddSchema);
     ("boards_list_columns", Some BoardsListColumnsSchema);
     ("iterations_list", Some IterationsListSchema);
     ("iteration_work_items", Some IterationWorkItemsSchema);
     ("board_move", Some BoardMoveSchema)]
    None.

(** The call each tool makes on the client with its parsed arguments. *)
Definition client_call (env : Env) (name : string) (parsed : Value)
  : M JsError Value :=
  let ado := ado env in
  switch name
    [("list_projects", Ado.listProjects ado);
     ("list_pipelines", Ado.listPipelines ado);
     ("list_builds", Ado.listBuilds ado parsed);
     ("wiql_query_team",
       Ado.wiqlTeam ado (Js.prop parsed "team") (Js.prop parsed "wiql"));
     ("work_item_get", Ado.getWorkItem ado (Js.prop parsed "id"));
     ("work_items_get",
       Ado.getWorkItems ado (Js.prop parsed "ids") (Js.prop parsed "fields"));
     ("work_item_create",
       Ado.createWorkItem ado (Js.prop parsed "type") (VArr (create_ops parsed)));
     ("work_item_update",
       Ado.updateWorkItem ado (Js.prop parsed "id") (VArr (update_ops parsed)));
     ("work_item_comment_add",
       Ado.addComment ado (Js.prop parsed "id") (Js.prop parsed "text"));
     ("boards_list_columns", Ado.listBoardColumns ado (Js.prop parsed "team"));
     ("iterations_list",
       Ado.listTeamIterations ado (Js.prop parsed "team") (Js.prop parsed "timeframe"));
     ("iteration_work_items",
       Ado.getIterationWorkItems ado (Js.prop parsed "team")
         (Js.prop parsed "iterationId"));
     ("board_move",
       Ado.updateWorkItem ado (Js.prop parsed "id") (VArr (move_ops parsed)))]
    (throw (McpError MethodNotFound ("Unknown tool: " ++ name))).

(** The result of a tool whose call on the client is [m]. *)
Definition reply (m : M JsError Value) : M Exception CallToolResult :=
  result <- await m ;; ret (text_result result).

(** The arguments pass the validation of the tool. *)
Definition valid_arguments (name : string) (args : Value) : Prop :=
  match tool_schema name with
  | Some shape => exists parsed, parse shape args = Return parsed
  | None => True
  end.

End Server.

(** ** The earlier server, version 0.1.0: no validation of the arguments *)

Module Server0.

Definition ado (env : Env) : Ado.ADO :=
  Ado.makeADO (Ado.mkADOOpts (ADO_ORG env)
                 match ADO_PROJECT env with
                 | Some p => if String.eqb p "" then None else Some p
                 | None => None
                 end
                 (ADO_PAT env)).

(** [const { first, ... } = args]: destructuring [undefined] or [null]
    throws. *)
Definition destructure (args : Value) (first : string) : M JsError unit :=
  match args with
  | VUndefined | VNull =>
      throw (TypeError ("Cannot destructure property '" ++ first ++ "' of 'args' as it is "
                        ++ Js.ToString args ++ "."))
  | _ => ret tt
  end.

Definition create_ops (title areaPath iterationPath description : Value) : list Value :=
  ([op_add "/fields/System.Title" title]
   ++ (if Js.truthy areaPath then [op_add "/fields/System.AreaPath" areaPath] else [])
   ++ (if Js.truthy iterationPath
       then [op_add "/fields/System.IterationPath" iterationPath] else [])
   ++ (if Js.truthy description
       then [op_add "/fields/System.Description" description] else []))%list.

Definition update_ops (state iterationPath fields : Value) : list Value :=
  let ops := [] in
  let ops := push_if state (op_add "/fields/System.State" state) ops in
  let ops := push_if iterationPath
               (op_add "/fields/System.IterationPath" iterationPath) ops in
  let ops := if Js.truthy fields
             then (ops ++ map (fun kv => op_add ("/fields/" ++ fst kv) (snd kv))
                           (Js.entries fields))%list
             else ops in
  ops.

Definition move_ops (stateName iterationPath : Value) : list Value :=
  let fields := [] in
  let fields := if Js.truthy stateName
                then Js.assign "System.State" stateName fields else fields in
  let fields := if Js.truthy iterationPath
                then Js.assign "System.IterationPath" iterationPath fields else fields in
  map (fun kv => op_add ("/fields/" ++ fst kv) (snd kv)) (Js.entries (VObj fields)).

Definition dispatch (env : Env) (name : string) (args : Value)
  : M JsError CallToolResult :=
  let ado := ado env in
  switch name
    [("list_projects",
       result <- Ado.listProjects ado ;;
       ret (text_result result));
     ("list_pipelines",
       result <- Ado.listPipelines ado ;;
       ret (text_result result));
     ("list_builds",
       let buildArgs := args in
       result <- Ado.listBuilds ado buildArgs ;;
       ret (text_result result));
     ("wiql_query_team",
       destructure args "team" ;;
       result <- Ado.wiqlTeam ado (Js.prop args "team") (Js.prop args "wiql") ;;
       ret (text_result result));
     ("work_item_get",
       destructure args "id" ;;
       result <- Ado.getWorkItem ado (Js.prop args "id") ;;
       ret (text_result result));
     ("work_items_get",
       destructure args "ids" ;;
       result <- Ado.getWorkItems ado (Js.prop args "ids") (Js.prop args "fields") ;;
       ret (text_result result));
     ("work_item_create",
       destructure args "type" ;;
       let ops := create_ops (Js.prop args "title") (Js.prop args "areaPath")
                    (Js.prop args "iterationPath") (Js.prop args "description") in
       result <- Ado.createWorkItem ado (Js.prop args "type") (VArr ops) ;;
       ret (text_result result));
     ("work_item_update",
       destructure args "id" ;;
       let ops := update_ops (Js.prop args "state") (Js.prop args "iterationPath")
                    (Js.prop args "fields") in
       result <- Ado.updateWorkItem ado (Js.prop args "id") (VArr ops) ;;
       ret (text_result result));
     ("work_item_comment_add",
       destructure args "id" ;;
       result <- Ado.addComment ado (Js.prop args "id") (Js.prop args "text") ;;
       ret (text_result result));
     ("boards_list_columns",
       destructure args "team" ;;
       result <- Ado.listBoardColumns ado (Js.prop args "team") ;;
       ret (text_result result));
     ("iterations_list",
       destructure args "team" ;;
       result <- Ado.listTeamIterations ado (Js.prop args "team")
                   (Js.prop args "timeframe") ;;
       ret (text_result result));
     ("iteration_work_items",
       destructure args "team" ;;
       result <- Ado.getIterationWorkItems ado (Js.prop args "team")
                   (Js.prop args "iterationId") ;;
       ret (text_result result));
     ("board_move",
       destructure args "id" ;;
       let ops := move_ops (Js.prop args "stateName") (Js.prop args "iterationPath") in
       result <- Ado.updateWorkItem ado (Js.prop args "id") (VArr ops) ;;
       ret (text_result result))]
    (throw (McpError MethodNotFound ("Unknown tool: " ++ name))).

(** The [catch] block: every [error] here is an [Error] object. *)
Definition on_error {A} (name : string) (error : JsError) : M JsError A :=
  throw (McpError InternalError
           ("Error executing tool " ++ name ++ ": " ++ message error)).

Definition call_tool (env : Env) (name : string) (args : Value)
  : M JsError CallToolResult :=
  try_catch (dispatch env name args) (on_error name).

End Server0.

(** ** Vocabulary of the statements *)

(** The world after a run added the events [evs]. *)
Definition after (w : World) (evs : list Event) : World :=
  mkWorld (net w) (trace w ++ evs).

Definition is_2xx (sc : Z) : Prop := 200 <= sc < 300.

(** The statuses [adoGet] answers with a pause and another attempt. *)
Definition retryable (sc : Z) : Prop := sc = 429 \/ 500 <= sc.

(** The requests the three HTTP verbs of the client send. *)
Definition get_request (url pat : string) : Request :=
  mkRequest "GET" url [("Authorization", Ado.authHeader pat)] None.

Definition post_request (url pat : string) (body : Value) (contentType : string)
  : Request :=
  mkRequest "POST" url
    [("Authorization", Ado.authHeader pat); ("Content-Type", contentType)]
    (JSON.stringify body).

Definition patch_request (url pat : string) (body : Value) (contentType : string)
  : Request :=
  mkRequest "PATCH" url
    [("Authorization", Ado.authHeader pat); ("Content-Type", contentType)]
    (JSON.stringify body).

(** [n] attempts that each met 429 or 5xx: the request, then a pause of
    250ms times the number of the attempt. *)
Fixpoint backoff (r : Request) (n : nat) : list Event :=
  match n with
  | O => []
  | S k => backoff r k ++ [Requested r; Slept (250 * Z.of_nat (S k))]
  end.

(** The answer to attempt [n + 1] after [n] attempts that were retried. *)
Definition answer (w : World) (r : Request) (n : nat) : Outcome JsError Response :=
  net w (trace w ++ backoff r n)%list r.

(** A remote side that answers the requests by a script, one line for each
    request sent so far, and refuses the connection when the script is over. *)
Definition scripted (script : list (Outcome JsError Response)) : Network :=
  fun t _ => nth (List.length (requests t)) script
               (Throw (Error "connect ECONNREFUSED")).

(** An answer with the status [sc] and the JSON body [v]. *)
Definition answers (sc : Z) (v : Value) : Outcome JsError Response :=
  Return (mkResponse sc (Return v)).

(** A world at the start of a run. *)
Definition fresh (script : list (Outcome JsError Response)) : World :=
  mkWorld (scripted script) [].

(** The message of [e] shows the status [sc] and the address [url]. *)
Definition carries (e : JsError) (sc : Z) (url : string) : bool :=
  Str.includes (Str.of_Z sc) (message e) && Str.includes url (message e).

(** [headers[k]] of a request. *)
Definition header (k : string) (r : Request) : option string :=
  option_map snd (find (fun h => String.eqb (fst h) k) (headers r)).

(** Every request a computation sends satisfies [P], from any world. *)
Definition sends_only {E A} (P : Request -> Prop) (m : M E A) : Prop :=
  forall w, exists evs, snd (m w) = after w evs /\ Forall P (requests evs).

(** A computation makes one REST call, the request [r]: it sends [r] once,
    or up to three times when [r] is a GET, and sends nothing else. *)
Definition one_call {E A} (r : Request) (m : M E A) : Prop :=
  forall w, exists evs n,
    snd (m w) = after w evs
    /\ requests evs = repeat r n
    /\ (1 <= n <= 3)%nat
    /\ (method r <> "GET" -> n = 1%nat).

(** HTTP Basic authentication with an empty user name and [pat] as the
    password: the credentials [user:password] are [:pat]. *)
Definition basic_auth (pat : string) (r : Request) : Prop :=
  header "Authorization" r = Some ("Basic " ++ Buffer.toString_base64 ("" ++ ":" ++ pat)).

(** The options of [listBuilds] as the signature in [src/ado.ts] types
    them; [None] is an option that is not provided. *)
Record BuildOpts : Type := mkBuildOpts {
  definitions : option (list Z);
  branchName : option string;
  top : option Z;
  continuationToken : option string
}.

(** A property of an object when its value is provided. *)
Definition field (k : string) (v : option Value) : list (string * Value) :=
  match v with
  | Some x => [(k, x)]
  | None => []
  end.

Definition BuildOpts_value (b : BuildOpts) : Value :=
  VObj (field "definitions" (option_map (fun l => VArr (map VNum l)) (definitions b))
        ++ field "branchName" (option_map VStr (branchName b))
        ++ field "top" (option_map VNum (top b))
        ++ field "continuationToken" (option_map VStr (continuationToken b))).

(** A query parameter when it has a value. *)
Definition param (k : string) (v : option string) : URLSearchParams.t :=
  match v with
  | Some x => [(k, x)]
  | None => []
  end.

(** A string option that is provided and truthy. *)
Definition nonempty (o : option string) : option string :=
  match o with
  | Some s => if String.eqb s "" then None else Some s
  | None => None
  end.

(** A number option that is provided and truthy. *)
Definition nonzero (o : option Z) : option Z :=
  match o with
  | Some n => if n =? 0 then None else Some n
  | None => None
  end.

(** A list option that is provided and not empty. *)
Definition nonnil (o : option (list Z)) : option (list Z) :=
  match o with
  | Some (x :: l) => Some (x :: l)
  | _ => None
  end.

(** The characters of a percent-encoded component: the unreserved ones and
    the percent sign. *)
Definition uri_safe (c : ascii) : bool := uri_unreserved c || Ascii.eqb c "%".

(** The query the claim describes: the API version, then each option that
    is provided and truthy, the definitions joined with commas. *)
Definition builds_query (b : BuildOpts) : URLSearchParams.t :=
  ([("api-version", "6.0")]
   ++ param "$top" (option_map Str.of_Z (nonzero (top b)))
   ++ param "branchName" (nonempty (branchName b))
   ++ param "definitions"
        (option_map (fun l => Str.join "," (map Str.of_Z l)) (nonnil (definitions b)))
   ++ param "continuationToken" (nonempty (continuationToken b)))%list.

(** A schema without a record inside: what passes it comes back as it is. *)
Fixpoint plain (t : Zod.Schema) : bool :=
  match t with
  | Zod.record_ _ => false
  | Zod.optional_ inner => plain inner
  | Zod.array_ item => plain item
  | _ => true
  end.

(** The schema a shape gives to the key [k]. *)
Definition schema_of (shape : Zod.Shape) (k : string) : option Zod.Schema :=
  option_map snd (find (fun ks => String.eqb (fst ks) k) shape).

(** The name a tool puts, encoded, into the address: the team, or the type
    of the work item; [None] for a tool that encodes no argument, as
    [boards_list_columns] without a team. *)
Definition encoded_name (name : string) (args : Value) : option string :=
  switch name
    [("wiql_query_team", Some (Js.ToString (Js.prop args "team")));
     ("work_item_create", Some (Js.ToString (Js.prop args "type")));
     ("boards_list_columns",
       if Js.truthy (Js.prop args "team")
       then Some (Js.ToString (Js.prop args "team")) else None);
     ("iterations_list", Some (Js.ToString (Js.prop args "team")));
     ("iteration_work_items", Some (Js.ToString (Js.prop args "team")))]
    None.

(** [encodeURIComponent] accepts the name the tool encodes: it holds no
    lone surrogate. *)
Definition encodable (name : string) (args : Value) : bool :=
  match encoded_name name args with
  | Some s => negb (Str.lone_surrogate s)
  | None => true
  end.

(** The code unit D800 alone, a string of length 1. *)
Definition lone_D800 : string :=
  String (ascii_of_nat 237) (String (ascii_of_nat 160) (String (ascii_of_nat 128) "")).


(** The add operation for [path] when there is a value for it. *)
Definition add_if (path : string) (o : option string) : list Value :=
  match o with
  | Some s => [op_add path (VStr s)]
  | None => []
  end.



(** The arguments of [board_move] and of [work_item_update] without extra
    fields, of the declared types. *)
Definition board_move_args (id : Z) (stateName iterationPath : option string) : Value :=
  VObj ([("id", VNum id)]
        ++ field "stateName" (option_map VStr stateName)
        ++ field "iterationPath" (option_map VStr iterationPath)).

Definition work_item_update_args (id : Z) (state iterationPath : option string) : Value :=
  VObj ([("id", VNum id)]
        ++ field "state" (option_map VStr state)
        ++ field "iterationPath" (option_map VStr iterationPath)).

(** The PATCH both tools send for the work item [id]. *)
Definition move_request (env : Env) (id : Z) (stateName iterationPath : option string)
  : Request :=
  patch_request
    (Ado.orgBase (Ado.mkADOOpts (ADO_ORG env) (ADO_PROJECT env) (ADO_PAT env))
     ++ "/_apis/wit/workitems/" ++ Str.of_Z id ++ "?api-version=6.0")
    (ADO_PAT env)
    (VArr (add_if "/fields/System.State" (nonempty stateName)
           ++ add_if "/fields/System.IterationPath" (nonempty iterationPath)))
    "application/json-patch+json".

(** An environment and arguments to run the servers on. *)
Definition sample_env : Env := mkEnv "contoso" "token" (Some "My Project").

Definition sample_create_args : Value :=
  VObj [("type", VStr "Bug"); ("title", VStr "Crash on start");
        ("description", VStr ""); ("areaPath", VStr "Web\Checkout")].

(** ** Vocabulary of the further properties *)

(** A computation returns only what a 2xx answer of the remote side carried:
    the last thing the run did was to send a request [r], the remote side
    answered it, knowing the trace up to then, with a 2xx status, and the value
    [a] the run returns is [f] of the JSON body of this answer. *)
Definition from_2xx {E A} (f : Value -> A) (m : M E A) : Prop :=
  forall w a,
    fst (m w) = Return a ->
    exists evs r res v,
      snd (m w) = after w (evs ++ [Requested r])%list
      /\ net w (trace w ++ evs)%list r = Return res
      /\ is_2xx (statusCode res)
      /\ body_json res = Return v
      /\ a = f v.

(** A run is paced like one call of [adoGet] at most: at most three
    requests, and the pauses are the first ones of 250, 500 and 750 ms. *)
Definition paced {E A} (m : M E A) : Prop :=
  forall w, exists evs,
    snd (m w) = after w evs
    /\ (List.length (requests evs) <= 3)%nat
    /\ exists k, (k <= 3)%nat /\ sleeps evs = firstn k [250; 500; 750].

(** The arguments of [work_item_update] of the declared types; the extra
    fields are a record of strings. *)
Definition update_args (id : Z) (state iterationPath : option string)
  (fields : option (list (string * string))) : Value :=
  VObj ([("id", VNum id)]
        ++ field "state" (option_map VStr state)
        ++ field "iterationPath" (option_map VStr iterationPath)
        ++ field "fields"
             (option_map (fun fs => VObj (map (fun kv => (fst kv, VStr (snd kv))) fs))
                fields)).


(** The extra fields of [work_item_update], when the arguments have some,
    include no field named [__proto__]. *)
Definition no_proto_field (name : string) (args : Value) : Prop :=
  name = "work_item_update" ->
  forall fields, Js.prop args "fields" = VObj fields ->
                 Zod.has_key "__proto__" fields = false.



(** The value of a base64 digit. *)
Definition base64_value (c : ascii) : option Z :=
  let b := Z.of_N (N_of_ascii c) in
  if (65 <=? b) && (b <=? 90) then Some (b - 65)
  else if (97 <=? b) && (b <=? 122) then Some (b - 71)
  else if (48 <=? b) && (b <=? 57) then Some (b + 4)
  else if b =? 43 then Some 62
  else if b =? 47 then Some 63
  else None.

Definition chr (n : Z) : ascii := ascii_of_N (Z.to_N n).

(** [Buffer.from(s, "base64")] on padded base64: four digits give three
    bytes, the last group may end with one or two [=]; [None] is text that
    is not padded base64. It undoes [Buffer.toString_base64]. *)
Fixpoint from_base64 (s : string) : option string :=
  match s with
  | EmptyString => Some EmptyString
  | String c1 (String c2 (String c3 (String c4 rest))) =>
      match base64_value c1, base64_value c2 with
      | Some v1, Some v2 =>
          let b1 := chr (Z.lor (Z.shiftl v1 2) (Z.shiftr v2 4)) in
          if Ascii.eqb c3 "=" then
            if Ascii.eqb c4 "=" && String.eqb rest EmptyString
            then Some (String b1 EmptyString) else None
          else
            match base64_value c3 with
            | Some v3 =>
                let b2 := chr (Z.lor (Z.shiftl (Z.land v2 15) 4) (Z.shiftr v3 2)) in
                if Ascii.eqb c4 "=" then
                  if String.eqb rest EmptyString
                  then Some (String b1 (String b2 EmptyString)) else None
                else
                  match base64_value c4, from_base64 rest with
                  | Some v4, Some r =>
                      Some (String b1
                             (String b2
                               (String (chr (Z.lor (Z.shiftl (Z.land v3 3) 6) v4)) r)))
                  | _, _ => None
                  end
            | None => None
            end
      | _, _ => None
      end
  | _ => None
  end.

(** The bytes, and what the round trip of base64 needs of one byte and of
    two bytes that follow each other. *)
Definition bytes : list Z := map Z.of_nat (seq 0 256).

Definition sextet (n : Z) : bool :=
  (0 <=? n) && (n <? 64)
  && match base64_value (Buffer.digit n) with
     | Some v => v =? n
     | None => false
     end
  && negb (Ascii.eqb (Buffer.digit n) "=").

Definition byte_ok (a : Z) : bool :=
  sextet (Z.shiftr a 2) && sextet (Z.land a 63)
  && sextet (Z.shiftl (Z.land a 3) 4) && sextet (Z.shiftl (Z.land a 15) 2)
  && (Z.lor (Z.shiftl (Z.shiftr a 2) 2) (Z.shiftr (Z.shiftl (Z.land a 3) 4) 4) =? a)
  && (Z.lor (Z.shiftl (Z.shiftr a 4) 4) (Z.land a 15) =? a)
  && (Z.lor (Z.shiftl (Z.shiftr a 6) 6) (Z.land a 63) =? a)
  && (Z.shiftr (Z.shiftl (Z.land a 15) 2) 2 =? Z.land a 15).

Definition pair_ok (a b : Z) : bool :=
  let v2 := Z.lor (Z.shiftl (Z.land a 3) 4) (Z.shiftr b 4) in
  let v3 := Z.lor (Z.shiftl (Z.land a 15) 2) (Z.shiftr b 6) in
  sextet v2 && sextet v3
  && (Z.lor (Z.shiftl (Z.shiftr a 2) 2) (Z.shiftr v2 4) =? a)
  && (Z.land v2 15 =? Z.shiftr b 4)
  && (Z.shiftr v3 2 =? Z.land a 15)
  && (Z.land v3 3 =? Z.shiftr b 6).

(** The value of a hexadecimal digit. *)
Definition hex_value (c : ascii) : option Z :=
  let b := Z.of_N (N_of_ascii c) in
  if (48 <=? b) && (b <=? 57) then Some (b - 48)
  else if (65 <=? b) && (b <=? 70) then Some (b - 55)
  else if (97 <=? b) && (b <=? 102) then Some (b - 87)
  else None.

(** [decodeURIComponent] on the bytes: [%XX] is the byte XX, any other
    character is itself; [None] is what throws (a percent sign without two
    hexadecimal digits). It undoes [encodeURIComponent]. *)
Fixpoint decodeURIComponent (s : string) : option string :=
  match s with
  | EmptyString => Some EmptyString
  | String c rest =>
      if Ascii.eqb c "%" then
        match rest with
        | String h1 (String h2 rest') =>
            match hex_value h1, hex_value h2, decodeURIComponent rest' with
            | Some a, Some b, Some r =>
                Some (String (ascii_of_N (Z.to_N (16 * a + b))) r)
            | _, _, _ => None
            end
        | _ => None
        end
      else option_map (String c) (decodeURIComponent rest)
  end.

(** ** The list of tools of [dist/server.js] *)

Module ListTools.

(** An entry of the list. [inputSchema] is the zod schema the handler
    hands to [zodToMcpSchema]. *)
Record Tool : Type := mkTool {
  tool_name : string;
  description : string;
  inputSchema : Zod.Shape
}.

Definition EmptySchema : Zod.Shape := [].

(** What the handler of [ListToolsRequestSchema] returns. *)
Definition tools : list Tool :=
  [mkTool "list_projects" "List all projects in the Azure DevOps organization"
     EmptySchema;
   mkTool "list_pipelines" "List all pipelines in the Azure DevOps project"
     EmptySchema;
   mkTool "list_builds" "List builds with optional filters" Server.ListBuildsSchema;
   mkTool "wiql_query_team" "Run WIQL query against a team" Server.WiqlQueryTeamSchema;
   mkTool "work_item_get" "Get a single work item by ID" Server.WorkItemGetSchema;
   mkTool "work_items_get" "Get multiple work items by IDs" Server.WorkItemsGetSchema;
   mkTool "work_item_create" "Create a new work item" Server.WorkItemCreateSchema;
   mkTool "work_item_update" "Update an existing work item" Server.WorkItemUpdateSchema;
   mkTool "work_item_comment_add" "Add a comment to a work item"
     Server.WorkItemCommentAddSchema;
   mkTool "boards_list_columns" "List board columns for a team"
     Server.BoardsListColumnsSchema;
   mkTool "iterations_list" "List team iterations/sprints" Server.IterationsListSchema;
   mkTool "iteration_work_items" "Get work items in a specific iteration"
     Server.IterationWorkItemsSchema;
   mkTool "board_move" "Move a work item to a different state/sprint"
     Server.BoardMoveSchema].

End ListTools.

(** ** The start of the two servers *)

Module Startup.

(** [process.env]: the variables that are set, each with a string. *)
Definition ProcessEnv : Type := list (string * string).

(** [process.env[k]]; [None] is [undefined]. *)
Fixpoint getenv (k : string) (penv : ProcessEnv) : option string :=
  match penv with
  | [] => None
  | (k', v) :: rest => if String.eqb k' k then Some v else getenv k rest
  end.

(** [z.string().min(1, msg)] at the key [k] of [process.env]: the message
    [msg] is the one of the length check only. *)
Definition required (k msg : string) (v : option string) : list Zod.Issue :=
  match v with
  | Some s => if Str.length s <? 1 then [Zod.mkIssue [Zod.Key k] msg] else []
  | None => [Zod.mkIssue [Zod.Key k] "Required"]
  end.

Definition value (v : option string) : string :=
  match v with
  | Some s => s
  | None => ""
  end.

(** Lines 9 to 15 of [dist/server.js]: [envSchema.parse(process.env)] at
    the top of the module; nothing catches the [ZodError]. *)
Definition env (penv : ProcessEnv) : Outcome (list Zod.Issue) Env :=
  let org := getenv "ADO_ORG" penv in
  let pat := getenv "ADO_PAT" penv in
  match (required "ADO_ORG" "ADO_ORG is required" org
         ++ required "ADO_PAT" "ADO_PAT is required" pat)%list with
  | [] => Return (mkEnv (value org) (value pat) (getenv "ADO_PROJECT" penv))
  | issues => Throw issues
  end.

(** How the module of the earlier server goes on after its first lines. *)
Inductive Start : Type :=
| Exit (status : Z) (stderr : string)
| Running (e : Env).

(** [!v] for a variable of the environment. *)
Definition unset (v : option string) : bool :=
  match v with
  | Some s => String.eqb s ""
  | None => true
  end.

(** Lines 6 to 12 of the earlier server. *)
Definition env0 (penv : ProcessEnv) : Start :=
  let org := getenv "ADO_ORG" penv in
  let pat := getenv "ADO_PAT" penv in
  if unset org || unset pat
  then Exit 1 "Missing ADO_ORG or ADO_PAT environment variables."
  else Running (mkEnv (value org) (value pat) (getenv "ADO_PROJECT" penv)).

End Startup.

Example of_Z_ex : (Str.of_Z 0, Str.of_Z 429, Str.of_Z (-7)) = ("0", "429", "-7").
Proof. reflexivity. Qed.

Example base64_ex :
  map Buffer.toString_base64 [""; "f"; "fo"; "foo"; "foob"; "fooba"; "foobar"; ":pat"]
  = [""; "Zg=="; "Zm8="; "Zm9v"; "Zm9vYg=="; "Zm9vYmE="; "Zm9vYmFy"; "OnBhdA=="].
Proof. reflexivity. Qed.

Example encodeURIComponent_ex :
  encodeURIComponent "My Team/a&b?c=d~(x)" = "My%20Team%2Fa%26b%3Fc%3Dd~(x)".
Proof. reflexivity. Qed.

Example toString_ex :
  URLSearchParams.toString [("api-version", "6.0"); ("$top", "10"); ("branchName", "refs/heads/a b")]
  = "api-version=6.0&%24top=10&branchName=refs%2Fheads%2Fa+b".
Proof. reflexivity. Qed.

Example ToString_ex :
  map Js.ToString [VUndefined; VNum 42; VArr [VNum 1; VNull; VStr "a"]; VObj []]
  = ["undefined"; "42"; "1,,a"; "[object Object]"].
Proof. reflexivity. Qed.

Example stringify_ex :
  (JSON.stringify (VArr [VObj [("op", VStr "add"); ("n", VNum (-3)); ("x", VUndefined)];
                         VUndefined; VNull; VBool true; VObj []]),
   option_map (String.length) (JSON.stringify (VStr "a\b")),
   JSON.stringify VUndefined)
  = (option_map (fun s => s)
       (Some (String "[" (String "{" (JSON.quote "op" ++ ":" ++ JSON.quote "add" ++ ","
                                      ++ JSON.quote "n" ++ ":-3},null,null,true,{}]")))),
     Some 6%nat, None).
Proof. reflexivity. Qed.

(** ** The monad *)

Lemma after_after (w : World) (a b : list Event) :
  after (after w a) b = after w (a ++ b).
Proof. unfold after; simpl. now rewrite app_assoc. Qed.

Lemma after_nil (w : World) : after w [] = w.
Proof. destruct w; unfold after; simpl. now rewrite app_nil_r. Qed.

Lemma request_run (r : Request) (w : World) :
  request r w = (net w (trace w) r, after w [Requested r]).
Proof. reflexivity. Qed.

Lemma sleep_run (ms : Z) (w : World) : sleep ms w = (Return tt, after w [Slept ms]).
Proof. reflexivity. Qed.

(** ** The retry loop of [adoGet] *)

Lemma is_2xx_test (sc : Z) :
  (sc >=? 200) && (sc <? 300) = true <-> is_2xx sc.
Proof. unfold is_2xx. rewrite andb_true_iff, Z.geb_le, Z.ltb_lt. lia. Qed.

Lemma not_2xx_test (sc : Z) :
  (sc <? 200) || (sc >=? 300) = false <-> is_2xx sc.
Proof. unfold is_2xx. rewrite orb_false_iff, Z.ltb_ge, Z.geb_leb, Z.leb_gt. lia. Qed.

Lemma retryable_test (sc : Z) :
  (sc =? 429) || (sc >=? 500) = true <-> retryable sc.
Proof. unfold retryable. rewrite orb_true_iff, Z.eqb_eq, Z.geb_le. lia. Qed.

(** One turn of the loop. *)
Lemma adoGet_from_step (k : nat) (i : Z) (url pat : string) (w : World) :
  Ado.adoGet_from (S k) i url pat w =
  match net w (trace w) (get_request url pat) with
  | Throw e => (Throw e, after w [Requested (get_request url pat)])
  | Return res =>
      if (statusCode res >=? 200) && (statusCode res <? 300)
      then (body_json res, after w [Requested (get_request url pat)])
      else if (statusCode res =? 429) || (statusCode res >=? 500)
      then Ado.adoGet_from k (i + 1) url pat
             (after w [Requested (get_request url pat); Slept (250 * (i + 1))])
      else (Throw (Error (Str.of_Z (statusCode res) ++ " GET " ++ url)),
            after w [Requested (get_request url pat)])
  end.
Proof.
  cbn [Ado.adoGet_from]. unfold bind at 1. rewrite request_run.
  fold (get_request url pat).
  destruct (net w (trace w) (get_request url pat)) as [res|e]; [|reflexivity].
  destruct ((statusCode res >=? 200) && (statusCode res <? 300)); [reflexivity|].
  destruct ((statusCode res =? 429) || (statusCode res >=? 500)); [|reflexivity].
  unfold bind at 1. rewrite sleep_run, after_after. reflexivity.
Qed.

Lemma adoGet_from_done (i : Z) (url pat : string) (w : World) :
  Ado.adoGet_from 0 i url pat w =
  (Throw (Error ("Retries exceeded: GET " ++ url)), w).
Proof. reflexivity. Qed.


Lemma backoff_S (r : Request) (m : nat) :
  backoff r (S m) = (backoff r m ++ [Requested r; Slept (250 * (Z.of_nat m + 1))])%list.
Proof. cbn [backoff]. now rewrite Nat2Z.inj_succ, <- Z.add_1_r. Qed.

Lemma retryable_not_2xx (sc : Z) : retryable sc -> ~ is_2xx sc.
Proof. unfold retryable, is_2xx. lia. Qed.

(** The loop with [k] turns left after [m] attempts that were all retried:
    it stops at the first attempt [n] that is not answered 429 or 5xx, or
    gives up after the last turn. *)
Lemma adoGet_from_policy (url pat : string) (w : World) (k : nat) :
  forall m : nat,
  (0 < k)%nat ->
  exists n : nat,
    (m <= n < m + k)%nat
    /\ (forall j, (m <= j < n)%nat ->
          exists res, answer w (get_request url pat) j = Return res
                      /\ retryable (statusCode res))
    /\ match answer w (get_request url pat) n with
       | Throw e =>
           Ado.adoGet_from k (Z.of_nat m) url pat
             (after w (backoff (get_request url pat) m))
           = (Throw e,
              after w (backoff (get_request url pat) n
                       ++ [Requested (get_request url pat)]))
       | Return res =>
           (is_2xx (statusCode res) ->
            Ado.adoGet_from k (Z.of_nat m) url pat
              (after w (backoff (get_request url pat) m))
            = (body_json res,
               after w (backoff (get_request url pat) n
                        ++ [Requested (get_request url pat)])))
           /\ (retryable (statusCode res) ->
               S n = (m + k)%nat
               /\ Ado.adoGet_from k (Z.of_nat m) url pat
                    (after w (backoff (get_request url pat) m))
                  = (Throw (Error ("Retries exceeded: GET " ++ url)),
                     after w (backoff (get_request url pat) (m + k))))
           /\ (~ is_2xx (statusCode res) -> ~ retryable (statusCode res) ->
               Ado.adoGet_from k (Z.of_nat m) url pat
                 (after w (backoff (get_request url pat) m))
               = (Throw (Error (Str.of_Z (statusCode res) ++ " GET " ++ url)),
                  after w (backoff (get_request url pat) n
                           ++ [Requested (get_request url pat)])))
       end.
Proof.
  set (r := get_request url pat).
  induction k as [|k IH]; intros m Hk; [lia|].
  rewrite adoGet_from_step. fold r. rewrite !after_after.
  change (net (after w (backoff r m)) (trace (after w (backoff r m))) r)
    with (answer w r m).
  destruct (answer w r m) as [res|e] eqn:Hm.
  - destruct ((statusCode res >=? 200) && (statusCode res <? 300)) eqn:H2.
    + exists m. rewrite Hm. apply is_2xx_test in H2.
      split; [lia|]. split; [intros; lia|]. split; [reflexivity|]. split.
      * intros Hr. now apply retryable_not_2xx in Hr.
      * intros Hn. contradiction.
    + assert (N2 : ~ is_2xx (statusCode res))
        by (rewrite <- is_2xx_test, H2; discriminate).
      destruct ((statusCode res =? 429) || (statusCode res >=? 500)) eqn:HR.
      * apply retryable_test in HR. rewrite <- backoff_S.
        destruct k as [|k'].
        -- exists m. rewrite Hm, adoGet_from_done.
           replace (m + 1)%nat with (S m) by lia.
           split; [lia|]. split; [intros; lia|].
           split; [intros; contradiction|]. split; [|intros; contradiction].
           intros _. split; [lia|reflexivity].
        -- destruct (IH (S m)) as (n & Hn & Hpre & Hlast); [lia|].
           replace (Z.of_nat m + 1) with (Z.of_nat (S m)) by lia.
           exists n. split; [lia|]. split.
           ++ intros j Hj. destruct (Nat.eq_dec j m) as [->|Hne].
              ** exists res. now split.
              ** apply Hpre. lia.
           ++ replace (m + S (S k'))%nat with (S m + S k')%nat by lia.
              exact Hlast.
      * exists m. rewrite Hm.
        assert (NR : ~ retryable (statusCode res))
          by (rewrite <- retryable_test, HR; discriminate).
        split; [lia|]. split; [intros; lia|].
        split; [intros; contradiction|]. split; [intros; contradiction|].
        reflexivity.
  - exists m. rewrite Hm. split; [lia|]. split; [intros; lia|]. reflexivity.
Qed.

(** The loop of [adoGet] from its start: three turns, no attempt made yet. *)
Lemma adoGet_policy (url pat : string) (w : World) :
  exists n : nat,
    (n < 3)%nat
    /\ (forall j, (j < n)%nat ->
          exists res, answer w (get_request url pat) j = Return res
                      /\ retryable (statusCode res))
    /\ match answer w (get_request url pat) n with
       | Throw e =>
           Ado.adoGet url pat w
           = (Throw e,
              after w (backoff (get_request url pat) n
                       ++ [Requested (get_request url pat)]))
       | Return res =>
           (is_2xx (statusCode res) ->
            Ado.adoGet url pat w
            = (body_json res,
               after w (backoff (get_request url pat) n
                        ++ [Requested (get_request url pat)])))
           /\ (retryable (statusCode res) ->
               n = 2%nat
               /\ Ado.adoGet url pat w
                  = (Throw (Error ("Retries exceeded: GET " ++ url)),
                     after w [Requested (get_request url pat); Slept 250;
                              Requested (get_request url pat); Slept 500;
                              Requested (get_request url pat); Slept 750]))
           /\ (~ is_2xx (statusCode res) -> ~ retryable (statusCode res) ->
               Ado.adoGet url pat w
               = (Throw (Error (Str.of_Z (statusCode res) ++ " GET " ++ url)),
                  after w (backoff (get_request url pat) n
                           ++ [Requested (get_request url pat)])))
       end.
Proof.
  destruct (adoGet_from_policy url pat w 3 0) as (n & Hn & Hpre & Hlast); [lia|].
  cbn [backoff Z.of_nat] in Hlast. rewrite after_nil in Hlast.
  fold (Ado.adoGet url pat) in Hlast.
  exists n. split; [lia|]. split.
  - intros j Hj. apply Hpre. lia.
  - destruct (answer w (get_request url pat) n) as [res|e]; [|exact Hlast].
    destruct Hlast as (H2 & HR & HF). split; [exact H2|]. split; [|exact HF].
    intros Hr. destruct (HR Hr) as [E1 E2]. split; [lia|]. exact E2.
Qed.

(** C1. [adoGet] sends the GET at most three times. The attempts before the
    last were each answered 429 or 5xx and followed by a pause of 250ms times
    the number of the attempt. The last attempt decides: a 2xx status gives
    the body parsed as JSON; a status that is neither 2xx, 429 nor 5xx throws
    at once, with no pause and no further request; a third 429 or 5xx is
    followed by the third pause and the error of exhausted retries. *)
Theorem adoGet_retry_policy (url pat : string) (w : World) :
  exists n : nat,
    (n < 3)%nat
    /\ (forall j, (j < n)%nat ->
          exists res, answer w (get_request url pat) j = Return res
                      /\ retryable (statusCode res))
    /\ match answer w (get_request url pat) n with
       | Throw e =>
           Ado.adoGet url pat w
           = (Throw e,
              after w (backoff (get_request url pat) n
                       ++ [Requested (get_request url pat)]))
       | Return res =>
           (is_2xx (statusCode res) ->
            Ado.adoGet url pat w
            = (body_json res,
               after w (backoff (get_request url pat) n
                        ++ [Requested (get_request url pat)])))
           /\ (retryable (statusCode res) ->
               n = 2%nat
               /\ Ado.adoGet url pat w
                  = (Throw (Error ("Retries exceeded: GET " ++ url)),
                     after w [Requested (get_request url pat); Slept 250;
                              Requested (get_request url pat); Slept 500;
                              Requested (get_request url pat); Slept 750]))
           /\ (~ is_2xx (statusCode res) -> ~ retryable (statusCode res) ->
               Ado.adoGet url pat w
               = (Throw (Error (Str.of_Z (statusCode res) ++ " GET " ++ url)),
                  after w (backoff (get_request url pat) n
                           ++ [Requested (get_request url pat)])))
       end.
Proof. exact (adoGet_policy url pat w). Qed.

Example adoGet_200 :
  Ado.adoGet "https://o.visualstudio.com/_apis/projects?api-version=6.0" "pat"
    (fresh [answers 200 (VObj [("count", VNum 0)])])
  = (Return (VObj [("count", VNum 0)]),
     after (fresh [answers 200 (VObj [("count", VNum 0)])])
       [Requested (get_request "https://o.visualstudio.com/_apis/projects?api-version=6.0" "pat")]).
Proof. reflexivity. Qed.

Example adoGet_503_429_200 :
  Ado.adoGet "u" "pat" (fresh [answers 503 VNull; answers 429 VNull; answers 200 (VNum 1)])
  = (Return (VNum 1),
     after (fresh [answers 503 VNull; answers 429 VNull; answers 200 (VNum 1)])
       [Requested (get_request "u" "pat"); Slept 250;
        Requested (get_request "u" "pat"); Slept 500;
        Requested (get_request "u" "pat")]).
Proof. reflexivity. Qed.

Example adoGet_404 :
  Ado.adoGet "u" "pat" (fresh [answers 404 VNull; answers 200 (VNum 1)])
  = (Throw (Error "404 GET u"),
     after (fresh [answers 404 VNull; answers 200 (VNum 1)])
       [Requested (get_request "u" "pat")]).
Proof. reflexivity. Qed.

Example adoGet_exhausted :
  Ado.adoGet "u" "pat"
    (fresh [answers 500 VNull; answers 502 VNull; answers 503 VNull; answers 200 (VNum 1)])
  = (Throw (Error "Retries exceeded: GET u"),
     after (fresh [answers 500 VNull; answers 502 VNull; answers 503 VNull; answers 200 (VNum 1)])
       [Requested (get_request "u" "pat"); Slept 250;
        Requested (get_request "u" "pat"); Slept 500;
        Requested (get_request "u" "pat"); Slept 750]).
Proof. reflexivity. Qed.

(** ** POST and PATCH *)

Lemma adoPost_run (url pat : string) (body : Value) (ct : option string) (w : World) :
  Ado.adoPost url pat body ct w =
  (match net w (trace w)
           (post_request url pat body (Ado.default "application/json" ct)) with
   | Throw e => Throw e
   | Return res =>
       if (statusCode res <? 200) || (statusCode res >=? 300)
       then Throw (Error (Str.of_Z (statusCode res) ++ " POST " ++ url))
       else body_json res
   end,
   after w [Requested (post_request url pat body (Ado.default "application/json" ct))]).
Proof.
  unfold Ado.adoPost, bind. rewrite request_run.
  fold (post_request url pat body (Ado.default "application/json" ct)).
  destruct (net w (trace w) _) as [res|e]; [|reflexivity].
  destruct ((statusCode res <? 200) || (statusCode res >=? 300)); reflexivity.
Qed.

Lemma adoPatch_run (url pat : string) (body : Value) (ct : option string) (w : World) :
  Ado.adoPatch url pat body ct w =
  (match net w (trace w)
           (patch_request url pat body (Ado.default "application/json-patch+json" ct)) with
   | Throw e => Throw e
   | Return res =>
       if (statusCode res <? 200) || (statusCode res >=? 300)
       then Throw (Error (Str.of_Z (statusCode res) ++ " PATCH " ++ url))
       else body_json res
   end,
   after w [Requested (patch_request url pat body
                         (Ado.default "application/json-patch+json" ct))]).
Proof.
  unfold Ado.adoPatch, bind. rewrite request_run.
  fold (patch_request url pat body (Ado.default "application/json-patch+json" ct)).
  destruct (net w (trace w) _) as [res|e]; [|reflexivity].
  destruct ((statusCode res <? 200) || (statusCode res >=? 300)); reflexivity.
Qed.

(** What a single request and its answer let a POST or a PATCH return. *)
Lemma once_outcome (verb url : string) (o : Outcome JsError Response)
  (got : Outcome JsError Value) :
  got = match o with
        | Throw e => Throw e
        | Return res =>
            if (statusCode res <? 200) || (statusCode res >=? 300)
            then Throw (Error (Str.of_Z (statusCode res) ++ verb ++ url))
            else body_json res
        end ->
  match o with
  | Throw e => got = Throw e
  | Return res =>
      (is_2xx (statusCode res) -> got = body_json res)
      /\ (~ is_2xx (statusCode res) ->
          got = Throw (Error (Str.of_Z (statusCode res) ++ verb ++ url)))
  end.
Proof.
  intros ->. destruct o as [res|e]; [|reflexivity].
  destruct ((statusCode res <? 200) || (statusCode res >=? 300)) eqn:T.
  - split; [|reflexivity]. intros H. apply not_2xx_test in H. congruence.
  - apply not_2xx_test in T. split; [reflexivity|]. intros H. contradiction.
Qed.

(** A lone surrogate is one code unit and is refused; the pair D83D DE00,
    the four bytes F0 9F 98 80, is two code units and is encoded. *)
Example lone_surrogate_ex :
  Str.lone_surrogate lone_D800 = true
  /\ Str.length lone_D800 = 1
  /\ fst (encodeURIComponent_call lone_D800 (fresh []))
     = Throw (URIError "URI malformed")
  /\ fst (encodeURIComponent_call
            (String (ascii_of_nat 240) (String (ascii_of_nat 159)
               (String (ascii_of_nat 152) (String (ascii_of_nat 128) ""))))
            (fresh []))
     = Return "%F0%9F%98%80"
  /\ Str.length (String (ascii_of_nat 240) (String (ascii_of_nat 159)
                   (String (ascii_of_nat 152) (String (ascii_of_nat 128) ""))))
     = 2.
Proof. repeat split. Qed.

(** What follows the call of [encodeURIComponent] runs on the encoding, or
    not at all. *)
Lemma encoded_run {A} (s : string) (k : string -> M JsError A) (w : World) :
  bind (encodeURIComponent_call s) k w
  = if Str.lone_surrogate s then (Throw (URIError "URI malformed"), w)
    else k (encodeURIComponent s) w.
Proof.
  unfold encodeURIComponent_call, bind. destruct (Str.lone_surrogate s); reflexivity.
Qed.

(** C2. A POST and a PATCH send one request and nothing else happens: no
    pause, no second request. A 2xx status gives the body parsed as JSON,
    any other status throws. The five methods of the client that write
    (three by POST, two by PATCH) do the same; the two that encode a name
    into the address send nothing when the name holds a lone surrogate, on
    which [encodeURIComponent] throws. *)
Theorem post_and_patch_sent_once
  (url pat : string) (body : Value) (ct : option string) (w : World) :
  (snd (Ado.adoPost url pat body ct w)
   = after w [Requested (post_request url pat body (Ado.default "application/json" ct))]
   /\ match net w (trace w)
              (post_request url pat body (Ado.default "application/json" ct)) with
      | Throw e => fst (Ado.adoPost url pat body ct w) = Throw e
      | Return res =>
          (is_2xx (statusCode res) ->
           fst (Ado.adoPost url pat body ct w) = body_json res)
          /\ (~ is_2xx (statusCode res) ->
              fst (Ado.adoPost url pat body ct w)
              = Throw (Error (Str.of_Z (statusCode res) ++ " POST " ++ url)))
      end)
  /\ (snd (Ado.adoPatch url pat body ct w)
      = after w [Requested (patch_request url pat body
                              (Ado.default "application/json-patch+json" ct))]
      /\ match net w (trace w)
                 (patch_request url pat body
                    (Ado.default "application/json-patch+json" ct)) with
         | Throw e => fst (Ado.adoPatch url pat body ct w) = Throw e
         | Return res =>
             (is_2xx (statusCode res) ->
              fst (Ado.adoPatch url pat body ct w) = body_json res)
             /\ (~ is_2xx (statusCode res) ->
                 fst (Ado.adoPatch url pat body ct w)
                 = Throw (Error (Str.of_Z (statusCode res) ++ " PATCH " ++ url)))
         end)
  /\ (forall (o : Ado.ADOOpts) (a b : Value),
        (exists r, method r = "POST"
                   /\ snd (Ado.wiqlTeam (Ado.makeADO o) a b w)
                      = if Str.lone_surrogate (Js.ToString a) then w
                        else after w [Requested r])
        /\ (exists r, method r = "POST"
                      /\ snd (Ado.getWorkItems (Ado.makeADO o) a b w)
                         = after w [Requested r])
        /\ (exists r, method r = "POST"
                      /\ snd (Ado.addComment (Ado.makeADO o) a b w)
                         = after w [Requested r])
        /\ (exists r, method r = "PATCH"
                      /\ snd (Ado.createWorkItem (Ado.makeADO o) a b w)
                         = if Str.lone_surrogate (Js.ToString a) then w
                           else after w [Requested r])
        /\ (exists r, method r = "PATCH"
                      /\ snd (Ado.updateWorkItem (Ado.makeADO o) a b w)
                         = after w [Requested r])).
Proof.
  split; [|split].
  - rewrite adoPost_run. split; [reflexivity|]. cbn [fst].
    now apply once_outcome.
  - rewrite adoPatch_run. split; [reflexivity|]. cbn [fst].
    now apply once_outcome.
  - intros o a b. cbn [Ado.makeADO Ado.wiqlTeam Ado.getWorkItems Ado.addComment
                       Ado.createWorkItem Ado.updateWorkItem].
    rewrite !encoded_run, !adoPost_run, !adoPatch_run. cbn [snd].
    split; [|split; [|split; [|split]]].
    + exists (post_request
                (Ado.orgBase o ++ "/" ++ encodeURIComponent (Js.ToString a)
                 ++ "/_apis/wit/wiql?api-version=6.0")
                (Ado.pat o) (Ado.obj [("query", b)]) "application/json").
      split; [reflexivity|].
      destruct (Str.lone_surrogate (Js.ToString a)); reflexivity.
    + eexists; (split; [|reflexivity]); reflexivity.
    + eexists; (split; [|reflexivity]); reflexivity.
    + exists (patch_request
                (Ado.orgBase o ++ "/_apis/wit/workitems/$"
                 ++ encodeURIComponent (Js.ToString a) ++ "?api-version=6.0")
                (Ado.pat o) b "application/json-patch+json").
      split; [reflexivity|].
      destruct (Str.lone_surrogate (Js.ToString a)); reflexivity.
    + eexists; (split; [|reflexivity]); reflexivity.
Qed.

(** ** The messages of the errors *)

Lemma prefix_app (p b : string) : String.prefix p (p ++ b) = true.
Proof.
  induction p as [|c p IH]; [destruct b; reflexivity|]. simpl.
  destruct (ascii_dec c c); [exact IH|contradiction].
Qed.

Lemma includes_unfold (p s : string) :
  Str.includes p s =
  String.prefix p s || match s with
                       | EmptyString => false
                       | String _ s' => Str.includes p s'
                       end.
Proof. destruct s; reflexivity. Qed.

Lemma includes_app (p a b : string) : Str.includes p (a ++ p ++ b) = true.
Proof.
  induction a as [|c a IH].
  - simpl. rewrite includes_unfold, prefix_app. reflexivity.
  - simpl. rewrite IH. apply orb_true_r.
Qed.

Lemma includes_prefix (p b : string) : Str.includes p (p ++ b) = true.
Proof. apply (includes_app p "" b). Qed.

Lemma includes_suffix (p a : string) : Str.includes p (a ++ p) = true.
Proof.
  pose proof (includes_app p a "") as H.
  replace (p ++ "") with p in H; [exact H|].
  clear. induction p; simpl; congruence.
Qed.

Lemma includes_later (p a s : string) :
  Str.includes p s = true -> Str.includes p (a ++ s) = true.
Proof.
  intros H. induction a as [|c a IH]; [exact H|].
  simpl. rewrite IH. apply orb_true_r.
Qed.

Lemma carries_immediate (sc : Z) (verb url : string) :
  carries (Error (Str.of_Z sc ++ verb ++ url)) sc url = true.
Proof.
  unfold carries, Error; cbn [message].
  rewrite includes_prefix. simpl.
  apply includes_later, includes_suffix.
Qed.

Lemma exhausted_includes_url (url : string) :
  Str.includes url (message (Error ("Retries exceeded: GET " ++ url))) = true.
Proof. unfold Error; cbn [message]. apply includes_suffix. Qed.

(** The claim C3 fails when the retries are exhausted: after three answers
    503 the error names the address and no status. *)
Lemma exhausted_error_lacks_status :
  fst (Ado.adoGet "https://o.visualstudio.com/_apis/projects?api-version=6.0" "pat"
         (fresh [answers 503 VNull; answers 503 VNull; answers 503 VNull]))
  = Throw (Error "Retries exceeded: GET https://o.visualstudio.com/_apis/projects?api-version=6.0")
  /\ carries
       (Error "Retries exceeded: GET https://o.visualstudio.com/_apis/projects?api-version=6.0")
       503 "https://o.visualstudio.com/_apis/projects?api-version=6.0" = false
  /\ Str.includes "503"
       "Retries exceeded: GET https://o.visualstudio.com/_apis/projects?api-version=6.0"
     = false.
Proof. repeat split. Qed.

(** C3, amended. An error thrown for a status that is neither 2xx, 429 nor
    5xx on a GET, or not 2xx on a POST or a PATCH, has the message
    [<status> <VERB> <url>], so it carries the status code and the address.
    The error thrown when the retries of a GET are exhausted has the message
    [Retries exceeded: GET <url>]: it carries the address and no status code.
    Any other error [adoGet] throws is the failure of a request or of the
    parsing of a 2xx body. *)
Theorem http_error_messages :
  (forall url pat body ct w res,
      net w (trace w) (post_request url pat body (Ado.default "application/json" ct))
      = Return res ->
      ~ is_2xx (statusCode res) ->
      fst (Ado.adoPost url pat body ct w)
      = Throw (Error (Str.of_Z (statusCode res) ++ " POST " ++ url))
      /\ carries (Error (Str.of_Z (statusCode res) ++ " POST " ++ url))
           (statusCode res) url = true)
  /\ (forall url pat body ct w res,
         net w (trace w)
           (patch_request url pat body (Ado.default "application/json-patch+json" ct))
         = Return res ->
         ~ is_2xx (statusCode res) ->
         fst (Ado.adoPatch url pat body ct w)
         = Throw (Error (Str.of_Z (statusCode res) ++ " PATCH " ++ url))
         /\ carries (Error (Str.of_Z (statusCode res) ++ " PATCH " ++ url))
              (statusCode res) url = true)
  /\ (forall url pat w e,
         fst (Ado.adoGet url pat w) = Throw e ->
         (exists n, (n < 3)%nat /\ answer w (get_request url pat) n = Throw e)
         \/ (exists n res, (n < 3)%nat
                           /\ answer w (get_request url pat) n = Return res
                           /\ is_2xx (statusCode res)
                           /\ body_json res = Throw e)
         \/ (exists n res, (n < 3)%nat
                           /\ answer w (get_request url pat) n = Return res
                           /\ ~ is_2xx (statusCode res)
                           /\ ~ retryable (statusCode res)
                           /\ e = Error (Str.of_Z (statusCode res) ++ " GET " ++ url)
                           /\ carries e (statusCode res) url = true)
         \/ ((forall j, (j < 3)%nat ->
                exists res, answer w (get_request url pat) j = Return res
                            /\ retryable (statusCode res))
             /\ e = Error ("Retries exceeded: GET " ++ url)
             /\ Str.includes url (message e) = true)).
Proof.
  split; [|split].
  - intros url pat body ct w res Hnet H2.
    rewrite adoPost_run, Hnet. cbn [fst].
    destruct ((statusCode res <? 200) || (statusCode res >=? 300)) eqn:T.
    + split; [reflexivity|apply carries_immediate].
    + apply not_2xx_test in T. contradiction.
  - intros url pat body ct w res Hnet H2.
    rewrite adoPatch_run, Hnet. cbn [fst].
    destruct ((statusCode res <? 200) || (statusCode res >=? 300)) eqn:T.
    + split; [reflexivity|apply carries_immediate].
    + apply not_2xx_test in T. contradiction.
  - intros url pat w e Hthrow.
    destruct (adoGet_policy url pat w) as (n & Hn & Hpre & Hlast).
    destruct (answer w (get_request url pat) n) as [res|e'] eqn:Hans.
    + destruct Hlast as (H2 & HR & HF).
      destruct (Z_le_dec 200 (statusCode res)) as [Hlo|Hlo];
        [destruct (Z_lt_dec (statusCode res) 300) as [Hhi|Hhi]|].
      * assert (I2 : is_2xx (statusCode res)) by (unfold is_2xx; lia).
        rewrite (H2 I2) in Hthrow. cbn [fst] in Hthrow.
        right; left. exists n, res. auto.
      * assert (N2 : ~ is_2xx (statusCode res)) by (unfold is_2xx; lia).
        destruct (Z.eq_dec (statusCode res) 429) as [E|NE];
          [|destruct (Z_le_dec 500 (statusCode res)) as [G|NG]].
        -- destruct (HR (or_introl E)) as [-> Hrun].
           rewrite Hrun in Hthrow. injection Hthrow as <-.
           right; right; right. split; [|split; [reflexivity|apply exhausted_includes_url]].
           intros j Hj. destruct (Nat.eq_dec j 2) as [->|].
           ++ exists res. split; [exact Hans|now left].
           ++ apply Hpre. lia.
        -- destruct (HR (or_intror G)) as [-> Hrun].
           rewrite Hrun in Hthrow. injection Hthrow as <-.
           right; right; right. split; [|split; [reflexivity|apply exhausted_includes_url]].
           intros j Hj. destruct (Nat.eq_dec j 2) as [->|].
           ++ exists res. split; [exact Hans|now right].
           ++ apply Hpre. lia.
        -- assert (NR : ~ retryable (statusCode res)) by (unfold retryable; lia).
           rewrite (HF N2 NR) in Hthrow. injection Hthrow as <-.
           right; right; left. exists n, res.
           repeat (split; [assumption|]). split; [reflexivity|].
           apply (carries_immediate _ " GET ").
      * assert (N2 : ~ is_2xx (statusCode res)) by (unfold is_2xx; lia).
        assert (NR : ~ retryable (statusCode res)) by (unfold retryable; lia).
        rewrite (HF N2 NR) in Hthrow. injection Hthrow as <-.
        right; right; left. exists n, res.
        repeat (split; [assumption|]). split; [reflexivity|].
        apply (carries_immediate _ " GET ").
    + rewrite Hlast in Hthrow. injection Hthrow as <-.
      left. exists n. auto.
Qed.

(** ** Counting the requests of a run *)

Lemma requests_app (a b : list Event) : requests (a ++ b) = (requests a ++ requests b)%list.
Proof. unfold requests. apply flat_map_app. Qed.

Lemma repeat_snoc {A} (x : A) (n : nat) : (repeat x n ++ [x])%list = repeat x (S n).
Proof. induction n as [|n IH]; [reflexivity|]. simpl. now rewrite IH. Qed.

Lemma requests_backoff (r : Request) (n : nat) : requests (backoff r n) = repeat r n.
Proof.
  induction n as [|n IH]; [reflexivity|].
  cbn [backoff]. rewrite requests_app, IH. cbn. apply repeat_snoc.
Qed.

Lemma status_cases (sc : Z) :
  is_2xx sc \/ retryable sc \/ (~ is_2xx sc /\ ~ retryable sc).
Proof. unfold is_2xx, retryable. lia. Qed.

Lemma adoGet_one_call (url pat : string) :
  one_call (get_request url pat) (Ado.adoGet url pat).
Proof.
  intros w. set (r := get_request url pat).
  destruct (adoGet_policy url pat w) as (n & Hn & _ & Hlast). fold r in Hlast.
  assert (Hstop : requests (backoff r n ++ [Requested r]) = repeat r (S n)).
  { rewrite requests_app, requests_backoff. apply repeat_snoc. }
  destruct (answer w r n) as [res|e].
  - destruct Hlast as (H2 & HR & HF).
    destruct (status_cases (statusCode res)) as [C|[C|[C1 C2]]].
    + exists (backoff r n ++ [Requested r])%list, (S n). rewrite (H2 C).
      repeat split; try assumption; try lia. intros H; now elim H.
    + destruct (HR C) as [-> Hrun]. eexists _, 3%nat. rewrite Hrun.
      repeat split; try lia. intros H; now elim H.
    + exists (backoff r n ++ [Requested r])%list, (S n). rewrite (HF C1 C2).
      repeat split; try assumption; try lia. intros H; now elim H.
  - exists (backoff r n ++ [Requested r])%list, (S n). rewrite Hlast.
    repeat split; try assumption; try lia. intros H; now elim H.
Qed.

Lemma adoPost_one_call (url pat : string) (body : Value) (ct : option string) :
  one_call (post_request url pat body (Ado.default "application/json" ct))
    (Ado.adoPost url pat body ct).
Proof.
  intros w. eexists _, 1%nat. rewrite adoPost_run.
  repeat split; lia.
Qed.

Lemma adoPatch_one_call (url pat : string) (body : Value) (ct : option string) :
  one_call (patch_request url pat body (Ado.default "application/json-patch+json" ct))
    (Ado.adoPatch url pat body ct).
Proof.
  intros w. eexists _, 1%nat. rewrite adoPatch_run.
  repeat split; lia.
Qed.

(** After the encoding of a name without lone surrogate the call goes on
    with the encoded name. *)
Lemma encoded_one_call {A} (r : Request) (s : string) (k : string -> M JsError A) :
  Str.lone_surrogate s = false ->
  one_call r (k (encodeURIComponent s)) ->
  one_call r (bind (encodeURIComponent_call s) k).
Proof. intros H Hk w. rewrite encoded_run, H. apply Hk. Qed.

Lemma one_call_sends_only {E A} (P : Request -> Prop) (r : Request) (m : M E A) :
  one_call r m -> P r -> sends_only P m.
Proof.
  intros H Hr w. destruct (H w) as (evs & n & Hw & Hreq & _).
  exists evs. split; [exact Hw|]. rewrite Hreq.
  clear -Hr. induction n; simpl; auto.
Qed.

Lemma silent_sends_only {E A} (P : Request -> Prop) (m : M E A) :
  (forall w, snd (m w) = w) -> sends_only P m.
Proof.
  intros H w. exists []. rewrite H, after_nil. split; [reflexivity|constructor].
Qed.

Lemma bind_sends_only {E A B} (P : Request -> Prop) (m : M E A) (k : A -> M E B) :
  sends_only P m -> (forall a, sends_only P (k a)) -> sends_only P (bind m k).
Proof.
  intros Hm Hk w. unfold bind. destruct (Hm w) as (e1 & Hw1 & HP1).
  destruct (m w) as [[a|e] w1]; cbn [snd] in Hw1; subst w1.
  - destruct (Hk a (after w e1)) as (e2 & Hw2 & HP2).
    exists (e1 ++ e2)%list. rewrite Hw2, after_after. split; [reflexivity|].
    rewrite requests_app. apply Forall_app. now split.
  - exists e1. now split.
Qed.

Lemma try_catch_sends_only {E E' A} (P : Request -> Prop)
  (m : M E A) (h : E -> M E' A) :
  sends_only P m -> (forall e, sends_only P (h e)) -> sends_only P (try_catch m h).
Proof.
  intros Hm Hh w. unfold try_catch. destruct (Hm w) as (e1 & Hw1 & HP1).
  destruct (m w) as [[a|e] w1]; cbn [snd] in Hw1; subst w1.
  - exists e1. now split.
  - destruct (Hh e (after w e1)) as (e2 & Hw2 & HP2).
    exists (e1 ++ e2)%list. rewrite Hw2, after_after. split; [reflexivity|].
    rewrite requests_app. apply Forall_app. now split.
Qed.

Lemma switch_ind {A} (Q : A -> Prop) (name : string)
  (cases : list (string * A)) (otherwise : A) :
  Forall (fun c => Q (snd c)) cases -> Q otherwise -> Q (switch name cases otherwise).
Proof.
  intros Hc Hd. induction Hc as [|[label branch] rest Hb _ IH]; [exact Hd|].
  cbn [switch]. destruct (String.eqb name label); [exact Hb|exact IH].
Qed.

Lemma switch_otherwise {A} (name : string) (cases : list (string * A)) (otherwise : A) :
  ~ In name (map fst cases) -> switch name cases otherwise = otherwise.
Proof.
  induction cases as [|[label branch] rest IH]; [reflexivity|].
  cbn [switch map fst In]. intros H.
  destruct (String.eqb_spec name label) as [->|_]; [tauto|]. apply IH. tauto.
Qed.

(** ** The dispatcher as a table *)

Ltac run_branch :=
  cbv [String.eqb Ascii.eqb Bool.eqb];
  unfold Server.reply, Server.parse_args, Server.await, lift, try_catch, bind, ret, throw;
  repeat match goal with
         | |- context [Zod.parse ?s ?a] => destruct (Zod.parse s a)
         end;
  try reflexivity;
  repeat match goal with
         | |- context [match ?m ?w with pair _ _ => _ end] =>
             destruct (m w) as [[?|?] ?]
         end;
  reflexivity.

(** The [switch] of the handler: parse with the schema of the tool, then
    make the call of the tool and wrap its result. *)
Lemma dispatch_table (env : Env) (name : string) (args : Value) (w : World) :
  Server.dispatch env name args w =
  match Server.tool_schema name with
  | None => Server.reply (Server.client_call env name args) w
  | Some shape =>
      match Zod.parse shape args with
      | Throw issues => (Throw (Server.ZodError issues), w)
      | Return parsed => Server.reply (Server.client_call env name parsed) w
      end
  end.
Proof.
  unfold Server.dispatch, Server.tool_schema, Server.client_call.
  cbn [switch].
  repeat match goal with
         | |- context [String.eqb name ?label] =>
             destruct (String.eqb_spec name label) as [->|_]; [run_branch|]
         end.
  run_branch.
Qed.

(** ** The Authorization header *)

(** The methods of the client, unfolded to the verbs they call. *)
Ltac expose_methods :=
  unfold Server.ado, Server0.ado;
  cbn [Ado.makeADO Ado.listProjects Ado.listPipelines Ado.listBuilds Ado.wiqlTeam
         Ado.getWorkItem Ado.getWorkItems Ado.createWorkItem Ado.updateWorkItem
         Ado.addComment Ado.listBoardColumns Ado.listTeamIterations
         Ado.getIterationWorkItems Ado.org Ado.pat].

(** Encoding a name sends nothing, whether it returns or throws. *)
Lemma encoded_silent (s : string) (w : World) : snd (encodeURIComponent_call s w) = w.
Proof. unfold encodeURIComponent_call. destruct (Str.lone_surrogate s); reflexivity. Qed.

(** Nor does the choice of the address of [listBoardColumns]. *)
Lemma columns_url_silent (team : Value) (f : string -> string) (c : string)
  (w : World) :
  snd ((if Js.truthy team
        then encoded <- encodeURIComponent_call (Js.ToString team) ;;
             ret (f encoded)
        else ret c) w) = w.
Proof.
  destruct (Js.truthy team); [|reflexivity].
  rewrite encoded_run. destruct (Str.lone_surrogate _); reflexivity.
Qed.

Ltac sends_only_step :=
  first
    [ eapply one_call_sends_only; [apply adoGet_one_call|reflexivity]
    | eapply one_call_sends_only; [apply adoPost_one_call|reflexivity]
    | eapply one_call_sends_only; [apply adoPatch_one_call|reflexivity]
    | match goal with
      | |- sends_only _ (bind (encodeURIComponent_call _) _) =>
          apply bind_sends_only;
          [apply silent_sends_only; apply encoded_silent|intros ?; sends_only_step]
      | |- sends_only _ (bind (if _ then _ else _) _) =>
          apply bind_sends_only;
          [apply silent_sends_only; intros ?;
           apply columns_url_silent
          |intros ?; sends_only_step]
      end
    | apply silent_sends_only; intros ?; reflexivity ].

Lemma listBuilds_sends_only (o : Ado.ADOOpts) (opts : Value) :
  sends_only (basic_auth (Ado.pat o)) (Ado.listBuilds (Ado.makeADO o) opts).
Proof.
  cbn [Ado.makeADO Ado.listBuilds]. apply bind_sends_only.
  - apply silent_sends_only. intros w. reflexivity.
  - intros q. sends_only_step.
Qed.

Lemma client_call_sends_only (env : Env) (name : string) (parsed : Value) :
  sends_only (basic_auth (ADO_PAT env)) (Server.client_call env name parsed).
Proof.
  unfold Server.client_call. apply switch_ind; [|sends_only_step].
  repeat (apply Forall_cons; [cbn [snd]|]); try apply Forall_nil;
    try apply (listBuilds_sends_only
                 (Ado.mkADOOpts (ADO_ORG env) (ADO_PROJECT env) (ADO_PAT env)));
    expose_methods; sends_only_step.
Qed.

Lemma dispatch_sends_only (env : Env) (name : string) (args : Value) :
  sends_only (basic_auth (ADO_PAT env)) (Server.dispatch env name args).
Proof.
  intros w. rewrite dispatch_table.
  assert (R : forall parsed,
             sends_only (basic_auth (ADO_PAT env))
               (Server.reply (Server.client_call env name parsed))).
  { intros parsed. unfold Server.reply, Server.await, lift.
    apply bind_sends_only; [apply try_catch_sends_only|].
    - apply client_call_sends_only.
    - intros e. sends_only_step.
    - intros v. sends_only_step. }
  destruct (Server.tool_schema name) as [shape|]; [|apply R].
  destruct (Zod.parse shape args) as [parsed|issues]; [apply R|].
  exists []. rewrite after_nil. split; [reflexivity|constructor].
Qed.

Lemma destructure_silent (P : Request -> Prop) (args : Value) (first : string) :
  sends_only P (Server0.destructure args first).
Proof. apply silent_sends_only. intros w. destruct args; reflexivity. Qed.

Lemma dispatch0_sends_only (env : Env) (name : string) (args : Value) :
  sends_only (basic_auth (ADO_PAT env)) (Server0.dispatch env name args).
Proof.
  unfold Server0.dispatch. apply switch_ind; [|sends_only_step].
  repeat (apply Forall_cons; [cbn [snd]|]); try apply Forall_nil;
    repeat match goal with
           | |- sends_only _ (bind _ _) => apply bind_sends_only; [|intros ?]
           end;
    try apply destructure_silent;
    try apply (listBuilds_sends_only (Ado.mkADOOpts (ADO_ORG env) _ (ADO_PAT env)));
    expose_methods; sends_only_step.
Qed.

(** C5. The Authorization header is ["Basic "] followed by the base64 of
    [":"] and the token. Every request the three HTTP verbs of the client
    send carries it, and so does every request a tool call of either server
    sends, with the token of the environment. *)
Theorem basic_auth_on_every_request :
  (forall pat, Ado.authHeader pat = "Basic " ++ Buffer.toString_base64 (":" ++ pat))
  /\ (forall url pat, sends_only (basic_auth pat) (Ado.adoGet url pat))
  /\ (forall url pat body ct, sends_only (basic_auth pat) (Ado.adoPost url pat body ct))
  /\ (forall url pat body ct, sends_only (basic_auth pat) (Ado.adoPatch url pat body ct))
  /\ (forall env name args,
         sends_only (basic_auth (ADO_PAT env)) (Server.call_tool env name args))
  /\ (forall env name args,
         sends_only (basic_auth (ADO_PAT env)) (Server0.call_tool env name args)).
Proof.
  split; [reflexivity|]. repeat split; intros.
  - sends_only_step.
  - sends_only_step.
  - sends_only_step.
  - unfold Server.call_tool. apply try_catch_sends_only.
    + apply dispatch_sends_only.
    + intros [issues|e]; sends_only_step.
  - unfold Server0.call_tool. apply try_catch_sends_only.
    + apply dispatch0_sends_only.
    + intros e. sends_only_step.
Qed.

(** ** A tool the server does not know *)

(** C10. A name that is none of the thirteen tools reaches the default
    branch, whose MethodNotFound error is thrown inside the [try] block; the
    [catch] wraps it, so the caller gets an InternalError, whose message ends
    with the unknown name. No request is sent. Both servers do so. *)
Theorem unknown_tool_is_internal_error
  (env : Env) (name : string) (args : Value) (w : World) :
  ~ In name Server.tool_names ->
  Server.dispatch env name args w
  = (Throw (Server.Raised (McpError MethodNotFound ("Unknown tool: " ++ name))), w)
  /\ (exists e,
        Server.call_tool env name args w = (Throw e, w)
        /\ code e = Some InternalError
        /\ code e <> Some MethodNotFound
        /\ message e
           = "MCP error -32603: Tool execution failed: McpError: MCP error -32601: Unknown tool: "
             ++ name
        /\ Str.includes name (message e) = true)
  /\ (exists e,
        Server0.call_tool env name args w = (Throw e, w)
        /\ code e = Some InternalError
        /\ code e <> Some MethodNotFound
        /\ message e
           = "MCP error -32603: Error executing tool " ++ name
             ++ ": MCP error -32601: Unknown tool: " ++ name
        /\ Str.includes name (message e) = true).
Proof.
  intros Hname.
  assert (D : Server.dispatch env name args
              = throw (Server.Raised (McpError MethodNotFound ("Unknown tool: " ++ name)))).
  { unfold Server.dispatch. apply switch_otherwise. exact Hname. }
  assert (D0 : Server0.dispatch env name args
               = throw (McpError MethodNotFound ("Unknown tool: " ++ name))).
  { unfold Server0.dispatch. apply switch_otherwise. exact Hname. }
  split; [now rewrite D|]. split.
  - eexists. unfold Server.call_tool. rewrite D.
    split; [reflexivity|]. split; [reflexivity|]. split; [discriminate|].
    split; [reflexivity|].
    apply (includes_suffix name
             "MCP error -32603: Tool execution failed: McpError: MCP error -32601: Unknown tool: ").
  - eexists. unfold Server0.call_tool. rewrite D0.
    split; [reflexivity|]. split; [reflexivity|]. split; [discriminate|].
    split; [reflexivity|].
    apply (includes_later name "MCP error -32603: Error executing tool ").
    apply includes_prefix.
Qed.

(** ** Errors at the dispatch boundary *)

Lemma append_nil_r (s : string) : s ++ "" = s.
Proof. induction s; simpl; congruence. Qed.

Lemma includes_refl (p : string) : Str.includes p p = true.
Proof. rewrite <- (append_nil_r p) at 2. apply includes_prefix. Qed.

Lemma includes_join (sep x : string) (l : list string) :
  In x l -> Str.includes x (Str.join sep l) = true.
Proof.
  induction l as [|y l IH]; [intros []|].
  intros [->|Hin].
  - destruct l; [apply includes_refl|apply includes_prefix].
  - destruct l as [|z l]; [destruct Hin|].
    change (Str.join sep (y :: z :: l)) with (y ++ sep ++ Str.join sep (z :: l)).
    apply includes_later, includes_later, IH, Hin.
Qed.

(** Every issue of a check lies at or below the path checked. *)
Lemma check_path (t : Zod.Schema) :
  forall p v issue, In issue (Zod.check t p v) ->
                    exists rest, Zod.path issue = (p ++ rest)%list.
Proof.
  assert (Here : forall e p v issue,
             In issue [Zod.invalid_type e p v] -> exists rest, Zod.path issue = (p ++ rest)%list).
  { intros e p v issue [<-|[]]. exists []. now rewrite app_nil_r. }
  assert (Msg : forall p m issue,
             In issue [Zod.mkIssue p m] -> exists rest, Zod.path issue = (p ++ rest)%list).
  { intros p m issue [<-|[]]. exists []. now rewrite app_nil_r. }
  induction t as [min|min max|values|item IH|value IH|inner IH]; intros p v issue Hin;
    cbn [Zod.check] in Hin.
  - destruct v; try (eapply Here; eassumption).
    destruct min as [m|]; [|destruct Hin].
    destruct (Str.length s <? m); [eapply Msg; eassumption|destruct Hin].
  - destruct v; try (eapply Here; eassumption).
    apply in_app_or in Hin. destruct Hin as [Hin|Hin].
    + destruct min as [m|]; [|destruct Hin].
      destruct (n <? m); [eapply Msg; eassumption|destruct Hin].
    + destruct max as [m|]; [|destruct Hin].
      destruct (m <? n); [eapply Msg; eassumption|destruct Hin].
  - destruct v; try (eapply Here; eassumption).
    destruct (existsb (String.eqb s) values); [destruct Hin|eapply Msg; eassumption].
  - destruct v; try (eapply Here; eassumption).
    revert Hin. generalize 0. induction items as [|x items IHl]; intros i Hin; [destruct Hin|].
    apply in_app_or in Hin. destruct Hin as [Hin|Hin].
    + destruct (IH _ _ _ Hin) as [rest ->]. exists (Zod.Index i :: rest).
      now rewrite <- app_assoc.
    + eapply IHl; eassumption.
  - destruct v; try (eapply Here; eassumption).
    apply in_flat_map in Hin. destruct Hin as ([k x] & _ & Hin).
    destruct (IH _ _ _ Hin) as [rest ->]. exists (Zod.Key k :: rest).
    now rewrite <- app_assoc.
  - destruct v; try (eapply IH; eassumption). destruct Hin.
Qed.

(** The issues of a failed parse of an object name the offending keys of
    the shape, and every offending key has its issue. *)
Lemma parse_issues (shape : Zod.Shape) (props : list (string * Value))
  (issues : list Zod.Issue) :
  Zod.parse shape (VObj props) = Throw issues ->
  (forall issue, In issue issues ->
     exists k t rest, In (k, t) shape
                      /\ Zod.path issue = Zod.Key k :: rest
                      /\ In issue (Zod.check t [Zod.Key k] (Js.lookup k props)))
  /\ (forall k t issue, In (k, t) shape ->
        In issue (Zod.check t [Zod.Key k] (Js.lookup k props)) -> In issue issues).
Proof.
  unfold Zod.parse.
  destruct (flat_map _ shape) as [|i0 rest0] eqn:F; [discriminate|].
  intros [= <-]. rewrite <- F. split.
  - intros issue Hin. apply in_flat_map in Hin. destruct Hin as ([k t] & Hs & Hin).
    cbn [fst snd] in Hin. destruct (check_path _ _ _ _ Hin) as [rest Hp].
    exists k, t, rest. auto.
  - intros k t issue Hs Hin. apply in_flat_map. exists (k, t). auto.
Qed.

Lemma reply_outcome (m : M JsError Value) (w : World) :
  fst (Server.reply m w)
  = match fst (m w) with
    | Return v => Return (text_result v)
    | Throw e => Throw (Server.Raised e)
    end.
Proof.
  unfold Server.reply, Server.await, lift, try_catch, bind, ret, throw.
  destruct (m w) as [[v|e] w']; reflexivity.
Qed.

(** The [try] block throws a [ZodError] exactly when the arguments fail the
    schema of the tool. *)
Lemma dispatch_zod (env : Env) (name : string) (args : Value) (w : World)
  (issues : list Zod.Issue) :
  fst (Server.dispatch env name args w) = Throw (Server.ZodError issues)
  <-> exists shape, Server.tool_schema name = Some shape
                    /\ Zod.parse shape args = Throw issues.
Proof.
  rewrite dispatch_table. split.
  - destruct (Server.tool_schema name) as [shape|].
    + destruct (Zod.parse shape args) as [parsed|issues'] eqn:P.
      * rewrite reply_outcome.
        destruct (fst (Server.client_call env name parsed w)); discriminate.
      * intros [= <-]. exists shape. auto.
    + rewrite reply_outcome.
      destruct (fst (Server.client_call env name args w)); discriminate.
  - intros (shape & -> & ->). reflexivity.
Qed.

Lemma catch_outcome (env : Env) (name : string) (args : Value) (w : World) :
  fst (Server.call_tool env name args w)
  = match fst (Server.dispatch env name args w) with
    | Return result => Return result
    | Throw (Server.ZodError issues) =>
        Throw (McpError InvalidParams
                 ("Invalid arguments: " ++ Server.issues_text issues))
    | Throw (Server.Raised inner) =>
        Throw (McpError InternalError
                 ("Tool execution failed: " ++ JsError_toString inner))
    end.
Proof.
  unfold Server.call_tool, try_catch.
  destruct (Server.dispatch env name args w) as [[result|[issues|inner]] w'];
    reflexivity.
Qed.

Lemma catch0_outcome (env : Env) (name : string) (args : Value) (w : World) :
  fst (Server0.call_tool env name args w)
  = match fst (Server0.dispatch env name args w) with
    | Return result => Return result
    | Throw inner =>
        Throw (McpError InternalError
                 ("Error executing tool " ++ name ++ ": " ++ message inner))
    end.
Proof.
  unfold Server0.call_tool, try_catch.
  destruct (Server0.dispatch env name args w) as [[result|inner] w']; reflexivity.
Qed.

Lemma issue_listed (issues : list Zod.Issue) (issue : Zod.Issue) :
  In issue issues ->
  Str.includes (Zod.path_join "." (Zod.path issue) ++ ": " ++ Zod.message issue)
    (message (McpError InvalidParams
                ("Invalid arguments: " ++ Server.issues_text issues))) = true.
Proof.
  intros Hin. unfold McpError; cbn [message].
  apply (includes_later _ "MCP error "), includes_later, (includes_later _ ": "),
    (includes_later _ "Invalid arguments: ").
  unfold Server.issues_text. apply includes_join.
  apply (in_map (fun e => Zod.path_join "." (Zod.path e) ++ ": " ++ Zod.message e)).
  exact Hin.
Qed.

(** C4. Whatever the [try] block of the call-tool handler throws is caught
    and reported as an McpError. A [ZodError], thrown exactly when the
    arguments fail the schema of the tool, becomes InvalidParams; its message
    lists every issue as [path: message], and the paths start at the
    offending keys. Any other error becomes InternalError. The earlier
    server validates nothing and reports every error as InternalError. *)
Theorem tool_errors_reported (env : Env) (name : string) (args : Value) (w : World) :
  match fst (Server.dispatch env name args w) with
  | Return result => fst (Server.call_tool env name args w) = Return result
  | Throw (Server.Raised inner) =>
      fst (Server.call_tool env name args w)
      = Throw (McpError InternalError
                 ("Tool execution failed: " ++ JsError_toString inner))
  | Throw (Server.ZodError issues) =>
      fst (Server.call_tool env name args w)
      = Throw (McpError InvalidParams
                 ("Invalid arguments: " ++ Server.issues_text issues))
      /\ (exists shape, Server.tool_schema name = Some shape
                        /\ Zod.parse shape args = Throw issues)
      /\ (forall issue, In issue issues ->
            Str.includes
              (Zod.path_join "." (Zod.path issue) ++ ": " ++ Zod.message issue)
              (message (McpError InvalidParams
                          ("Invalid arguments: " ++ Server.issues_text issues)))
            = true)
      /\ (forall shape props issue,
            Server.tool_schema name = Some shape -> args = VObj props ->
            In issue issues ->
            exists k rest, Zod.path issue = Zod.Key k :: rest
                           /\ Zod.offending shape props k)
  end
  /\ (forall shape issues,
        Server.tool_schema name = Some shape ->
        Zod.parse shape args = Throw issues ->
        fst (Server.call_tool env name args w)
        = Throw (McpError InvalidParams
                   ("Invalid arguments: " ++ Server.issues_text issues)))
  /\ (forall e, fst (Server.call_tool env name args w) = Throw e ->
                code e = Some InternalError \/ code e = Some InvalidParams)
  /\ match fst (Server0.dispatch env name args w) with
     | Return result => fst (Server0.call_tool env name args w) = Return result
     | Throw inner =>
         fst (Server0.call_tool env name args w)
         = Throw (McpError InternalError
                    ("Error executing tool " ++ name ++ ": " ++ message inner))
     end
  /\ (forall e, fst (Server0.call_tool env name args w) = Throw e ->
                code e = Some InternalError).
Proof.
  split; [|split; [|split; [|split]]].
  - rewrite catch_outcome.
    destruct (fst (Server.dispatch env name args w)) as [result|[issues|inner]] eqn:D;
      try reflexivity.
    split; [reflexivity|]. apply dispatch_zod in D. split; [exact D|].
    split; [intros issue; apply issue_listed|].
    intros shape props issue Hs -> Hin.
    destruct D as (shape' & Hs' & P). rewrite Hs in Hs'. injection Hs' as <-.
    destruct (parse_issues _ _ _ P) as [Hfrom _].
    destruct (Hfrom issue Hin) as (k & t & rest & Hk & Hp & Hc).
    exists k, rest. split; [exact Hp|]. exists t. split; [exact Hk|].
    intros E. rewrite E in Hc. destruct Hc.
  - intros shape issues Hs P. rewrite catch_outcome.
    assert (D : fst (Server.dispatch env name args w) = Throw (Server.ZodError issues))
      by (apply dispatch_zod; eauto).
    now rewrite D.
  - intros e. rewrite catch_outcome.
    destruct (fst (Server.dispatch env name args w)) as [result|[issues|inner]];
      [discriminate| |]; intros [= <-]; auto.
  - rewrite catch0_outcome.
    destruct (fst (Server0.dispatch env name args w)); reflexivity.
  - intros e. rewrite catch0_outcome.
    destruct (fst (Server0.dispatch env name args w)); [discriminate|].
    intros [= <-]. reflexivity.
Qed.

(** ** The addresses the client builds *)

Lemma join_nums (sep : string) (l : list Z) :
  Js.join sep (map VNum l) = Str.join sep (map Str.of_Z l).
Proof. unfold Js.join. rewrite map_map. reflexivity. Qed.

(** The query of [listBuilds] for well-typed options. *)
Lemma listBuilds_query_typed (b : BuildOpts) :
  Ado.listBuilds_query (BuildOpts_value b) = Return (builds_query b).
Proof.
  unfold builds_query. destruct b as [defs branch tp token].
  cbn [definitions branchName top continuationToken].
  destruct defs as [[|x l]|]; cbn [nonnil option_map]; try rewrite <- join_nums;
    destruct branch as [[|c1 s1]|]; destruct tp as [[|n|n]|];
    destruct token as [[|c2 s2]|]; reflexivity.
Qed.

Lemma forallb_app (f : ascii -> bool) (a b : string) :
  Str.forallb f (a ++ b) = Str.forallb f a && Str.forallb f b.
Proof. induction a as [|c a IH]; [reflexivity|]. simpl. now rewrite IH, andb_assoc. Qed.

Lemma encoded_byte_safe (c : ascii) :
  Str.forallb uri_safe
    (if uri_unreserved c then String c EmptyString else Str.percent c) = true.
Proof. destruct c as [[] [] [] [] [] [] [] []]; reflexivity. Qed.

(** [encodeURIComponent] yields unreserved characters and percent signs
    only. *)
Lemma encodeURIComponent_safe (s : string) :
  Str.forallb uri_safe (encodeURIComponent s) = true.
Proof.
  induction s as [|c s IH]; [reflexivity|].
  unfold encodeURIComponent in *. cbn [Str.flat_map].
  now rewrite forallb_app, encoded_byte_safe, IH.
Qed.

Lemma encodeURIComponent_nonempty (s : string) :
  s <> "" -> encodeURIComponent s <> "".
Proof.
  destruct s as [|c s]; [congruence|]. intros _.
  unfold encodeURIComponent. cbn [Str.flat_map].
  destruct (uri_unreserved c); discriminate.
Qed.

Lemma append_assoc (a b c : string) : (a ++ b) ++ c = a ++ b ++ c.
Proof. induction a as [|x a IH]; [reflexivity|]. simpl. now rewrite IH. Qed.

Lemma strip_final_slash_app_slash (a : string) : Ado.strip_final_slash (a ++ "/") = a.
Proof.
  induction a as [|c a IH]; [reflexivity|].
  cbn [append Ado.strip_final_slash]. rewrite IH.
  destruct a; simpl; now rewrite andb_false_r.
Qed.

Lemma strip_final_slash_safe (b : string) :
  Str.forallb uri_safe b = true -> Ado.strip_final_slash b = b.
Proof.
  induction b as [|c b IH]; [reflexivity|].
  cbn [Str.forallb Ado.strip_final_slash]. intros H. apply andb_true_iff in H.
  destruct H as [Hc Hb]. rewrite (IH Hb).
  destruct (Ascii.eqb_spec c "/") as [->|_]; [discriminate Hc|reflexivity].
Qed.

Lemma strip_final_slash_app (a b : string) :
  b <> "" -> Ado.strip_final_slash b = b -> Ado.strip_final_slash (a ++ b) = a ++ b.
Proof.
  intros Hne Hb. induction a as [|c a IH]; [exact Hb|].
  cbn [append Ado.strip_final_slash]. rewrite IH.
  assert (E : String.eqb (a ++ b) "" = false).
  { destruct a; [|reflexivity]. destruct b; [congruence|reflexivity]. }
  now rewrite E, andb_false_r.
Qed.

(** The base of the addresses: the organization in the host name and the
    project as the first segment of the path, both percent-encoded. *)
Lemma orgBase_encoded (o : Ado.ADOOpts) :
  Ado.orgBase o
  = ("https://" ++ encodeURIComponent (Ado.org o) ++ ".visualstudio.com")
    ++ match nonempty (Ado.project o) with
       | Some p => "/" ++ encodeURIComponent p
       | None => ""
       end.
Proof.
  unfold Ado.orgBase, Ado.baseUrl, nonempty.
  set (base := "https://" ++ encodeURIComponent (Ado.org o) ++ ".visualstudio.com").
  assert (Bare : Ado.strip_final_slash (base ++ "/" ++ "") = base ++ "").
  { change ("/" ++ "") with "/". now rewrite strip_final_slash_app_slash, append_nil_r. }
  destruct (Ado.project o) as [p|]; [|exact Bare].
  destruct (String.eqb_spec p "") as [->|Hp]; [exact Bare|]. cbn [negb].
  rewrite <- (append_assoc base "/" (encodeURIComponent p)).
  rewrite strip_final_slash_app.
  - reflexivity.
  - now apply encodeURIComponent_nonempty.
  - apply strip_final_slash_safe, encodeURIComponent_safe.
Qed.

Lemma one_call_ext {E A} (r : Request) (m m' : M E A) :
  (forall w, m w = m' w) -> one_call r m' -> one_call r m.
Proof. intros H H' w. rewrite H. apply H'. Qed.

Lemma has_app (k : string) (a b : URLSearchParams.t) :
  URLSearchParams.has k (a ++ b)%list
  = URLSearchParams.has k a || URLSearchParams.has k b.
Proof. unfold URLSearchParams.has. apply existsb_app. Qed.

Lemma nonzero_some (o : option Z) :
  (exists n, nonzero o = Some n) <-> (exists n, o = Some n /\ n <> 0).
Proof.
  unfold nonzero. destruct o as [n|].
  - destruct (Z.eqb_spec n 0) as [->|H]; split; intros [m Hm]; try discriminate.
    + destruct Hm as [[= <-] Hm]. congruence.
    + eauto.
    + eauto.
  - split; intros [m Hm]; [discriminate|destruct Hm; discriminate].
Qed.

Lemma nonempty_some (o : option string) :
  (exists s, nonempty o = Some s) <-> (exists s, o = Some s /\ s <> "").
Proof.
  unfold nonempty. destruct o as [s|].
  - destruct (String.eqb_spec s "") as [->|H]; split; intros [m Hm]; try discriminate.
    + destruct Hm as [[= <-] Hm]. congruence.
    + eauto.
    + eauto.
  - split; intros [m Hm]; [discriminate|destruct Hm; discriminate].
Qed.

Lemma nonnil_some (o : option (list Z)) :
  (exists l, nonnil o = Some l) <-> (exists l, o = Some l /\ l <> []).
Proof.
  unfold nonnil. destruct o as [[|x l]|]; split; intros [m Hm].
  - discriminate.
  - destruct Hm as [Hm Hne]. congruence.
  - exists (x :: l). split; [reflexivity|discriminate].
  - eauto.
  - discriminate.
  - destruct Hm as [Hm _]. discriminate.
Qed.

Lemma option_map_some {A B} (f : A -> B) (o : option A) :
  (exists y, option_map f o = Some y) <-> (exists x, o = Some x).
Proof.
  destruct o as [x|]; split; intros [y Hy]; try discriminate; eauto.
  exists (f x). reflexivity.
Qed.

(** Which names the query of [listBuilds] has. *)
Lemma builds_query_has (b : BuildOpts) :
  URLSearchParams.has "api-version" (builds_query b) = true
  /\ (URLSearchParams.has "$top" (builds_query b) = true
      <-> exists n, top b = Some n /\ n <> 0)
  /\ (URLSearchParams.has "branchName" (builds_query b) = true
      <-> exists s, branchName b = Some s /\ s <> "")
  /\ (URLSearchParams.has "definitions" (builds_query b) = true
      <-> exists l, definitions b = Some l /\ l <> [])
  /\ (URLSearchParams.has "continuationToken" (builds_query b) = true
      <-> exists s, continuationToken b = Some s /\ s <> "")
  /\ (forall k, URLSearchParams.has k (builds_query b) = true ->
                In k ["api-version"; "$top"; "branchName"; "definitions";
                      "continuationToken"]).
Proof.
  unfold builds_query.
  rewrite <- nonzero_some, <- !nonempty_some, <- nonnil_some.
  rewrite <- (option_map_some Str.of_Z (nonzero (top b))).
  rewrite <- (option_map_some (fun l => Str.join "," (map Str.of_Z l))
                (nonnil (definitions b))).
  destruct (option_map Str.of_Z (nonzero (top b))) as [v1|];
    destruct (nonempty (branchName b)) as [v2|];
    destruct (option_map _ (nonnil (definitions b))) as [v3|];
    destruct (nonempty (continuationToken b)) as [v4|];
    (split; [reflexivity|]);
    repeat (split; [split; [intros H; try discriminate H; eauto
                           |intros [? H]; try discriminate H; reflexivity]|]);
    intros k; cbn [app param URLSearchParams.has existsb fst];
    intros H;
    repeat (apply orb_true_iff in H; destruct H as [H|H];
            [apply String.eqb_eq in H; subst k; cbn [In]; tauto|]);
    discriminate H.
Qed.

Lemma toString_starts_with_version (q : URLSearchParams.t) :
  String.prefix "api-version=6.0"
    (URLSearchParams.toString (("api-version", "6.0") :: q)) = true.
Proof.
  unfold URLSearchParams.toString. cbn [map Str.join fst snd].
  change (URLSearchParams.form_encode "api-version" ++ "=" ++ URLSearchParams.form_encode "6.0")
    with "api-version=6.0".
  destruct (map _ q); [reflexivity|]. apply (prefix_app "api-version=6.0").
Qed.

(** The values the query of [listBuilds] gives to its names. *)
Lemma builds_query_get (b : BuildOpts) :
  URLSearchParams.get "api-version" (builds_query b) = Some "6.0"
  /\ URLSearchParams.get "$top" (builds_query b)
     = option_map Str.of_Z (nonzero (top b))
  /\ URLSearchParams.get "branchName" (builds_query b) = nonempty (branchName b)
  /\ URLSearchParams.get "definitions" (builds_query b)
     = option_map (fun l => Str.join "," (map Str.of_Z l)) (nonnil (definitions b))
  /\ URLSearchParams.get "continuationToken" (builds_query b)
     = nonempty (continuationToken b).
Proof.
  unfold builds_query.
  destruct (option_map Str.of_Z (nonzero (top b))) as [v1|];
    destruct (nonempty (branchName b)) as [v2|];
    destruct (option_map _ (nonnil (definitions b))) as [v3|];
    destruct (nonempty (continuationToken b)) as [v4|];
    repeat split.
Qed.

Lemma listBuilds_one_call (o : Ado.ADOOpts) (b : BuildOpts) :
  one_call
    (get_request (Ado.orgBase o ++ "/_apis/build/builds?"
                  ++ URLSearchParams.toString (builds_query b)) (Ado.pat o))
    (Ado.listBuilds (Ado.makeADO o) (BuildOpts_value b)).
Proof.
  eapply one_call_ext; [|apply adoGet_one_call].
  intros w. cbn [Ado.makeADO Ado.listBuilds]. unfold bind, of_outcome.
  rewrite listBuilds_query_typed. reflexivity.
Qed.

(** C7. [listBuilds] makes one call, a GET of
    [{orgBase}/_apis/build/builds?] followed by the query. The query always
    has [api-version=6.0], which comes first, and has [$top], [branchName],
    [definitions] and [continuationToken] exactly when the option is provided
    and truthy (a number other than 0, a string or a list that is not empty),
    with the value of the option, the definitions joined with commas; it has
    no other name. In [orgBase] the organization and the project are
    percent-encoded, and so is the team in the four addresses that have one,
    for a team without lone surrogate, which [encodeURIComponent] refuses:
    an encoded name consists of unreserved characters and percent signs. *)
Theorem listBuilds_url (o : Ado.ADOOpts) (b : BuildOpts) :
  one_call
    (get_request (Ado.orgBase o ++ "/_apis/build/builds?"
                  ++ URLSearchParams.toString (builds_query b)) (Ado.pat o))
    (Ado.listBuilds (Ado.makeADO o) (BuildOpts_value b))
  /\ String.prefix "api-version=6.0" (URLSearchParams.toString (builds_query b)) = true
  /\ URLSearchParams.get "api-version" (builds_query b) = Some "6.0"
  /\ (URLSearchParams.has "$top" (builds_query b) = true
      <-> exists n, top b = Some n /\ n <> 0)
  /\ (URLSearchParams.has "branchName" (builds_query b) = true
      <-> exists s, branchName b = Some s /\ s <> "")
  /\ (URLSearchParams.has "definitions" (builds_query b) = true
      <-> exists l, definitions b = Some l /\ l <> [])
  /\ (URLSearchParams.has "continuationToken" (builds_query b) = true
      <-> exists s, continuationToken b = Some s /\ s <> "")
  /\ (forall k, URLSearchParams.has k (builds_query b) = true ->
                In k ["api-version"; "$top"; "branchName"; "definitions";
                      "continuationToken"])
  /\ URLSearchParams.get "$top" (builds_query b)
     = option_map Str.of_Z (nonzero (top b))
  /\ URLSearchParams.get "branchName" (builds_query b) = nonempty (branchName b)
  /\ URLSearchParams.get "definitions" (builds_query b)
     = option_map (fun l => Str.join "," (map Str.of_Z l)) (nonnil (definitions b))
  /\ URLSearchParams.get "continuationToken" (builds_query b)
     = nonempty (continuationToken b)
  /\ Ado.orgBase o
     = ("https://" ++ encodeURIComponent (Ado.org o) ++ ".visualstudio.com")
       ++ match nonempty (Ado.project o) with
          | Some p => "/" ++ encodeURIComponent p
          | None => ""
          end
  /\ (forall s, Str.forallb uri_safe (encodeURIComponent s) = true)
  /\ map uri_safe (list_ascii_of_string "/?#&=+ :@") = repeat false 9
  /\ (forall team wiql : string,
        Str.lone_surrogate team = false ->
        one_call
          (post_request (Ado.orgBase o ++ "/" ++ encodeURIComponent team
                         ++ "/_apis/wit/wiql?api-version=6.0") (Ado.pat o)
             (VObj [("query", VStr wiql)]) "application/json")
          (Ado.wiqlTeam (Ado.makeADO o) (VStr team) (VStr wiql)))
  /\ (forall team : string, team <> "" ->
        Str.lone_surrogate team = false ->
        one_call
          (get_request (Ado.orgBase o ++ "/" ++ encodeURIComponent team
                        ++ "/_apis/work/boardcolumns?api-version=6.0") (Ado.pat o))
          (Ado.listBoardColumns (Ado.makeADO o) (VStr team)))
  /\ (forall team : string,
        Str.lone_surrogate team = false ->
        one_call
          (get_request (Ado.orgBase o ++ "/" ++ encodeURIComponent team
                        ++ "/_apis/work/teamsettings/iterations?api-version=6.0")
             (Ado.pat o))
          (Ado.listTeamIterations (Ado.makeADO o) (VStr team) VUndefined))
  /\ (forall team iterationId : string,
        Str.lone_surrogate team = false ->
        one_call
          (get_request (Ado.orgBase o ++ "/" ++ encodeURIComponent team
                        ++ "/_apis/work/teamsettings/iterations/" ++ iterationId
                        ++ "/workitems?api-version=6.0") (Ado.pat o))
          (Ado.getIterationWorkItems (Ado.makeADO o) (VStr team) (VStr iterationId))).
Proof.
  destruct (builds_query_has b) as (_ & H1 & H2 & H3 & H4 & H5).
  destruct (builds_query_get b) as (G0 & G1 & G2 & G3 & G4).
  split; [apply listBuilds_one_call|].
  split; [apply toString_starts_with_version|].
  repeat (split; [assumption|]).
  split; [apply orgBase_encoded|].
  split; [apply encodeURIComponent_safe|].
  split; [reflexivity|].
  split.
  { intros team wiql Hs. cbn [Ado.makeADO Ado.wiqlTeam Js.ToString].
    apply encoded_one_call; [exact Hs|]. apply (adoPost_one_call _ _ _ None). }
  split.
  { intros team Ht Hs. eapply one_call_ext; [|apply adoGet_one_call].
    intros w. cbn [Ado.makeADO Ado.listBoardColumns Js.truthy Js.ToString].
    destruct (String.eqb_spec team "") as [E|_]; [contradiction|].
    cbn [negb]. unfold bind at 1. rewrite encoded_run, Hs. reflexivity. }
  split.
  { intros team Hs. cbn [Ado.makeADO Ado.listTeamIterations Js.ToString Js.truthy].
    apply encoded_one_call; [exact Hs|]. apply adoGet_one_call. }
  intros team iterationId Hs.
  cbn [Ado.makeADO Ado.getIterationWorkItems Js.ToString].
  apply encoded_one_call; [exact Hs|]. apply adoGet_one_call.
Qed.

(** ** Validated arguments *)

Lemma has_key_false (k : string) (props : list (string * Value)) :
  Zod.has_key k props = false -> Js.lookup k props = VUndefined.
Proof.
  induction props as [|[k' v] props IH]; [reflexivity|].
  cbn [Zod.has_key existsb fst Js.lookup]. intros H.
  apply orb_false_iff in H. destruct H as [H1 H2]. rewrite H1. apply IH, H2.
Qed.

Lemma output_undefined (t : Zod.Schema) : Zod.output t VUndefined = VUndefined.
Proof. destruct t; reflexivity. Qed.

Lemma output_plain (t : Zod.Schema) :
  plain t = true -> forall v, Zod.output t v = v.
Proof.
  induction t as [| | |item IH|value IH|inner IH]; cbn [plain Zod.output]; intros H v;
    try reflexivity; try discriminate H.
  - destruct v; try reflexivity. f_equal.
    rewrite (map_ext _ (fun x => x) (IH H)). apply map_id.
  - destruct v; try reflexivity; apply (IH H).
Qed.

(** The parsed object has, for a key of the shape, what the schema of the
    key hands back of what the arguments have; it has no other key. *)
Lemma lookup_parsed (shape : Zod.Shape) (props : list (string * Value)) (k : string) :
  Js.lookup k
    (flat_map (fun ks => if Zod.has_key (fst ks) props
                         then [(fst ks, Zod.output (snd ks) (Js.lookup (fst ks) props))]
                         else []) shape)
  = match schema_of shape k with
    | Some t => Zod.output t (Js.lookup k props)
    | None => VUndefined
    end.
Proof.
  unfold schema_of.
  assert (Absent : forall shape',
             Zod.has_key k props = false ->
             Js.lookup k
               (flat_map (fun ks => if Zod.has_key (fst ks) props
                                    then [(fst ks, Zod.output (snd ks)
                                                     (Js.lookup (fst ks) props))]
                                    else []) shape')
             = VUndefined).
  { intros shape' Hk. induction shape' as [|[k1 t1] shape' IH]; [reflexivity|].
    cbn [flat_map fst snd]. destruct (Zod.has_key k1 props) eqn:Hk1; [|exact IH].
    cbn [app Js.lookup]. destruct (String.eqb_spec k1 k) as [->|_]; [|exact IH].
    congruence. }
  induction shape as [|[k0 t0] shape IH]; [reflexivity|].
  cbn [flat_map find fst snd].
  destruct (String.eqb_spec k0 k) as [->|Hne]; cbn [option_map snd].
  - destruct (Zod.has_key k props) eqn:Hk.
    + cbn [app Js.lookup]. now rewrite String.eqb_refl.
    + cbn [app]. rewrite (has_key_false _ _ Hk), output_undefined.
      now apply Absent.
  - destruct (Zod.has_key k0 props); cbn [app Js.lookup]; [|exact IH].
    apply String.eqb_neq in Hne. now rewrite Hne.
Qed.

Lemma schema_of_in (shape : Zod.Shape) (k : string) :
  In k (map fst shape) -> exists t, schema_of shape k = Some t /\ In (k, t) shape.
Proof.
  unfold schema_of. induction shape as [|[k0 t0] shape IH]; [intros []|].
  cbn [map fst find In]. intros H.
  destruct (String.eqb_spec k0 k) as [->|Hne].
  - exists t0. split; [reflexivity|now left].
  - destruct H as [E|H]; [contradiction|].
    destruct (IH H) as (t & E & Hin). exists t. split; [exact E|now right].
Qed.

(** What a successful parse tells: the arguments are an object, every key
    of the shape passes its check, and the parsed object reads like the
    arguments at the keys of the shape whose schema has no record inside; at
    any key it has what the schema of the key hands back. *)
Lemma parse_return (shape : Zod.Shape) (args parsed : Value) :
  Zod.parse shape args = Return parsed ->
  exists props,
    args = VObj props
    /\ (forall k t, In (k, t) shape ->
                    Zod.check t [Zod.Key k] (Js.lookup k props) = [])
    /\ (forall k, In k (map fst shape) ->
                  Forall (fun ks => plain (snd ks) = true) shape ->
                  Js.prop parsed k = Js.lookup k props)
    /\ (exists kept, parsed = VObj kept)
    /\ (forall k, Js.prop parsed k
                  = match schema_of shape k with
                    | Some t => Zod.output t (Js.lookup k props)
                    | None => VUndefined
                    end).
Proof.
  unfold Zod.parse. destruct args; try discriminate.
  destruct (flat_map _ shape) as [|i0 rest] eqn:F; [|discriminate].
  intros [= <-]. exists props. split; [reflexivity|].
  split; [|split; [|split; [eauto|]]].
  - intros k t Hin.
    destruct (Zod.check t [Zod.Key k] (Js.lookup k props)) as [|i l] eqn:C;
      [reflexivity|].
    assert (Hi : In i (flat_map (fun ks => Zod.check (snd ks) [Zod.Key (fst ks)]
                                           (Js.lookup (fst ks) props)) shape)).
    { apply in_flat_map. exists (k, t). split; [exact Hin|].
      cbn [fst snd]. rewrite C. now left. }
    rewrite F in Hi. destruct Hi.
  - intros k Hin Hplain. cbn [Js.prop]. rewrite lookup_parsed.
    destruct (schema_of_in shape k Hin) as (t & -> & Ht).
    apply output_plain.
    rewrite Forall_forall in Hplain. apply (Hplain (k, t) Ht).
  - intros k. cbn [Js.prop]. apply lookup_parsed.
Qed.



Lemma check_number (p : list Zod.PathSeg) (v : Value) :
  Zod.check (Zod.number_ None None) p v = [] -> exists n, v = VNum n.
Proof. destruct v; try discriminate. eauto. Qed.


(** ** The patch documents *)







(** ** One tool, one call *)

Lemma one_call_snd {E E' A B} (r : Request) (m : M E A) (m' : M E' B) :
  (forall w, snd (m w) = snd (m' w)) -> one_call r m' -> one_call r m.
Proof. intros H H' w. rewrite H. apply H'. Qed.

Lemma reply_snd (m : M JsError Value) (w : World) : snd (Server.reply m w) = snd (m w).
Proof.
  unfold Server.reply, Server.await, lift, try_catch, bind, ret, throw.
  destruct (m w) as [[v|e] w']; reflexivity.
Qed.

Lemma call_tool_snd (env : Env) (name : string) (args : Value) (w : World) :
  snd (Server.call_tool env name args w) = snd (Server.dispatch env name args w).
Proof.
  unfold Server.call_tool, try_catch.
  destruct (Server.dispatch env name args w) as [[result|[issues|e]] w']; reflexivity.
Qed.

(** With valid arguments the handler does to the world what the call of
    the tool on the client does. *)
Lemma call_tool_valid (env : Env) (name : string) (args : Value) :
  (forall shape, Server.tool_schema name = Some shape ->
                 exists parsed, Zod.parse shape args = Return parsed) ->
  exists input,
    (forall shape, Server.tool_schema name = Some shape ->
                   Zod.parse shape args = Return input)
    /\ (forall w, snd (Server.call_tool env name args w)
                  = snd (Server.client_call env name input w))
    /\ (Server.tool_schema name = None -> input = args).
Proof.
  intros Hv. destruct (Server.tool_schema name) as [shape|] eqn:S.
  - destruct (Hv shape eq_refl) as [parsed P]. exists parsed. split; [|split].
    + intros shape' [= <-]. exact P.
    + intros w. rewrite call_tool_snd, dispatch_table, S, P. apply reply_snd.
    + discriminate.
  - exists args. split; [discriminate|]. split; [|reflexivity].
    intros w. rewrite call_tool_snd, dispatch_table, S. apply reply_snd.
Qed.

(** The name a tool encodes is the same in the parsed arguments and in the
    arguments. *)
Lemma encoded_name_parsed (name : string) (args input : Value) :
  (forall shape, Server.tool_schema name = Some shape ->
                 Zod.parse shape args = Return input) ->
  (Server.tool_schema name = None -> input = args) ->
  encoded_name name input = encoded_name name args.
Proof.
  unfold Server.tool_schema, encoded_name. cbn [switch].
  repeat match goal with
         | |- context [String.eqb name ?label] =>
             destruct (String.eqb_spec name label) as [->|_];
             [cbv [String.eqb Ascii.eqb Bool.eqb]; intros Hp Hn;
              try reflexivity;
              destruct (parse_return _ _ _ (Hp _ eq_refl))
                as (props & -> & _ & Hprop & _ & _);
              rewrite ?(Hprop "team"), ?(Hprop "type")
                by (first [cbn; tauto|repeat constructor]);
              reflexivity|]
         end.
  reflexivity.
Qed.

Lemma check_optional_array (t : Zod.Schema) (p : list Zod.PathSeg) (v : Value) :
  Zod.check (Zod.optional_ (Zod.array_ t)) p v = [] ->
  v = VUndefined \/ exists items, v = VArr items.
Proof. destruct v; try discriminate; eauto. Qed.

(** The query of [listBuilds] is built without an error when the
    definitions are absent or an array. *)
Lemma listBuilds_query_returns (props : list (string * Value)) :
  Js.lookup "definitions" props = VUndefined
  \/ (exists items, Js.lookup "definitions" props = VArr items) ->
  exists q, Ado.listBuilds_query (VObj props) = Return q.
Proof.
  intros H. unfold Ado.listBuilds_query, Ado.read. cbn [Js.prop].
  destruct H as [->|[items ->]].
  - cbn [Ado.optional_length Js.truthy]. eauto.
  - destruct (Js.truthy (Ado.optional_length (VArr items))); eauto.
Qed.

Lemma listBuilds_parsed (args parsed : Value) :
  Zod.parse Server.ListBuildsSchema args = Return parsed ->
  exists q, Ado.listBuilds_query parsed = Return q.
Proof.
  intros P. destruct (parse_return _ _ _ P) as (props & -> & Hc & Hp & (kept & ->) & _).
  apply listBuilds_query_returns.
  pose proof (Hp "definitions" ltac:(cbn; tauto) ltac:(repeat constructor)) as E.
  cbn [Js.prop] in E.
  rewrite E. eapply check_optional_array. apply (Hc "definitions"). cbn; tauto.
Qed.

Ltac expose_client :=
  unfold Server.client_call, Server.ado;
  cbv [switch String.eqb Ascii.eqb Bool.eqb];
  cbn [Ado.makeADO Ado.listProjects Ado.listPipelines Ado.listBuilds Ado.wiqlTeam
         Ado.getWorkItem Ado.getWorkItems Ado.createWorkItem Ado.updateWorkItem
         Ado.addComment Ado.listBoardColumns Ado.listTeamIterations
         Ado.getIterationWorkItems Ado.org Ado.pat].

Ltac settle_rest :=
  split; [cbn [method get_request post_request patch_request In]; tauto|];
  repeat match goal with |- _ /\ _ => split end;
  intros E; try discriminate E; split; reflexivity.

Ltac settle_call lemma :=
  eexists; split; [apply lemma|]; settle_rest.

Ltac settle_encoded Hs lemma :=
  eexists; split; [apply encoded_one_call; [exact Hs|apply lemma]|]; settle_rest.

Lemma encodable_name (name : string) (input : Value) (s : string) :
  encodable name input = true ->
  encoded_name name input = Some s ->
  Str.lone_surrogate s = false.
Proof. unfold encodable. intros H E. rewrite E in H. now apply negb_true_iff in H. Qed.

(** Each tool makes one call on the client when the name it encodes, if
    any, has no lone surrogate, and the three tools that write a work item
    send their patch document as its body. *)
Lemma client_call_one_call (env : Env) (name : string) (input : Value) :
  In name Server.tool_names ->
  (name = "list_builds" -> exists q, Ado.listBuilds_query input = Return q) ->
  encodable name input = true ->
  exists r,
    one_call r (Server.client_call env name input)
    /\ In (method r) ["GET"; "POST"; "PATCH"]
    /\ (name = "work_item_create" ->
        method r = "PATCH"
        /\ body r = JSON.stringify (VArr (Server.create_ops input)))
    /\ (name = "work_item_update" ->
        method r = "PATCH"
        /\ body r = JSON.stringify (VArr (Server.update_ops input)))
    /\ (name = "board_move" ->
        method r = "PATCH"
        /\ body r = JSON.stringify (VArr (Server.move_ops input))).
Proof.
  intros Hin Hq Henc. unfold Server.tool_names in Hin. cbn [In] in Hin.
  repeat (destruct Hin as [<-|Hin]); [..|destruct Hin]; expose_client.
  - settle_call adoGet_one_call.
  - settle_call adoGet_one_call.
  - destruct (Hq eq_refl) as [q Q].
    exists (get_request
              (Ado.orgBase (Ado.mkADOOpts (ADO_ORG env) (ADO_PROJECT env) (ADO_PAT env))
               ++ "/_apis/build/builds?" ++ URLSearchParams.toString q) (ADO_PAT env)).
    split.
    + eapply one_call_ext; [|apply adoGet_one_call].
      intros w. unfold bind, of_outcome. rewrite Q. reflexivity.
    + split; [cbn; tauto|].
      repeat match goal with |- _ /\ _ => split end; intros E; discriminate E.
  - pose proof (encodable_name _ _ _ Henc eq_refl) as Hs.
    settle_encoded Hs adoPost_one_call.
  - settle_call adoGet_one_call.
  - settle_call adoPost_one_call.
  - pose proof (encodable_name _ _ _ Henc eq_refl) as Hs.
    settle_encoded Hs adoPatch_one_call.
  - settle_call adoPatch_one_call.
  - settle_call adoPost_one_call.
  - unfold encodable, encoded_name in Henc.
    cbv [switch String.eqb Ascii.eqb Bool.eqb] in Henc.
    destruct (Js.truthy (Js.prop input "team")).
    + apply negb_true_iff in Henc. eexists. split.
      * eapply one_call_ext; [|apply adoGet_one_call].
        intros w. unfold bind at 1. rewrite encoded_run, Henc. reflexivity.
      * settle_rest.
    + eexists. split.
      * eapply one_call_ext; [|apply adoGet_one_call]. intros w. reflexivity.
      * settle_rest.
  - pose proof (encodable_name _ _ _ Henc eq_refl) as Hs.
    settle_encoded Hs adoGet_one_call.
  - pose proof (encodable_name _ _ _ Henc eq_refl) as Hs.
    settle_encoded Hs adoGet_one_call.
  - settle_call adoPatch_one_call.
Qed.

(** A tool whose name to encode holds a lone surrogate throws the
    [URIError] and sends nothing. *)
Lemma client_call_malformed (env : Env) (name : string) (input : Value) (w : World) :
  encodable name input = false ->
  Server.client_call env name input w = (Throw (URIError "URI malformed"), w).
Proof.
  unfold encodable, encoded_name, Server.client_call. cbn [switch].
  repeat match goal with
         | |- context [String.eqb name ?label] =>
             destruct (String.eqb_spec name label) as [->|_];
             [cbv [String.eqb Ascii.eqb Bool.eqb]; expose_methods;
              try discriminate;
              try (intros H; apply negb_false_iff in H;
                   rewrite encoded_run, H; reflexivity)|]
         end; try discriminate.
  destruct (Js.truthy (Js.prop input "team")); [|discriminate].
  intros H. apply negb_false_iff in H.
  unfold bind at 1. rewrite encoded_run, H. reflexivity.
Qed.

(** The [catch] block of [dist/server.js] on the error of a client call. *)
Lemma call_tool_raised (env : Env) (name : string) (args input : Value)
  (w w' : World) (e : JsError) :
  (forall shape, Server.tool_schema name = Some shape ->
                 Zod.parse shape args = Return input) ->
  (Server.tool_schema name = None -> input = args) ->
  Server.client_call env name input w = (Throw e, w') ->
  Server.call_tool env name args w
  = (Throw (McpError InternalError ("Tool execution failed: " ++ JsError_toString e)),
     w').
Proof.
  intros Hp Hn Hc. unfold Server.call_tool, try_catch. rewrite dispatch_table.
  destruct (Server.tool_schema name) as [shape|].
  - rewrite (Hp shape eq_refl).
    unfold Server.reply, Server.await, lift, try_catch, bind. now rewrite Hc.
  - rewrite <- (Hn eq_refl).
    unfold Server.reply, Server.await, lift, try_catch, bind. now rewrite Hc.
Qed.

(** The claim C6 fails for a team that is a lone surrogate: the arguments
    pass the schema of [wiql_query_team], [encodeURIComponent] throws, and
    the tool sends no request to a remote side that would answer 200. *)
Lemma valid_call_without_request :
  Zod.parse Server.WiqlQueryTeamSchema
    (VObj [("team", VStr lone_D800); ("wiql", VStr "SELECT [System.Id] FROM WorkItems")])
  = Return (VObj [("team", VStr lone_D800);
                  ("wiql", VStr "SELECT [System.Id] FROM WorkItems")])
  /\ Server.call_tool sample_env "wiql_query_team"
       (VObj [("team", VStr lone_D800); ("wiql", VStr "SELECT [System.Id] FROM WorkItems")])
       (fresh [answers 200 VNull])
     = (Throw (McpError InternalError "Tool execution failed: URIError: URI malformed"),
        fresh [answers 200 VNull])
  /\ requests (trace (snd (Server.call_tool sample_env "wiql_query_team"
                            (VObj [("team", VStr lone_D800);
                                   ("wiql", VStr "SELECT [System.Id] FROM WorkItems")])
                            (fresh [answers 200 VNull]))))
     = [].
Proof. repeat split. Qed.

(** Whatever its arguments, the call of a tool on the client sends one
    request, again and again within the three attempts of a GET, or none. *)
Lemma client_call_single (env : Env) (name : string) (input : Value) (w : World) :
  exists evs r n,
    snd (Server.client_call env name input w) = after w evs
    /\ requests evs = repeat r n
    /\ (n <= 3)%nat.
Proof.
  assert (Silent : snd (Server.client_call env name input w) = w ->
                   exists evs r n,
                     snd (Server.client_call env name input w) = after w evs
                     /\ requests evs = repeat r n /\ (n <= 3)%nat).
  { intros E. exists [], (get_request "" ""), 0%nat. rewrite E, after_nil.
    repeat split. lia. }
  assert (Once : (exists r, one_call r (Server.client_call env name input)) ->
                 exists evs r n,
                   snd (Server.client_call env name input w) = after w evs
                   /\ requests evs = repeat r n /\ (n <= 3)%nat).
  { intros [r H]. destruct (H w) as (evs & n & Hw & Hr & Hn & _).
    exists evs, r, n. repeat split; [exact Hw|exact Hr|lia]. }
  destruct (in_dec string_dec name Server.tool_names) as [Hin|Hout].
  2: { apply Silent. unfold Server.client_call.
       rewrite switch_otherwise by exact Hout. reflexivity. }
  destruct (encodable name input) eqn:Henc.
  2: { apply Silent. now rewrite client_call_malformed. }
  destruct (String.eqb_spec name "list_builds") as [->|Hne].
  - destruct (Ado.listBuilds_query input) as [q|e] eqn:Q.
    + apply Once.
      destruct (client_call_one_call env "list_builds" input Hin) as (r & H & _);
        [eauto|exact Henc|eauto].
    + apply Silent. expose_client. unfold bind, of_outcome. now rewrite Q.
  - apply Once.
    destruct (client_call_one_call env name input Hin) as (r & H & _);
      [intros E; contradiction|exact Henc|eauto].
Qed.

(** C6, amended. For each of the thirteen tools, an invocation whose
    arguments pass the validation and whose name to encode into the address
    (the team, the type of the work item), if the tool has one, holds no lone
    surrogate makes one REST call: the same request to one address, sent
    once, or up to three times by the retry loop when it is a GET, and
    nothing else is sent. For [work_item_create], [work_item_update] and
    [board_move] the request is a PATCH whose body is the patch document
    built from the parsed arguments. When the name holds a lone surrogate,
    [encodeURIComponent] throws: the tool makes no call and the caller gets
    an InternalError. Whatever the name and the arguments, an invocation
    sends to one address at most: all its requests are the same request. *)
Theorem one_tool_one_call (env : Env) (name : string) (args : Value) :
  (In name Server.tool_names ->
   Server.valid_arguments name args ->
   (encodable name args = true ->
    exists r input,
      one_call r (Server.call_tool env name args)
      /\ In (method r) ["GET"; "POST"; "PATCH"]
      /\ (forall shape, Server.tool_schema name = Some shape ->
                        Zod.parse shape args = Return input)
      /\ (name = "work_item_create" ->
          method r = "PATCH"
          /\ body r = JSON.stringify (VArr (Server.create_ops input)))
      /\ (name = "work_item_update" ->
          method r = "PATCH"
          /\ body r = JSON.stringify (VArr (Server.update_ops input)))
      /\ (name = "board_move" ->
          method r = "PATCH"
          /\ body r = JSON.stringify (VArr (Server.move_ops input))))
   /\ (encodable name args = false ->
       forall w,
         Server.call_tool env name args w
         = (Throw (McpError InternalError
                     "Tool execution failed: URIError: URI malformed"), w)))
  /\ (forall w, exists evs r n,
        snd (Server.call_tool env name args w) = after w evs
        /\ requests evs = repeat r n
        /\ (n <= 3)%nat).
Proof.
  split.
  - intros Hin Hv.
    destruct (call_tool_valid env name args) as (input & Hp & Hw & Hn).
    { intros shape S. unfold Server.valid_arguments in Hv. now rewrite S in Hv. }
    pose proof (encoded_name_parsed name args input Hp Hn) as He.
    split; intros Henc.
    + destruct (client_call_one_call env name input Hin) as (r & H1 & H2 & H3).
      * intros ->. apply (listBuilds_parsed args). apply Hp. reflexivity.
      * unfold encodable. rewrite He. exact Henc.
      * exists r, input. split; [|split; [exact H2|split; [exact Hp|exact H3]]].
        eapply one_call_snd; [exact Hw|exact H1].
    + intros w.
      apply (call_tool_raised env name args input w w (URIError "URI malformed") Hp Hn).
      apply client_call_malformed. unfold encodable. rewrite He. exact Henc.
  - intros w. rewrite call_tool_snd, dispatch_table.
    destruct (Server.tool_schema name) as [shape|].
    + destruct (Zod.parse shape args) as [parsed|issues].
      * rewrite reply_snd. apply client_call_single.
      * exists [], (get_request "" ""), 0%nat. cbn [snd]. rewrite after_nil.
        repeat split. lia.
    + rewrite reply_snd. apply client_call_single.
Qed.

Lemma nonempty_is (o : option string) (s : string) :
  nonempty o = Some s <-> o = Some s /\ s <> "".
Proof.
  unfold nonempty. destruct o as [s'|]; [|split; [discriminate|intros [H _]; discriminate H]].
  destruct (String.eqb_spec s' "") as [->|Hne]; split.
  - discriminate.
  - intros [[= <-] H]. congruence.
  - intros [= <-]. auto.
  - intros [[= <-] _]. reflexivity.
Qed.


Lemma orgBase_nonempty (org pat : string) (project : option string) :
  Ado.orgBase (Ado.mkADOOpts org (nonempty project) pat)
  = Ado.orgBase (Ado.mkADOOpts org project pat).
Proof.
  rewrite !orgBase_encoded. cbn [Ado.org Ado.project].
  destruct project as [p|]; [|reflexivity]. cbn [nonempty].
  destruct (String.eqb_spec p "") as [->|Hne]; [reflexivity|].
  cbn [nonempty]. apply String.eqb_neq in Hne. now rewrite Hne.
Qed.




(** ** [board_move] and [work_item_update] *)

Lemma board_move_run (env : Env) (id : Z) (stateName iterationPath : option string)
  (w : World) :
  Server.call_tool env "board_move" (board_move_args id stateName iterationPath) w
  = try_catch
      (Server.reply
         (Ado.adoPatch (url (move_request env id stateName iterationPath)) (ADO_PAT env)
            (VArr (add_if "/fields/System.State" (nonempty stateName)
                   ++ add_if "/fields/System.IterationPath" (nonempty iterationPath)))
            (Some "application/json-patch+json")))
      Server.on_error w.
Proof.
  destruct stateName as [[|c1 s1]|]; destruct iterationPath as [[|c2 s2]|]; reflexivity.
Qed.

Lemma work_item_update_run (env : Env) (id : Z) (state iterationPath : option string)
  (w : World) :
  Server.call_tool env "work_item_update" (work_item_update_args id state iterationPath) w
  = try_catch
      (Server.reply
         (Ado.adoPatch (url (move_request env id state iterationPath)) (ADO_PAT env)
            (VArr (add_if "/fields/System.State" (nonempty state)
                   ++ add_if "/fields/System.IterationPath" (nonempty iterationPath)))
            (Some "application/json-patch+json")))
      Server.on_error w.
Proof.
  destruct state as [[|c1 s1]|]; destruct iterationPath as [[|c2 s2]|]; reflexivity.
Qed.

Lemma caught_reply_snd (m : M JsError Value) (w : World) :
  snd (try_catch (Server.reply m) (@Server.on_error CallToolResult) w) = snd (m w).
Proof.
  unfold try_catch, Server.reply, Server.await, lift, try_catch, bind, ret, throw.
  destruct (m w) as [[v|e] w']; reflexivity.
Qed.

(** In the earlier server the two tools run the same [try] block. *)
Lemma board_move_dispatch0 (env : Env) (id : Z) (stateName iterationPath : option string)
  (w : World) :
  Server0.dispatch env "board_move" (board_move_args id stateName iterationPath) w
  = Server0.dispatch env "work_item_update"
      (work_item_update_args id stateName iterationPath) w.
Proof.
  destruct stateName as [[|c1 s1]|]; destruct iterationPath as [[|c2 s2]|]; reflexivity.
Qed.

(** C9. [board_move] with [(id, stateName, iterationPath)] runs exactly as
    [work_item_update] with [(id, state = stateName, iterationPath)] and no
    extra fields: from any world both send the same single PATCH, to the
    address of the work item, with the same document (the state first, then
    the iteration path, each when it is a string that is not empty), and
    give the same result. With neither argument the document is the empty
    array. In the earlier server the two tools run the same [try] block, so
    they send the same request. *)
Theorem board_move_is_work_item_update
  (env : Env) (id : Z) (stateName iterationPath : option string) (w : World) :
  Server.call_tool env "board_move" (board_move_args id stateName iterationPath) w
  = Server.call_tool env "work_item_update"
      (work_item_update_args id stateName iterationPath) w
  /\ one_call (move_request env id stateName iterationPath)
       (Server.call_tool env "board_move" (board_move_args id stateName iterationPath))
  /\ one_call (move_request env id stateName iterationPath)
       (Server.call_tool env "work_item_update"
          (work_item_update_args id stateName iterationPath))
  /\ url (move_request env id stateName iterationPath)
     = Ado.orgBase (Ado.mkADOOpts (ADO_ORG env) (ADO_PROJECT env) (ADO_PAT env))
       ++ "/_apis/wit/workitems/" ++ Str.of_Z id ++ "?api-version=6.0"
  /\ body (move_request env id stateName iterationPath)
     = JSON.stringify
         (VArr (add_if "/fields/System.State" (nonempty stateName)
                ++ add_if "/fields/System.IterationPath" (nonempty iterationPath)))
  /\ body (move_request env id None None) = Some "[]"
  /\ Server0.dispatch env "board_move" (board_move_args id stateName iterationPath) w
     = Server0.dispatch env "work_item_update"
         (work_item_update_args id stateName iterationPath) w.
Proof.
  split; [now rewrite board_move_run, work_item_update_run|].
  split.
  { eapply one_call_snd;
      [|apply (adoPatch_one_call _ _ _ (Some "application/json-patch+json"))].
    intros w'. rewrite board_move_run. apply caught_reply_snd. }
  split.
  { eapply one_call_snd;
      [|apply (adoPatch_one_call _ _ _ (Some "application/json-patch+json"))].
    intros w'. rewrite work_item_update_run. apply caught_reply_snd. }
  split; [reflexivity|]. split; [reflexivity|]. split; [reflexivity|].
  apply board_move_dispatch0.
Qed.

(** ** The theorems at work on concrete runs *)

Lemma http_error_messages_witness :
  fst (Ado.adoPost "https://contoso.visualstudio.com/_apis/wit/wiql" "token"
         (VObj [("query", VStr "select")]) None (fresh [answers 404 VNull]))
  = Throw (Error "404 POST https://contoso.visualstudio.com/_apis/wit/wiql")
  /\ carries (Error "404 POST https://contoso.visualstudio.com/_apis/wit/wiql")
       404 "https://contoso.visualstudio.com/_apis/wit/wiql" = true.
Proof.
  apply (proj1 http_error_messages
           "https://contoso.visualstudio.com/_apis/wit/wiql" "token"
           (VObj [("query", VStr "select")]) None (fresh [answers 404 VNull])
           (mkResponse 404 (Return VNull))).
  - reflexivity.
  - unfold is_2xx. cbn [statusCode]. lia.
Defined.

Lemma tool_errors_reported_witness :
  fst (Server.call_tool sample_env "work_item_get" (VObj [("id", VStr "7")]) (fresh []))
  = Throw (McpError InvalidParams
             "Invalid arguments: id: Expected number, received string").
Proof.
  apply (proj1 (proj2 (tool_errors_reported sample_env "work_item_get"
                         (VObj [("id", VStr "7")]) (fresh [])))
           Server.WorkItemGetSchema
           [Zod.mkIssue [Zod.Key "id"] "Expected number, received string"]).
  - reflexivity.
  - reflexivity.
Defined.

Lemma one_tool_one_call_witness :
  exists r input,
    one_call r (Server.call_tool sample_env "work_item_create" sample_create_args)
    /\ In (method r) ["GET"; "POST"; "PATCH"]
    /\ (forall shape, Server.tool_schema "work_item_create" = Some shape ->
                      Zod.parse shape sample_create_args = Return input)
    /\ ("work_item_create" = "work_item_create" ->
        method r = "PATCH"
        /\ body r = JSON.stringify (VArr (Server.create_ops input)))
    /\ ("work_item_create" = "work_item_update" ->
        method r = "PATCH"
        /\ body r = JSON.stringify (VArr (Server.update_ops input)))
    /\ ("work_item_create" = "board_move" ->
        method r = "PATCH"
        /\ body r = JSON.stringify (VArr (Server.move_ops input))).
Proof.
  apply (proj1 (proj1 (one_tool_one_call sample_env "work_item_create"
                         sample_create_args)
                  ltac:(cbn [Server.tool_names In]; tauto)
                  (ex_intro _ _ eq_refl))).
  reflexivity.
Defined.

Lemma listBuilds_url_witness :
  "Core Team" <> ""
  /\ one_call
       (get_request
          (Ado.orgBase (Ado.mkADOOpts "contoso" (Some "My Project") "token")
           ++ "/" ++ encodeURIComponent "Core Team"
           ++ "/_apis/work/boardcolumns?api-version=6.0") "token")
       (Ado.listBoardColumns
          (Ado.makeADO (Ado.mkADOOpts "contoso" (Some "My Project") "token"))
          (VStr "Core Team")).
Proof.
  assert (H : "Core Team" <> "") by discriminate.
  split; [exact H|].
  pose proof (listBuilds_url (Ado.mkADOOpts "contoso" (Some "My Project") "token")
                (mkBuildOpts (Some [12; 15]) (Some "refs/heads/main") (Some 10) None))
    as T.
  exact (proj1 (proj2 (proj2 (proj2 (proj2 (proj2 (proj2 (proj2 (proj2 (proj2
          (proj2 (proj2 (proj2 (proj2 (proj2 (proj2 (proj2 T))))))))))))))))
           "Core Team" H eq_refl).
Defined.


Lemma unknown_tool_is_internal_error_witness :
  ~ In "delete_project" Server.tool_names
  /\ exists e,
       Server.call_tool sample_env "delete_project" VUndefined (fresh [])
       = (Throw e, fresh [])
       /\ code e = Some InternalError
       /\ Str.includes "delete_project" (message e) = true.
Proof.
  assert (H : ~ In "delete_project" Server.tool_names).
  { cbn [Server.tool_names In]. intros K.
    repeat (destruct K as [K|K]; [discriminate K|]). exact K. }
  split; [exact H|].
  destruct (unknown_tool_is_internal_error sample_env "delete_project" VUndefined
              (fresh []) H) as (_ & (e & E & C & _ & _ & I) & _).
  exists e. split; [exact E|]. split; [exact C|exact I].
Defined.

Example work_item_create_run :
  Server.call_tool sample_env "work_item_create" sample_create_args
    (fresh [answers 200 (VObj [("id", VNum 41)])])
  = (Return (text_result (VObj [("id", VNum 41)])),
     after (fresh [answers 200 (VObj [("id", VNum 41)])])
       [Requested
          (mkRequest "PATCH"
             "https://contoso.visualstudio.com/My%20Project/_apis/wit/workitems/$Bug?api-version=6.0"
             [("Authorization", "Basic OnRva2Vu");
              ("Content-Type", "application/json-patch+json")]
             (JSON.stringify
                (VArr [op_add "/fields/System.Title" (VStr "Crash on start");
                       op_add "/fields/System.AreaPath" (VStr "Web\Checkout")])))]).
Proof. reflexivity. Qed.

Example list_builds_run :
  trace (snd (Server.call_tool sample_env "list_builds"
                (VObj [("top", VNum 10); ("definitions", VArr [VNum 12; VNum 15]);
                       ("branchName", VStr "refs/heads/main")])
                (fresh [answers 503 VNull; answers 200 VNull])))
  = [Requested (get_request "https://contoso.visualstudio.com/My%20Project/_apis/build/builds?api-version=6.0&%24top=10&branchName=refs%2Fheads%2Fmain&definitions=12%2C15" "token");
     Slept 250;
     Requested (get_request "https://contoso.visualstudio.com/My%20Project/_apis/build/builds?api-version=6.0&%24top=10&branchName=refs%2Fheads%2Fmain&definitions=12%2C15" "token")].
Proof. reflexivity. Qed.

Example invalid_arguments_run :
  fst (Server.call_tool sample_env "wiql_query_team"
         (VObj [("team", VStr ""); ("wiql", VNum 3)]) (fresh []))
  = Throw (mkJsError "McpError"
             "MCP error -32602: Invalid arguments: team: String must contain at least 1 character(s), wiql: Expected string, received number"
             (Some InvalidParams)).
Proof. reflexivity. Qed.

(** * Further properties of the code *)

(** ** Arguments that fail the validation *)

(** X1. In the server of [dist/server.js] arguments that fail the schema of
    the tool never reach the client: the handler throws the InvalidParams
    error and the world is as before, no request sent, no time slept. *)
Theorem invalid_arguments_send_nothing
  (env : Env) (name : string) (args : Value) (w : World)
  (shape : Zod.Shape) (issues : list Zod.Issue) :
  Server.tool_schema name = Some shape ->
  Zod.parse shape args = Throw issues ->
  Server.call_tool env name args w
  = (Throw (McpError InvalidParams
              ("Invalid arguments: " ++ Server.issues_text issues)), w).
Proof.
  intros S P. unfold Server.call_tool, try_catch.
  rewrite dispatch_table, S, P. reflexivity.
Qed.

Lemma invalid_arguments_send_nothing_witness :
  Server.call_tool sample_env "list_builds" (VObj [("top", VNum 500)])
    (fresh [answers 200 VNull])
  = (Throw (McpError InvalidParams
              "Invalid arguments: top: Number must be less than or equal to 200"),
     fresh [answers 200 VNull]).
Proof.
  apply (invalid_arguments_send_nothing sample_env "list_builds"
           (VObj [("top", VNum 500)]) (fresh [answers 200 VNull])
           Server.ListBuildsSchema
           [Zod.mkIssue [Zod.Key "top"] "Number must be less than or equal to 200"]);
    reflexivity.
Defined.

(** ** Properties the schema does not name *)

Lemma parse_ext (shape : Zod.Shape) (props props' : list (string * Value)) :
  (forall k, In k (map fst shape) ->
             Js.lookup k props = Js.lookup k props'
             /\ Zod.has_key k props = Zod.has_key k props') ->
  Zod.parse shape (VObj props) = Zod.parse shape (VObj props').
Proof.
  intros H. unfold Zod.parse.
  assert (E1 : flat_map (fun ks => Zod.check (snd ks) [Zod.Key (fst ks)]
                                     (Js.lookup (fst ks) props)) shape
               = flat_map (fun ks => Zod.check (snd ks) [Zod.Key (fst ks)]
                                       (Js.lookup (fst ks) props')) shape).
  { induction shape as [|[k t] shape IH]; [reflexivity|].
    cbn [flat_map fst snd].
    rewrite (proj1 (H k (or_introl eq_refl))). apply f_equal.
    apply IH. intros k' Hk'. apply H. now right. }
  assert (E2 : flat_map (fun ks => if Zod.has_key (fst ks) props
                                   then [(fst ks,
                                          Zod.output (snd ks) (Js.lookup (fst ks) props))]
                                   else []) shape
               = flat_map (fun ks => if Zod.has_key (fst ks) props'
                                     then [(fst ks,
                                            Zod.output (snd ks)
                                              (Js.lookup (fst ks) props'))]
                                     else []) shape).
  { clear E1. induction shape as [|[k t] shape IH]; [reflexivity|].
    cbn [flat_map fst snd].
    destruct (H k (or_introl eq_refl)) as [L K]. rewrite L, K. apply f_equal.
    apply IH. intros k' Hk'. apply H. now right. }
  now rewrite E1, E2.
Qed.

Lemma client_call_unparsed (env : Env) (name : string) (a b : Value) :
  Server.tool_schema name = None ->
  Server.client_call env name a = Server.client_call env name b.
Proof.
  unfold Server.tool_schema, Server.client_call. cbn [switch].
  repeat match goal with
         | |- context [String.eqb name ?label] =>
             destruct (String.eqb_spec name label) as [->|_];
             [cbv [String.eqb Ascii.eqb Bool.eqb]; intros H;
              first [discriminate H|reflexivity]|]
         end.
  reflexivity.
Qed.

(** X2. The server of [dist/server.js] reads only the properties its schema
    names: two argument objects that agree on the keys of the schema of the
    tool (same value, or both without the key) run the tool identically,
    whatever else they hold. The two tools without a schema, and any unknown
    name, ignore their arguments altogether. *)
Theorem unnamed_properties_ignored
  (env : Env) (name : string) (w : World) :
  (forall shape props props',
      Server.tool_schema name = Some shape ->
      (forall k, In k (map fst shape) ->
                 Js.lookup k props = Js.lookup k props'
                 /\ Zod.has_key k props = Zod.has_key k props') ->
      Server.call_tool env name (VObj props) w
      = Server.call_tool env name (VObj props') w)
  /\ (forall args args',
        Server.tool_schema name = None ->
        Server.call_tool env name args w = Server.call_tool env name args' w).
Proof.
  split.
  - intros shape props props' S H. unfold Server.call_tool, try_catch.
    rewrite !dispatch_table, S, (parse_ext shape props props' H). reflexivity.
  - intros args args' S. unfold Server.call_tool, try_catch.
    rewrite !dispatch_table, S, (client_call_unparsed env name args args' S).
    reflexivity.
Qed.

Lemma unnamed_properties_ignored_witness :
  Server.call_tool sample_env "work_item_get"
    (VObj [("id", VNum 7); ("expand", VStr "all")]) (fresh [answers 200 VNull])
  = Server.call_tool sample_env "work_item_get"
      (VObj [("comment", VNull); ("id", VNum 7)]) (fresh [answers 200 VNull]).
Proof.
  apply (proj1 (unnamed_properties_ignored sample_env "work_item_get"
                  (fresh [answers 200 VNull]))
           Server.WorkItemGetSchema).
  - reflexivity.
  - intros k [<-|[]]. split; reflexivity.
Defined.

(** ** A successful call *)

Lemma adoGet_from_2xx (url pat : string) : from_2xx (fun v => v) (Ado.adoGet url pat).
Proof.
  intros w v Hret. set (r := get_request url pat).
  destruct (adoGet_policy url pat w) as (n & _ & _ & Hlast). fold r in Hlast.
  destruct (answer w r n) as [res|e] eqn:A.
  - destruct Hlast as (H2 & HR & HF).
    destruct (status_cases (statusCode res)) as [C|[C|[C1 C2]]].
    + rewrite (H2 C) in Hret |- *. cbn [fst snd] in Hret |- *.
      exists (backoff r n), r, res, v. auto.
    + destruct (HR C) as [_ E]. rewrite E in Hret. discriminate Hret.
    + rewrite (HF C1 C2) in Hret. discriminate Hret.
  - rewrite Hlast in Hret. discriminate Hret.
Qed.

Lemma adoPost_from_2xx (url pat : string) (body : Value) (ct : option string) :
  from_2xx (fun v => v) (Ado.adoPost url pat body ct).
Proof.
  intros w v. rewrite adoPost_run. cbn [fst snd].
  destruct (net w (trace w) _) as [res|e] eqn:N; [|discriminate].
  destruct ((statusCode res <? 200) || (statusCode res >=? 300)) eqn:T; [discriminate|].
  intros Hret. apply not_2xx_test in T.
  exists [], (post_request url pat body (Ado.default "application/json" ct)), res, v.
  rewrite app_nil_r. auto.
Qed.

Lemma adoPatch_from_2xx (url pat : string) (body : Value) (ct : option string) :
  from_2xx (fun v => v) (Ado.adoPatch url pat body ct).
Proof.
  intros w v. rewrite adoPatch_run. cbn [fst snd].
  destruct (net w (trace w) _) as [res|e] eqn:N; [|discriminate].
  destruct ((statusCode res <? 200) || (statusCode res >=? 300)) eqn:T; [discriminate|].
  intros Hret. apply not_2xx_test in T.
  exists [], (patch_request url pat body (Ado.default "application/json-patch+json" ct)),
    res, v.
  rewrite app_nil_r. auto.
Qed.

Lemma from_2xx_throw {E A} (f : Value -> A) (e : E) : from_2xx f (throw e).
Proof. intros w a H. discriminate H. Qed.

Lemma from_2xx_after_silent {E A B} (f : Value -> B) (m : M E A) (k : A -> M E B) :
  (forall w, snd (m w) = w) -> (forall a, from_2xx f (k a)) -> from_2xx f (bind m k).
Proof.
  intros Hs Hk w b. unfold bind. specialize (Hs w).
  destruct (m w) as [[a|e] w1]; cbn [snd] in Hs; subst w1; [|discriminate].
  apply Hk.
Qed.

Lemma from_2xx_then_ret {E A B} (f : Value -> A) (g : A -> B) (m : M E A) :
  from_2xx f m -> from_2xx (fun v => g (f v)) (bind m (fun x => ret (g x))).
Proof.
  intros Hm w b. unfold bind, ret. specialize (Hm w).
  destruct (m w) as [[a|e] w1]; [|discriminate].
  intros [= <-]. destruct (Hm a eq_refl) as (t & r & res & v & W & N & S & J & ->).
  exists t, r, res, v. auto.
Qed.

Lemma from_2xx_lift {E E' A} (f : Value -> A) (h : E -> E') (m : M E A) :
  from_2xx f m -> from_2xx f (lift h m).
Proof.
  intros Hm w a. unfold lift, try_catch, throw. specialize (Hm w).
  destruct (m w) as [[a'|e] w1]; [|discriminate].
  intros [= <-]. now apply Hm.
Qed.

Ltac from_2xx_verb :=
  first
    [ apply adoGet_from_2xx | apply adoPost_from_2xx | apply adoPatch_from_2xx
    | match goal with
      | |- from_2xx _ (bind (encodeURIComponent_call _) _) =>
          apply from_2xx_after_silent;
          [apply encoded_silent|intros ?; from_2xx_verb]
      | |- from_2xx _ (bind (if _ then _ else _) _) =>
          apply from_2xx_after_silent;
          [intros ?; apply columns_url_silent|intros ?; from_2xx_verb]
      end ].

Lemma listBuilds_from_2xx (o : Ado.ADOOpts) (opts : Value) :
  from_2xx (fun v => v) (Ado.listBuilds (Ado.makeADO o) opts).
Proof.
  cbn [Ado.makeADO Ado.listBuilds]. apply from_2xx_after_silent.
  - intros w. reflexivity.
  - intros q. apply adoGet_from_2xx.
Qed.

Lemma client_call_from_2xx (env : Env) (name : string) (parsed : Value) :
  from_2xx (fun v => v) (Server.client_call env name parsed).
Proof.
  unfold Server.client_call. apply switch_ind; [|apply from_2xx_throw].
  repeat (apply Forall_cons; [cbn [snd]|]); try apply Forall_nil;
    try apply (listBuilds_from_2xx
                 (Ado.mkADOOpts (ADO_ORG env) (ADO_PROJECT env) (ADO_PAT env)));
    expose_methods; from_2xx_verb.
Qed.

Lemma dispatch_from_2xx (env : Env) (name : string) (args : Value) :
  from_2xx text_result (Server.dispatch env name args).
Proof.
  assert (R : forall parsed,
             from_2xx text_result (Server.reply (Server.client_call env name parsed))).
  { intros parsed. unfold Server.reply, Server.await.
    apply (from_2xx_then_ret (fun v => v) text_result), from_2xx_lift,
      client_call_from_2xx. }
  intros w result. rewrite dispatch_table.
  destruct (Server.tool_schema name) as [shape|]; [|apply R].
  destruct (Zod.parse shape args) as [parsed|issues]; [apply R|discriminate].
Qed.

Lemma dispatch0_from_2xx (env : Env) (name : string) (args : Value) :
  from_2xx text_result (Server0.dispatch env name args).
Proof.
  unfold Server0.dispatch. apply switch_ind; [|apply from_2xx_throw].
  repeat (apply Forall_cons; [cbn [snd]|]); try apply Forall_nil;
    try (apply from_2xx_after_silent;
         [intros w; unfold Server0.destructure; destruct args; reflexivity|intros _]);
    apply (from_2xx_then_ret (fun v => v) text_result);
    try apply (listBuilds_from_2xx (Ado.mkADOOpts (ADO_ORG env) _ (ADO_PAT env)));
    expose_methods; from_2xx_verb.
Qed.

(** X3. A tool call returns a result only when the remote side answered
    the last request of the run with a 2xx status and a JSON body: the run
    ends with this request, the answer is the one the remote side gives to it
    after all that the run did before, and the result is the single text item
    that holds the body of this answer, pretty-printed. Both servers. *)
Theorem success_carries_2xx_body
  (env : Env) (name : string) (args : Value) (w : World) (result : CallToolResult) :
  (fst (Server.call_tool env name args w) = Return result ->
   exists evs r res v,
     snd (Server.call_tool env name args w) = after w (evs ++ [Requested r])%list
     /\ net w (trace w ++ evs)%list r = Return res
     /\ is_2xx (statusCode res)
     /\ body_json res = Return v
     /\ result = mkCallToolResult [mkTextContent "text" (JSON.stringify2 v)])
  /\ (fst (Server0.call_tool env name args w) = Return result ->
      exists evs r res v,
        snd (Server0.call_tool env name args w) = after w (evs ++ [Requested r])%list
        /\ net w (trace w ++ evs)%list r = Return res
        /\ is_2xx (statusCode res)
        /\ body_json res = Return v
        /\ result = mkCallToolResult [mkTextContent "text" (JSON.stringify2 v)]).
Proof.
  split; intros H.
  - pose proof (dispatch_from_2xx env name args w result) as D.
    unfold Server.call_tool, try_catch in *.
    destruct (Server.dispatch env name args w) as [[a|[issues|e]] w'];
      cbn [fst snd] in *; [|discriminate H|discriminate H].
    apply D. injection H as ->. reflexivity.
  - pose proof (dispatch0_from_2xx env name args w result) as D.
    unfold Server0.call_tool, try_catch in *.
    destruct (Server0.dispatch env name args w) as [[a|e] w'];
      cbn [fst snd] in *; [|discriminate H].
    apply D. exact H.
Qed.

Lemma success_carries_2xx_body_witness :
  exists evs r res v,
    snd (Server.call_tool sample_env "list_projects" VUndefined
           (fresh [answers 503 VNull; answers 200 (VObj [("count", VNum 2)])]))
    = after (fresh [answers 503 VNull; answers 200 (VObj [("count", VNum 2)])])
        (evs ++ [Requested r])%list
    /\ net (fresh [answers 503 VNull; answers 200 (VObj [("count", VNum 2)])])
         (trace (fresh [answers 503 VNull; answers 200 (VObj [("count", VNum 2)])])
          ++ evs)%list r
       = Return res
    /\ is_2xx (statusCode res)
    /\ body_json res = Return v
    /\ text_result (VObj [("count", VNum 2)])
       = mkCallToolResult [mkTextContent "text" (JSON.stringify2 v)].
Proof.
  apply (proj1 (success_carries_2xx_body sample_env "list_projects" VUndefined
                  (fresh [answers 503 VNull; answers 200 (VObj [("count", VNum 2)])])
                  (text_result (VObj [("count", VNum 2)])))).
  reflexivity.
Defined.

(** ** How long a call can take *)

Lemma sleeps_app (a b : list Event) : sleeps (a ++ b) = (sleeps a ++ sleeps b)%list.
Proof. unfold sleeps. apply flat_map_app. Qed.

Lemma sleeps_backoff (r : Request) (n : nat) :
  (n <= 3)%nat -> sleeps (backoff r n) = firstn n [250; 500; 750].
Proof.
  intros H. destruct n as [|[|[|[|n]]]]; try reflexivity. lia.
Qed.

Lemma adoGet_paced (url pat : string) : paced (Ado.adoGet url pat).
Proof.
  intros w. set (r := get_request url pat).
  destruct (adoGet_policy url pat w) as (n & Hn & _ & Hlast). fold r in Hlast.
  assert (Stop : exists evs,
             evs = (backoff r n ++ [Requested r])%list
             /\ (List.length (requests evs) <= 3)%nat
             /\ exists k, (k <= 3)%nat /\ sleeps evs = firstn k [250; 500; 750]).
  { eexists. split; [reflexivity|]. split.
    - rewrite requests_app, requests_backoff, length_app, repeat_length.
      change (List.length (requests [Requested r])) with 1%nat. lia.
    - exists n. split; [lia|]. rewrite sleeps_app, sleeps_backoff by lia.
      cbn [sleeps flat_map app]. now rewrite app_nil_r. }
  destruct Stop as (evs & -> & Sreq & Ssl).
  destruct (answer w r n) as [res|e].
  - destruct Hlast as (H2 & HR & HF).
    destruct (status_cases (statusCode res)) as [C|[C|[C1 C2]]].
    + eexists. rewrite (H2 C). split; [reflexivity|]. now split.
    + destruct (HR C) as [_ E]. eexists. rewrite E. split; [reflexivity|].
      split; [cbn; lia|]. exists 3%nat. split; [lia|reflexivity].
    + eexists. rewrite (HF C1 C2). split; [reflexivity|]. now split.
  - eexists. rewrite Hlast. split; [reflexivity|]. now split.
Qed.

Lemma once_paced {E A} (m : M E A) (r : Request) :
  (forall w, snd (m w) = after w [Requested r]) -> paced m.
Proof.
  intros H w. exists [Requested r]. split; [apply H|]. split; [cbn; lia|].
  exists 0%nat. split; [lia|reflexivity].
Qed.

Lemma silent_paced {E A} (m : M E A) : (forall w, snd (m w) = w) -> paced m.
Proof.
  intros H w. exists []. rewrite H, after_nil. split; [reflexivity|].
  split; [cbn; lia|]. exists 0%nat. split; [lia|reflexivity].
Qed.

Lemma paced_after_silent {E A B} (m : M E A) (k : A -> M E B) :
  (forall w, snd (m w) = w) -> (forall a, paced (k a)) -> paced (bind m k).
Proof.
  intros Hs Hk w. unfold bind. specialize (Hs w).
  destruct (m w) as [[a|e] w1]; cbn [snd] in Hs; subst w1.
  - apply Hk.
  - apply (silent_paced (throw e)). reflexivity.
Qed.

Lemma paced_then_silent {E A B} (m : M E A) (k : A -> M E B) :
  paced m -> (forall a w, snd (k a w) = w) -> paced (bind m k).
Proof.
  intros Hm Hk w. unfold bind. destruct (Hm w) as (evs & Hw & H).
  exists evs. split; [|exact H].
  destruct (m w) as [[a|e] w1]; cbn [snd] in Hw |- *; [now rewrite Hk|exact Hw].
Qed.

Lemma paced_caught {E E' A} (m : M E A) (h : E -> M E' A) :
  paced m -> (forall e w, snd (h e w) = w) -> paced (try_catch m h).
Proof.
  intros Hm Hh w. unfold try_catch. destruct (Hm w) as (evs & Hw & H).
  exists evs. split; [|exact H].
  destruct (m w) as [[a|e] w1]; cbn [snd] in Hw |- *; [exact Hw|now rewrite Hh].
Qed.

Ltac paced_verb :=
  first [ apply adoGet_paced
        | eapply once_paced; intros ?; rewrite adoPost_run; reflexivity
        | eapply once_paced; intros ?; rewrite adoPatch_run; reflexivity
        | match goal with
          | |- paced (bind (encodeURIComponent_call _) _) =>
              apply paced_after_silent;
              [apply encoded_silent|intros ?; paced_verb]
          | |- paced (bind (if _ then _ else _) _) =>
              apply paced_after_silent;
              [intros ?; apply columns_url_silent|intros ?; paced_verb]
          end ].

Lemma listBuilds_paced (o : Ado.ADOOpts) (opts : Value) :
  paced (Ado.listBuilds (Ado.makeADO o) opts).
Proof.
  cbn [Ado.makeADO Ado.listBuilds]. apply paced_after_silent.
  - intros w. reflexivity.
  - intros q. apply adoGet_paced.
Qed.

Lemma client_call_paced (env : Env) (name : string) (parsed : Value) :
  paced (Server.client_call env name parsed).
Proof.
  unfold Server.client_call. apply switch_ind.
  - repeat (apply Forall_cons; [cbn [snd]|]); try apply Forall_nil;
      try apply (listBuilds_paced
                   (Ado.mkADOOpts (ADO_ORG env) (ADO_PROJECT env) (ADO_PAT env)));
      unfold Server.ado;
      cbn [Ado.makeADO Ado.listProjects Ado.listPipelines Ado.wiqlTeam
             Ado.getWorkItem Ado.getWorkItems Ado.createWorkItem Ado.updateWorkItem
             Ado.addComment Ado.listBoardColumns Ado.listTeamIterations
             Ado.getIterationWorkItems];
      paced_verb.
  - apply silent_paced. reflexivity.
Qed.

Lemma call_tool_paced (env : Env) (name : string) (args : Value) :
  paced (Server.call_tool env name args).
Proof.
  intros w. rewrite call_tool_snd, dispatch_table.
  assert (R : forall parsed,
             paced (Server.reply (Server.client_call env name parsed))).
  { intros parsed w'. rewrite reply_snd. apply client_call_paced. }
  destruct (Server.tool_schema name) as [shape|]; [|apply R].
  destruct (Zod.parse shape args) as [parsed|issues]; [apply R|].
  apply (silent_paced (@throw Server.Exception CallToolResult (Server.ZodError issues))).
  reflexivity.
Qed.

Lemma call_tool0_paced (env : Env) (name : string) (args : Value) :
  paced (Server0.call_tool env name args).
Proof.
  unfold Server0.call_tool. apply paced_caught; [|reflexivity].
  unfold Server0.dispatch. apply switch_ind.
  - repeat (apply Forall_cons; [cbn [snd]|]); try apply Forall_nil;
      try (apply paced_after_silent;
           [intros w; unfold Server0.destructure; destruct args; reflexivity|intros _]);
      (apply paced_then_silent; [|reflexivity]);
      try apply (listBuilds_paced (Ado.mkADOOpts (ADO_ORG env) _ (ADO_PAT env)));
      unfold Server0.ado;
      cbn [Ado.makeADO Ado.listProjects Ado.listPipelines Ado.wiqlTeam
             Ado.getWorkItem Ado.getWorkItems Ado.createWorkItem Ado.updateWorkItem
             Ado.addComment Ado.listBoardColumns Ado.listTeamIterations
             Ado.getIterationWorkItems];
      paced_verb.
  - apply silent_paced. reflexivity.
Qed.

Lemma pauses_bounded (l : list Z) (k : nat) :
  l = firstn k [250; 500; 750] -> fold_right Z.add 0 l <= 1500.
Proof.
  intros ->. destruct k as [|[|[|[|k]]]]; cbn; lia.
Qed.

(** X4. Whatever the tool, the arguments and the remote side, a tool call
    of either server sends at most three requests and its pauses are the
    first ones of 250, 500 and 750 ms, so it sleeps 1500 ms at most. *)
Theorem tool_call_pacing (env : Env) (name : string) (args : Value) (w : World) :
  (exists evs,
      snd (Server.call_tool env name args w) = after w evs
      /\ (List.length (requests evs) <= 3)%nat
      /\ (exists k, (k <= 3)%nat /\ sleeps evs = firstn k [250; 500; 750])
      /\ fold_right Z.add 0 (sleeps evs) <= 1500)
  /\ (exists evs,
         snd (Server0.call_tool env name args w) = after w evs
         /\ (List.length (requests evs) <= 3)%nat
         /\ (exists k, (k <= 3)%nat /\ sleeps evs = firstn k [250; 500; 750])
         /\ fold_right Z.add 0 (sleeps evs) <= 1500).
Proof.
  split.
  - destruct (call_tool_paced env name args w) as (evs & Hw & Hr & k & Hk & Hs).
    exists evs. repeat (split; [assumption|]). split; [eauto|].
    now apply (pauses_bounded _ k).
  - destruct (call_tool0_paced env name args w) as (evs & Hw & Hr & k & Hk & Hs).
    exists evs. repeat (split; [assumption|]). split; [eauto|].
    now apply (pauses_bounded _ k).
Qed.

(** ** The bounds of the arguments *)

Lemma flat_map_nil {A B} (f : A -> list B) (l : list A) :
  (forall x, In x l -> f x = []) -> flat_map f l = [].
Proof.
  induction l as [|x l IH]; [reflexivity|]. intros H. cbn [flat_map].
  rewrite (H x (or_introl eq_refl)), IH; [reflexivity|]. intros y Hy. apply H. now right.
Qed.

(** An object whose every key of the shape passes its check is accepted. *)
Lemma parse_accepts (shape : Zod.Shape) (props : list (string * Value)) :
  (forall k t, In (k, t) shape -> Zod.check t [Zod.Key k] (Js.lookup k props) = []) ->
  exists parsed, Zod.parse shape (VObj props) = Return parsed.
Proof.
  intros H. unfold Zod.parse. rewrite flat_map_nil; [eauto|].
  intros [k t] Hin. now apply H.
Qed.

(** An object with an offending key is rejected. *)
Lemma parse_rejects (shape : Zod.Shape) (props : list (string * Value)) (k : string) :
  Zod.offending shape props k ->
  exists issues, Zod.parse shape (VObj props) = Throw issues.
Proof.
  intros (t & Hin & Hc). unfold Zod.parse.
  destruct (flat_map _ shape) as [|i rest] eqn:F; [|eauto].
  exfalso. apply Hc.
  destruct (Zod.check t [Zod.Key k] (Js.lookup k props)) as [|i l] eqn:C; [reflexivity|].
  assert (Hi : In i (flat_map (fun ks => Zod.check (snd ks) [Zod.Key (fst ks)]
                                         (Js.lookup (fst ks) props)) shape)).
  { apply in_flat_map. exists (k, t). split; [exact Hin|].
    cbn [fst snd]. rewrite C. now left. }
  rewrite F in Hi. destruct Hi.
Qed.

(** A rejected call: InvalidParams and the world as before. *)
Lemma rejected_call (env : Env) (name : string) (shape : Zod.Shape)
  (props : list (string * Value)) (k : string) (w : World) :
  Server.tool_schema name = Some shape ->
  Zod.offending shape props k ->
  exists e, Server.call_tool env name (VObj props) w = (Throw e, w)
            /\ code e = Some InvalidParams.
Proof.
  intros S O. destruct (parse_rejects _ _ _ O) as [issues P].
  eexists. unfold Server.call_tool, try_catch. rewrite dispatch_table, S, P.
  split; reflexivity.
Qed.

(** X5. The server of [dist/server.js] enforces the bounds its schemas
    state, before any request: [list_builds] rejects a [top] below 1 or above
    200, [wiql_query_team] an empty team and a query of fewer than 5
    characters, [work_item_comment_add] an empty text, [iterations_list] a
    time frame other than past, current and future. Each time the caller gets
    InvalidParams and the world is as before. At the bounds the arguments
    pass: [top] from 1 to 200, a query of 5 characters. *)
Theorem argument_bounds (env : Env) (w : World) :
  (forall props n,
      Js.lookup "top" props = VNum n -> n < 1 \/ 200 < n ->
      exists e, Server.call_tool env "list_builds" (VObj props) w = (Throw e, w)
                /\ code e = Some InvalidParams)
  /\ (forall props s,
         Js.lookup "team" props = VStr s -> Str.length s < 1 ->
         exists e, Server.call_tool env "wiql_query_team" (VObj props) w = (Throw e, w)
                   /\ code e = Some InvalidParams)
  /\ (forall props s,
         Js.lookup "wiql" props = VStr s -> Str.length s < 5 ->
         exists e, Server.call_tool env "wiql_query_team" (VObj props) w = (Throw e, w)
                   /\ code e = Some InvalidParams)
  /\ (forall props s,
         Js.lookup "text" props = VStr s -> Str.length s < 1 ->
         exists e, Server.call_tool env "work_item_comment_add" (VObj props) w
                   = (Throw e, w)
                   /\ code e = Some InvalidParams)
  /\ (forall props s,
         Js.lookup "timeframe" props = VStr s ->
         ~ In s ["past"; "current"; "future"] ->
         exists e, Server.call_tool env "iterations_list" (VObj props) w = (Throw e, w)
                   /\ code e = Some InvalidParams)
  /\ (forall n, 1 <= n <= 200 ->
                Server.valid_arguments "list_builds" (VObj [("top", VNum n)]))
  /\ (forall team wiql,
         1 <= Str.length team -> 5 <= Str.length wiql ->
         Server.valid_arguments "wiql_query_team"
           (VObj [("team", VStr team); ("wiql", VStr wiql)])).
Proof.
  split; [|split; [|split; [|split; [|split; [|split]]]]].
  - intros props n L Hn. apply (rejected_call env "list_builds" Server.ListBuildsSchema props "top");
      [reflexivity|].
    eexists. split; [cbn; tauto|]. rewrite L. cbn [Zod.check].
    destruct (Z.ltb_spec n 1); [discriminate|].
    destruct (Z.ltb_spec 200 n); [discriminate|]. lia.
  - intros props s L Hs.
    apply (rejected_call env "wiql_query_team" Server.WiqlQueryTeamSchema props "team");
      [reflexivity|].
    eexists. split; [cbn; tauto|]. rewrite L. cbn [Zod.check].
    destruct (Z.ltb_spec (Str.length s) 1); [discriminate|lia].
  - intros props s L Hs.
    apply (rejected_call env "wiql_query_team" Server.WiqlQueryTeamSchema props "wiql");
      [reflexivity|].
    eexists. split; [cbn; tauto|]. rewrite L. cbn [Zod.check].
    destruct (Z.ltb_spec (Str.length s) 5); [discriminate|lia].
  - intros props s L Hs.
    apply (rejected_call env "work_item_comment_add" Server.WorkItemCommentAddSchema
             props "text"); [reflexivity|].
    eexists. split; [cbn; tauto|]. rewrite L. cbn [Zod.check].
    destruct (Z.ltb_spec (Str.length s) 1); [discriminate|lia].
  - intros props s L Hs.
    apply (rejected_call env "iterations_list" Server.IterationsListSchema
             props "timeframe"); [reflexivity|].
    eexists. split; [cbn; tauto|]. rewrite L. cbn [Zod.check].
    destruct (existsb (String.eqb s) ["past"; "current"; "future"]) eqn:E; [|discriminate].
    exfalso. apply Hs. apply existsb_exists in E. destruct E as (x & Hx & Ex).
    apply String.eqb_eq in Ex. now subst x.
  - intros n Hn. apply parse_accepts. intros k t Hin. cbn [In Server.ListBuildsSchema] in Hin.
    repeat (destruct Hin as [[= <- <-]|Hin]; [try reflexivity|]); [|destruct Hin].
    cbn. destruct (Z.ltb_spec n 1); [lia|]. destruct (Z.ltb_spec 200 n); [lia|reflexivity].
  - intros team wiql Ht Hq. apply parse_accepts. intros k t Hin.
    cbn [In Server.WiqlQueryTeamSchema] in Hin.
    repeat (destruct Hin as [[= <- <-]|Hin]); [| |destruct Hin]; cbn.
    + destruct (Z.ltb_spec (Str.length team) 1); [lia|reflexivity].
    + destruct (Z.ltb_spec (Str.length wiql) 5); [lia|reflexivity].
Qed.

Lemma argument_bounds_witness :
  exists e,
    Server.call_tool sample_env "list_builds"
      (VObj [("branchName", VStr "main"); ("top", VNum 0)]) (fresh [answers 200 VNull])
    = (Throw e, fresh [answers 200 VNull])
    /\ code e = Some InvalidParams.
Proof.
  apply (proj1 (argument_bounds sample_env (fresh [answers 200 VNull]))
           [("branchName", VStr "main"); ("top", VNum 0)] 0).
  - reflexivity.
  - left. lia.
Defined.

(** ** The document of [work_item_update] *)





Lemma call_tool0_snd (env : Env) (name : string) (args : Value) (w : World) :
  snd (Server0.call_tool env name args w) = snd (Server0.dispatch env name args w).
Proof.
  unfold Server0.call_tool, try_catch.
  destruct (Server0.dispatch env name args w) as [[result|e] w']; reflexivity.
Qed.




Example work_item_update_proto :
  requests (trace (snd (Server.call_tool sample_env "work_item_update"
                          (update_args 7 None None
                             (Some [("__proto__", "x"); ("System.Title", "y")]))
                          (fresh [answers 200 VNull]))))
  = [patch_request
       "https://contoso.visualstudio.com/My%20Project/_apis/wit/workitems/7?api-version=6.0"
       "token" (VArr [op_add "/fields/System.Title" (VStr "y")])
       "application/json-patch+json"]
  /\ requests (trace (snd (Server0.call_tool sample_env "work_item_update"
                             (update_args 7 None None
                                (Some [("__proto__", "x"); ("System.Title", "y")]))
                             (fresh [answers 200 VNull]))))
     = [patch_request
          "https://contoso.visualstudio.com/My%20Project/_apis/wit/workitems/7?api-version=6.0"
          "token"
          (VArr [op_add "/fields/__proto__" (VStr "x");
                 op_add "/fields/System.Title" (VStr "y")])
          "application/json-patch+json"].
Proof. split; reflexivity. Qed.

Example work_item_update_example :
  requests (trace (snd (Server.call_tool sample_env "work_item_update"
                          (update_args 7 (Some "Active") (Some "")
                             (Some [("System.Title", ""); ("System.State", "Closed")]))
                          (fresh [answers 200 VNull]))))
  = [patch_request
       "https://contoso.visualstudio.com/My%20Project/_apis/wit/workitems/7?api-version=6.0"
       "token"
       (VArr [op_add "/fields/System.State" (VStr "Active");
              op_add "/fields/System.Title" (VStr "");
              op_add "/fields/System.State" (VStr "Closed")])
       "application/json-patch+json"].
Proof. reflexivity. Qed.

(** ** The list of tools and the dispatcher *)

(** A tool of the dispatcher called with valid arguments makes one call. *)
Lemma valid_call_one_call (env : Env) (name : string) (args : Value) :
  In name Server.tool_names ->
  Server.valid_arguments name args ->
  encodable name args = true ->
  exists r, one_call r (Server.call_tool env name args).
Proof.
  intros Hin Hv Henc.
  destruct (call_tool_valid env name args) as (input & Hp & Hw & Hn).
  { intros shape S. unfold Server.valid_arguments in Hv. now rewrite S in Hv. }
  destruct (client_call_one_call env name input Hin) as (r & H1 & _).
  { intros ->. apply (listBuilds_parsed args). apply Hp. reflexivity. }
  { unfold encodable. rewrite (encoded_name_parsed name args input Hp Hn). exact Henc. }
  exists r. eapply one_call_snd; [exact Hw|exact H1].
Qed.

Lemma unlisted_call_silent (env : Env) (name : string) (args : Value) (w : World) :
  ~ In name Server.tool_names -> snd (Server.call_tool env name args w) = w.
Proof.
  intros H. unfold Server.call_tool, Server.dispatch.
  rewrite switch_otherwise by exact H. reflexivity.
Qed.

(** X7. The names in the list of tools of [dist/server.js] are the names
    its dispatcher serves. A tool of the list, called by its name with
    arguments that pass the validation of the dispatcher and with a name to
    encode that holds no lone surrogate, makes its one REST call. A name that
    is not in the list sends nothing and gets the InternalError of an unknown
    tool. No name is listed twice. *)
Theorem listed_tools_are_callable (env : Env) :
  (forall t args,
      In t ListTools.tools ->
      Server.valid_arguments (ListTools.tool_name t) args ->
      encodable (ListTools.tool_name t) args = true ->
      exists r, one_call r (Server.call_tool env (ListTools.tool_name t) args))
  /\ (forall name args w,
        ~ In name (map ListTools.tool_name ListTools.tools) ->
        Server.call_tool env name args w
        = (Throw (McpError InternalError
                    ("Tool execution failed: McpError: MCP error -32601: Unknown tool: "
                     ++ name)), w))
  /\ NoDup (map ListTools.tool_name ListTools.tools).
Proof.
  split; [|split].
  - intros t args Hin Hv Henc. apply valid_call_one_call; [|exact Hv|exact Henc].
    unfold ListTools.tools in Hin. cbn [In] in Hin.
    repeat (destruct Hin as [<-|Hin]; [cbn; tauto|]). destruct Hin.
  - intros name args w H. unfold Server.call_tool, Server.dispatch, try_catch.
    rewrite switch_otherwise by exact H. reflexivity.
  - cbn [map ListTools.tools ListTools.tool_name].
    repeat (apply NoDup_cons;
            [cbn [In]; intros K;
             repeat (destruct K as [K|K]; [discriminate K|]); exact K|]).
    apply NoDup_nil.
Qed.

Lemma listed_tools_are_callable_witness :
  exists r,
    one_call r (Server.call_tool sample_env "iteration_work_items"
                  (VObj [("team", VStr "Core"); ("iterationId", VStr "a1b2")])).
Proof.
  apply (proj1 (listed_tools_are_callable sample_env)
           (ListTools.mkTool "iteration_work_items"
              "Get work items in a specific iteration" Server.IterationWorkItemsSchema)).
  - cbn. tauto.
  - eexists. reflexivity.
  - reflexivity.
Defined.

(** ** The base of the addresses *)

Lemma endsWith_unfold (p s : string) :
  Str.endsWith p s =
  String.eqb p s || match s with
                    | EmptyString => false
                    | String _ s' => Str.endsWith p s'
                    end.
Proof. destruct s; reflexivity. Qed.

Lemma endsWith_slash_safe (b : string) :
  Str.forallb uri_safe b = true -> Str.endsWith "/" b = false.
Proof.
  induction b as [|c b IH]; [reflexivity|].
  cbn [Str.forallb]. intros H. apply andb_true_iff in H. destruct H as [Hc Hb].
  rewrite endsWith_unfold, (IH Hb), orb_false_r.
  cbn [String.eqb]. destruct (Ascii.eqb_spec "/" c) as [<-|_]; [discriminate Hc|reflexivity].
Qed.

Lemma endsWith_slash_app (a b : string) :
  b <> "" -> Str.endsWith "/" b = false -> Str.endsWith "/" (a ++ b) = false.
Proof.
  intros Hne Hb. induction a as [|c a IH]; [exact Hb|].
  cbn [append]. rewrite endsWith_unfold, IH, orb_false_r.
  cbn [String.eqb]. destruct (Ascii.eqb "/" c); [|reflexivity].
  destruct a; [destruct b; [congruence|reflexivity]|reflexivity].
Qed.

(** X8. The base of the addresses, line 49 of [dist/ado.js]: without a
    project, or with an empty one, it is the address of the organization;
    with a project it is that address, a slash and the encoded project. It
    never ends with a slash, so the path that follows starts with the only
    slash between them. The earlier server, which turns an empty project
    into none before it makes the client, gets the same base. *)
Theorem orgBase_edges (org pat : string) (project : option string) :
  Ado.orgBase (Ado.mkADOOpts org None pat) = Ado.baseUrl org
  /\ Ado.orgBase (Ado.mkADOOpts org (Some "") pat) = Ado.baseUrl org
  /\ (forall p, p <> "" ->
        Ado.orgBase (Ado.mkADOOpts org (Some p) pat)
        = Ado.baseUrl org ++ "/" ++ encodeURIComponent p)
  /\ Str.endsWith "/" (Ado.orgBase (Ado.mkADOOpts org project pat)) = false
  /\ Ado.orgBase
       (Ado.mkADOOpts org
          match project with
          | Some p => if String.eqb p "" then None else Some p
          | None => None
          end pat)
     = Ado.orgBase (Ado.mkADOOpts org project pat).
Proof.
  split; [|split; [|split; [|split]]].
  - rewrite orgBase_encoded. cbn [Ado.org Ado.project nonempty]. apply append_nil_r.
  - rewrite orgBase_encoded. cbn [Ado.org Ado.project nonempty String.eqb].
    apply append_nil_r.
  - intros p Hp. rewrite orgBase_encoded. cbn [Ado.org Ado.project nonempty].
    apply String.eqb_neq in Hp. now rewrite Hp.
  - rewrite orgBase_encoded. cbn [Ado.org Ado.project].
    destruct (nonempty project) as [p|] eqn:N.
    + apply endsWith_slash_app; [discriminate|].
      apply (endsWith_slash_app "/").
      * apply encodeURIComponent_nonempty. apply nonempty_is in N. tauto.
      * apply endsWith_slash_safe, encodeURIComponent_safe.
    + rewrite append_nil_r. rewrite <- append_assoc.
      apply endsWith_slash_app; [discriminate|reflexivity].
  - apply (orgBase_nonempty org pat project).
Qed.

Lemma orgBase_edges_witness :
  Ado.orgBase (Ado.mkADOOpts "contoso" (Some "My Project") "token")
  = Ado.baseUrl "contoso" ++ "/" ++ encodeURIComponent "My Project".
Proof.
  apply (proj1 (proj2 (proj2 (orgBase_edges "contoso" "token" None))) "My Project").
  discriminate.
Defined.

(** ** Encoded names *)

Lemma decode_encoded_byte (c : ascii) (rest s : string) :
  decodeURIComponent rest = Some s ->
  decodeURIComponent
    ((if uri_unreserved c then String c EmptyString else Str.percent c) ++ rest)
  = Some (String c s).
Proof.
  intros H.
  destruct c as [[] [] [] [] [] [] [] []];
    cbn [uri_unreserved Str.is_alnum Str.mem]; cbn; rewrite H; reflexivity.
Qed.

Lemma decode_encode (s : string) :
  decodeURIComponent (encodeURIComponent s) = Some s.
Proof.
  induction s as [|c s IH]; [reflexivity|].
  unfold encodeURIComponent in *. cbn [Str.flat_map].
  now apply decode_encoded_byte.
Qed.

Lemma encodeURIComponent_injective (s t : string) :
  encodeURIComponent s = encodeURIComponent t -> s = t.
Proof.
  intros H. pose proof (decode_encode s) as Hs. rewrite H, decode_encode in Hs.
  now injection Hs.
Qed.

Lemma includes_char (f : ascii -> bool) (c : ascii) (s : string) :
  Str.forallb f s = true -> f c = false -> Str.includes (String c EmptyString) s = false.
Proof.
  intros Hs Hc. induction s as [|d s IH]; [reflexivity|].
  cbn [Str.forallb] in Hs. apply andb_true_iff in Hs. destruct Hs as [Hd Hs].
  cbn [Str.includes String.prefix]. rewrite (IH Hs), orb_false_r.
  destruct (ascii_dec c d) as [->|_]; [congruence|reflexivity].
Qed.

Lemma append_inv_head (a x y : string) : a ++ x = a ++ y -> x = y.
Proof. induction a as [|c a IH]; [trivial|]. cbn [append]. intros [= H]. auto. Qed.

Lemma length_append (a b : string) :
  String.length (a ++ b) = (String.length a + String.length b)%nat.
Proof. induction a as [|c a IH]; [reflexivity|]. cbn. now rewrite IH. Qed.

Lemma append_inv_tail (x y b : string) : x ++ b = y ++ b -> x = y.
Proof.
  revert y. induction x as [|c x IH]; intros [|d y] H.
  - reflexivity.
  - apply (f_equal String.length) in H. cbn in H. rewrite length_append in H. lia.
  - apply (f_equal String.length) in H. cbn in H. rewrite length_append in H. lia.
  - cbn [append] in H. injection H as -> H. f_equal. now apply IH.
Qed.

(** X9. [encodeURIComponent] loses nothing and adds no structure: the
    name can be read back from its encoding, so two names have the same
    encoding only when they are equal, and an encoding holds none of the
    characters that separate the parts of an address. So the POST of
    [wiqlTeam] goes to the same address for two teams only when they are the
    same team. *)
Theorem encoded_names (o : Ado.ADOOpts) :
  (forall s, decodeURIComponent (encodeURIComponent s) = Some s)
  /\ (forall s t, encodeURIComponent s = encodeURIComponent t -> s = t)
  /\ (forall s, Forall (fun c => Str.includes (String c EmptyString)
                                   (encodeURIComponent s) = false)
                  (list_ascii_of_string "/?#&=+ :@"))
  /\ (forall team team' wiql,
        url (post_request (Ado.orgBase o ++ "/" ++ encodeURIComponent team
                           ++ "/_apis/wit/wiql?api-version=6.0") (Ado.pat o)
               (VObj [("query", wiql)]) "application/json")
        = url (post_request (Ado.orgBase o ++ "/" ++ encodeURIComponent team'
                             ++ "/_apis/wit/wiql?api-version=6.0") (Ado.pat o)
                 (VObj [("query", wiql)]) "application/json") ->
        team = team').
Proof.
  split; [exact decode_encode|]. split; [exact encodeURIComponent_injective|].
  split.
  - intros s. cbn [list_ascii_of_string].
    repeat (apply Forall_cons;
            [apply (includes_char uri_safe);
             [apply encodeURIComponent_safe|reflexivity]|]).
    apply Forall_nil.
  - intros team team' wiql H. cbn [url post_request] in H.
    apply append_inv_head, append_inv_head, append_inv_tail in H.
    now apply encodeURIComponent_injective.
Qed.

(** ** A connection that fails *)

Lemma adoGet_refused (url pat : string) (w : World) (e : JsError) :
  net w (trace w) (get_request url pat) = Throw e ->
  Ado.adoGet url pat w = (Throw e, after w [Requested (get_request url pat)]).
Proof. intros H. unfold Ado.adoGet. now rewrite adoGet_from_step, H. Qed.

Lemma adoPost_refused (url pat : string) (body : Value) (ct : option string)
  (w : World) (e : JsError) :
  net w (trace w) (post_request url pat body (Ado.default "application/json" ct))
  = Throw e ->
  Ado.adoPost url pat body ct w
  = (Throw e, after w [Requested (post_request url pat body
                                    (Ado.default "application/json" ct))]).
Proof. intros H. now rewrite adoPost_run, H. Qed.

Lemma adoPatch_refused (url pat : string) (body : Value) (ct : option string)
  (w : World) (e : JsError) :
  net w (trace w)
    (patch_request url pat body (Ado.default "application/json-patch+json" ct))
  = Throw e ->
  Ado.adoPatch url pat body ct w
  = (Throw e, after w [Requested (patch_request url pat body
                                    (Ado.default "application/json-patch+json" ct))]).
Proof. intros H. now rewrite adoPatch_run, H. Qed.

Ltac settle_refused e H :=
  eexists;
  first [ rewrite (adoGet_refused _ _ _ e) by apply H
        | rewrite (adoPost_refused _ _ _ _ _ e) by apply H
        | rewrite (adoPatch_refused _ _ _ _ _ e) by apply H ];
  reflexivity.

(** With a remote side that refuses every request, the call of a tool on
    the client fails at its first request. *)
Lemma client_call_refused (env : Env) (name : string) (input : Value)
  (w : World) (e : JsError) :
  In name Server.tool_names ->
  (name = "list_builds" -> exists q, Ado.listBuilds_query input = Return q) ->
  encodable name input = true ->
  (forall t r, net w t r = Throw e) ->
  exists r, Server.client_call env name input w = (Throw e, after w [Requested r]).
Proof.
  intros Hin Hq Henc Hnet. unfold Server.tool_names in Hin. cbn [In] in Hin.
  repeat (destruct Hin as [<-|Hin]); [..|destruct Hin]; expose_client;
    try (settle_refused e Hnet);
    try (rewrite encoded_run, (encodable_name _ _ _ Henc eq_refl);
         settle_refused e Hnet).
  - destruct (Hq eq_refl) as [q Q]. unfold bind, of_outcome. rewrite Q.
    settle_refused e Hnet.
  - unfold encodable, encoded_name in Henc.
    cbv [switch String.eqb Ascii.eqb Bool.eqb] in Henc. unfold bind at 1.
    destruct (Js.truthy (Js.prop input "team")).
    + apply negb_true_iff in Henc. rewrite encoded_run, Henc. unfold ret.
      settle_refused e Hnet.
    + unfold ret. settle_refused e Hnet.
Qed.

(** X10. A failure of the connection is not retried, not even for a GET:
    when the remote side refuses the requests with an error, a tool called
    with valid arguments, the name to encode without lone surrogate, sends
    its request once, does not pause, and throws the InternalError that shows
    this error. *)
Theorem connection_failure_not_retried
  (env : Env) (name : string) (args : Value) (w : World) (e : JsError) :
  In name Server.tool_names ->
  Server.valid_arguments name args ->
  encodable name args = true ->
  (forall t r, net w t r = Throw e) ->
  exists r,
    Server.call_tool env name args w
    = (Throw (McpError InternalError ("Tool execution failed: " ++ JsError_toString e)),
       after w [Requested r]).
Proof.
  intros Hin Hv Henc Hnet.
  destruct (call_tool_valid env name args) as (input & Hp & _ & Hn).
  { intros shape S. unfold Server.valid_arguments in Hv. now rewrite S in Hv. }
  destruct (client_call_refused env name input w e Hin) as [r Hr].
  - intros ->. apply (listBuilds_parsed args). apply Hp. reflexivity.
  - unfold encodable. rewrite (encoded_name_parsed name args input Hp Hn). exact Henc.
  - exact Hnet.
  - exists r. apply (call_tool_raised env name args input w _ e Hp Hn Hr).
Qed.

Lemma connection_failure_not_retried_witness :
  exists r,
    Server.call_tool sample_env "list_pipelines" VUndefined (fresh [])
    = (Throw (McpError InternalError
                "Tool execution failed: Error: connect ECONNREFUSED"),
       after (fresh []) [Requested r]).
Proof.
  apply (connection_failure_not_retried sample_env "list_pipelines" VUndefined
           (fresh []) (Error "connect ECONNREFUSED")).
  - cbn. tauto.
  - exact I.
  - reflexivity.
  - intros t r. unfold fresh, scripted. cbn [net]. now destruct (List.length (requests t)).
Defined.

(** ** Arguments the earlier server does not check *)

Lemma wiql_without_team0 (env : Env) (props : list (string * Value)) :
  Js.lookup "team" props = VUndefined ->
  one_call
    (post_request
       (Ado.orgBase (Ado.mkADOOpts (ADO_ORG env) (ADO_PROJECT env) (ADO_PAT env))
        ++ "/undefined/_apis/wit/wiql?api-version=6.0")
       (ADO_PAT env) (VObj [("query", Js.lookup "wiql" props)]) "application/json")
    (Server0.call_tool env "wiql_query_team" (VObj props)).
Proof.
  intros H. eapply one_call_snd; [|apply (adoPost_one_call _ _ _ None)].
  intros w. rewrite call_tool0_snd.
  unfold Server0.dispatch. cbv [switch String.eqb Ascii.eqb Bool.eqb].
  unfold bind at 1. cbn [Server0.destructure ret].
  unfold bind at 1. unfold Server0.ado.
  cbn [Ado.makeADO Ado.wiqlTeam Ado.org Ado.pat Js.prop]. rewrite H, encoded_run.
  change (Str.lone_surrogate (Js.ToString VUndefined)) with false. cbv iota.
  change (encodeURIComponent (Js.ToString VUndefined)) with "undefined".
  rewrite <- (orgBase_nonempty (ADO_ORG env) (ADO_PAT env) (ADO_PROJECT env)).
  unfold nonempty, Ado.obj.
  destruct (Ado.adoPost _ _ _ _ w) as [[v|e] w']; reflexivity.
Qed.

Lemma get_without_id0 (env : Env) (props : list (string * Value)) :
  Js.lookup "id" props = VUndefined ->
  one_call
    (get_request
       (Ado.orgBase (Ado.mkADOOpts (ADO_ORG env) (ADO_PROJECT env) (ADO_PAT env))
        ++ "/_apis/wit/workitems/undefined?api-version=6.0")
       (ADO_PAT env))
    (Server0.call_tool env "work_item_get" (VObj props)).
Proof.
  intros H. eapply one_call_snd; [|apply adoGet_one_call].
  intros w. rewrite call_tool0_snd.
  unfold Server0.dispatch. cbv [switch String.eqb Ascii.eqb Bool.eqb].
  unfold bind at 1. cbn [Server0.destructure ret].
  unfold bind at 1. unfold Server0.ado.
  cbn [Ado.makeADO Ado.getWorkItem Ado.org Ado.pat Js.prop]. rewrite H.
  change (Js.ToString VUndefined) with "undefined".
  rewrite <- (orgBase_nonempty (ADO_ORG env) (ADO_PAT env) (ADO_PROJECT env)).
  unfold nonempty.
  destruct (Ado.adoGet _ _ w) as [[v|e] w']; reflexivity.
Qed.

(** X11. The earlier server (0.1.0) checks no argument. Called without
    arguments, every tool but the two that take none fails before any request
    with an InternalError, where the server of [dist/server.js] answers
    InvalidParams. Called with an object that lacks a required property, it
    sends the request all the same, with [undefined] in the address, where
    the server of [dist/server.js] rejects the call and sends nothing. *)
Theorem unchecked_arguments0 (env : Env) (w : World) :
  (forall name,
      In name Server.tool_names ->
      name <> "list_projects" -> name <> "list_pipelines" ->
      (exists e, Server0.call_tool env name VUndefined w = (Throw e, w)
                 /\ code e = Some InternalError)
      /\ (exists e, Server.call_tool env name VUndefined w = (Throw e, w)
                    /\ code e = Some InvalidParams))
  /\ (forall props,
        Js.lookup "team" props = VUndefined ->
        one_call
          (post_request
             (Ado.orgBase (Ado.mkADOOpts (ADO_ORG env) (ADO_PROJECT env) (ADO_PAT env))
              ++ "/undefined/_apis/wit/wiql?api-version=6.0")
             (ADO_PAT env) (VObj [("query", Js.lookup "wiql" props)])
             "application/json")
          (Server0.call_tool env "wiql_query_team" (VObj props))
        /\ exists e, Server.call_tool env "wiql_query_team" (VObj props) w = (Throw e, w)
                     /\ code e = Some InvalidParams)
  /\ (forall props,
        Js.lookup "id" props = VUndefined ->
        one_call
          (get_request
             (Ado.orgBase (Ado.mkADOOpts (ADO_ORG env) (ADO_PROJECT env) (ADO_PAT env))
              ++ "/_apis/wit/workitems/undefined?api-version=6.0")
             (ADO_PAT env))
          (Server0.call_tool env "work_item_get" (VObj props))
        /\ exists e, Server.call_tool env "work_item_get" (VObj props) w = (Throw e, w)
                     /\ code e = Some InvalidParams).
Proof.
  split; [|split].
  - intros name Hin N1 N2. unfold Server.tool_names in Hin. cbn [In] in Hin.
    repeat (destruct Hin as [<-|Hin]; [try congruence|]); [..|destruct Hin];
      split; eexists; split; reflexivity.
  - intros props H. split; [now apply wiql_without_team0|].
    apply (rejected_call env "wiql_query_team" Server.WiqlQueryTeamSchema props "team");
      [reflexivity|].
    eexists. split; [cbn; tauto|]. rewrite H. discriminate.
  - intros props H. split; [now apply get_without_id0|].
    apply (rejected_call env "work_item_get" Server.WorkItemGetSchema props "id");
      [reflexivity|].
    eexists. split; [cbn; tauto|]. rewrite H. discriminate.
Qed.

Lemma unchecked_arguments0_witness :
  (exists e, Server0.call_tool sample_env "board_move" VUndefined (fresh [])
             = (Throw e, fresh [])
             /\ code e = Some InternalError)
  /\ (exists e, Server.call_tool sample_env "board_move" VUndefined (fresh [])
                = (Throw e, fresh [])
                /\ code e = Some InvalidParams).
Proof.
  apply (proj1 (unchecked_arguments0 sample_env (fresh [])) "board_move").
  - cbn. tauto.
  - discriminate.
  - discriminate.
Defined.

Example missing_arguments0 :
  fst (Server0.call_tool sample_env "work_item_get" VUndefined (fresh []))
  = Throw (McpError InternalError
             "Error executing tool work_item_get: Cannot destructure property 'id' of 'args' as it is undefined.").
Proof. reflexivity. Qed.

(** ** The two servers on valid arguments *)

Lemma ado_agree (env : Env) : Server0.ado env = Server.ado env.
Proof.
  pose proof (orgBase_nonempty (ADO_ORG env) (ADO_PAT env) (ADO_PROJECT env)) as E.
  unfold nonempty in E.
  unfold Server0.ado, Server.ado, Ado.makeADO. cbn [Ado.org Ado.pat].
  now rewrite E.
Qed.

Lemma listBuilds_query_ext (a b : list (string * Value)) :
  Js.lookup "top" a = Js.lookup "top" b ->
  Js.lookup "branchName" a = Js.lookup "branchName" b ->
  Js.lookup "definitions" a = Js.lookup "definitions" b ->
  Js.lookup "continuationToken" a = Js.lookup "continuationToken" b ->
  Ado.listBuilds_query (VObj a) = Ado.listBuilds_query (VObj b).
Proof.
  intros H1 H2 H3 H4. unfold Ado.listBuilds_query, Ado.read. cbn [Js.prop].
  now rewrite H1, H2, H3, H4.
Qed.

Lemma move_ops_agree (a b : Value) :
  Server0.move_ops a b
  = push_if b (op_add "/fields/System.IterationPath" b)
      (push_if a (op_add "/fields/System.State" a) []).
Proof.
  unfold Server0.move_ops, push_if.
  destruct (Js.truthy a); destruct (Js.truthy b); reflexivity.
Qed.

Lemma reply_as_bind (m : M JsError Value) (w : World) :
  Server.reply m w
  = match bind m (fun r => ret (text_result r)) w with
    | (Return r, w') => (Return r, w')
    | (Throw e, w') => (Throw (Server.Raised e), w')
    end.
Proof.
  unfold Server.reply, Server.await, lift, try_catch, bind, ret, throw.
  destruct (m w) as [[v|e] w']; reflexivity.
Qed.

Ltac same_keys Hp :=
  rewrite ?(Hp "id"), ?(Hp "team"), ?(Hp "wiql"), ?(Hp "ids"), ?(Hp "fields"),
    ?(Hp "text"), ?(Hp "timeframe"), ?(Hp "iterationId"), ?(Hp "state"),
    ?(Hp "stateName"), ?(Hp "iterationPath")
    by (first [cbn; tauto|repeat constructor]).

(** zod hands back a record of strings as it is when no key is
    [__proto__]. *)
Lemma output_record_kept (v : Value) :
  (forall fields, v = VObj fields -> Zod.has_key "__proto__" fields = false) ->
  Zod.output (Zod.optional_ (Zod.record_ (Zod.string_ None))) v = v.
Proof.
  destruct v; try reflexivity. intros H. specialize (H props eq_refl).
  cbn [Zod.output]. f_equal.
  induction props as [|[k x] props IH]; [reflexivity|].
  cbn [Zod.has_key existsb fst] in H. apply orb_false_iff in H. destruct H as [H1 H2].
  cbn [flat_map fst snd]. rewrite H1. cbn [app]. f_equal. apply IH, H2.
Qed.

(** On arguments that pass the schema, the [try] block of the earlier server
    is the call of the tool followed by the wrapping of its result. *)
Lemma dispatch0_as_client_call (env : Env) (name : string) (args input : Value)
  (w : World) :
  In name Server.tool_names ->
  name <> "work_item_create" ->
  no_proto_field name args ->
  (forall shape, Server.tool_schema name = Some shape ->
                 Zod.parse shape args = Return input) ->
  Server0.dispatch env name args w
  = bind (Server.client_call env name input) (fun r => ret (text_result r)) w.
Proof.
  intros Hin Hne Hproto Hp. unfold Server.tool_names in Hin. cbn [In] in Hin.
  unfold Server0.dispatch, Server.client_call. rewrite ado_agree.
  repeat (destruct Hin as [<-|Hin]); [..|destruct Hin]; try congruence;
    cbv [switch String.eqb Ascii.eqb Bool.eqb]; try reflexivity;
    match type of Hp with
    | forall shape, Server.tool_schema ?n = _ -> _ =>
        let S := eval cbv in (Server.tool_schema n) in
        match S with
        | Some ?shape =>
            destruct (parse_return shape args input (Hp shape eq_refl))
              as (props & -> & _ & Hk & (kept & ->) & Hout)
        end
    end.
  - (* list_builds *)
    cbn [Ado.listBuilds Ado.makeADO Server.ado]. unfold bind at 1 3.
    unfold of_outcome.
    rewrite (listBuilds_query_ext props kept); [reflexivity| | | |];
      symmetry; apply Hk; first [cbn; tauto|repeat constructor].
  - unfold bind at 1. cbn [Server0.destructure ret]. same_keys Hk. reflexivity.
  - unfold bind at 1. cbn [Server0.destructure ret]. same_keys Hk. reflexivity.
  - unfold bind at 1. cbn [Server0.destructure ret]. same_keys Hk. reflexivity.
  - unfold bind at 1. cbn [Server0.destructure ret].
    unfold Server.update_ops, Server0.update_ops.
    assert (E1 : Js.prop (VObj kept) "id" = Js.prop (VObj props) "id")
      by (rewrite (Hout "id"); reflexivity).
    assert (E2 : Js.prop (VObj kept) "state" = Js.prop (VObj props) "state")
      by (rewrite (Hout "state");
          exact (output_plain (Zod.optional_ (Zod.string_ None)) eq_refl _)).
    assert (E3 : Js.prop (VObj kept) "iterationPath"
                 = Js.prop (VObj props) "iterationPath")
      by (rewrite (Hout "iterationPath");
          exact (output_plain (Zod.optional_ (Zod.string_ None)) eq_refl _)).
    assert (E4 : Js.prop (VObj kept) "fields" = Js.prop (VObj props) "fields")
      by (rewrite (Hout "fields"); exact (output_record_kept _ (Hproto eq_refl))).
    rewrite E1, E2, E3, E4. reflexivity.
  - unfold bind at 1. cbn [Server0.destructure ret]. same_keys Hk. reflexivity.
  - unfold bind at 1. cbn [Server0.destructure ret]. same_keys Hk. reflexivity.
  - unfold bind at 1. cbn [Server0.destructure ret]. same_keys Hk. reflexivity.
  - unfold bind at 1. cbn [Server0.destructure ret]. same_keys Hk. reflexivity.
  - unfold bind at 1. cbn [Server0.destructure ret].
    rewrite move_ops_agree. unfold Server.move_ops. same_keys Hk. reflexivity.
Qed.

Lemma dispatch_valid (env : Env) (name : string) (args : Value) :
  Server.valid_arguments name args ->
  exists input,
    (forall shape, Server.tool_schema name = Some shape ->
                   Zod.parse shape args = Return input)
    /\ (forall w, Server.dispatch env name args w
                  = Server.reply (Server.client_call env name input) w).
Proof.
  unfold Server.valid_arguments. intros Hv.
  destruct (Server.tool_schema name) as [shape|] eqn:S.
  - destruct Hv as [parsed P]. exists parsed. split.
    + intros shape' [= <-]. exact P.
    + intros w. now rewrite dispatch_table, S, P.
  - exists args. split; [discriminate|]. intros w. now rewrite dispatch_table, S.
Qed.

(** X12. On arguments that pass the schema of the tool the two servers do
    the same, for every tool but [work_item_create] (whose documents list the
    optional fields in different orders) and, for [work_item_update], when no
    extra field is named [__proto__] (which only the earlier server sends):
    from any world they send the same requests and pause alike, and one
    returns a result exactly when the other returns it. They differ in what
    they throw: the message of the InternalError. *)
Theorem servers_agree_on_valid_arguments
  (env : Env) (name : string) (args : Value) (w : World) :
  In name Server.tool_names ->
  name <> "work_item_create" ->
  no_proto_field name args ->
  Server.valid_arguments name args ->
  snd (Server0.call_tool env name args w) = snd (Server.call_tool env name args w)
  /\ (forall result,
        fst (Server0.call_tool env name args w) = Return result
        <-> fst (Server.call_tool env name args w) = Return result)
  /\ (forall inner,
        fst (Server0.dispatch env name args w) = Throw inner ->
        fst (Server0.call_tool env name args w)
        = Throw (McpError InternalError
                   ("Error executing tool " ++ name ++ ": " ++ message inner))
        /\ fst (Server.call_tool env name args w)
           = Throw (McpError InternalError
                      ("Tool execution failed: " ++ JsError_toString inner))).
Proof.
  intros Hin Hne Hproto Hv.
  destruct (dispatch_valid env name args Hv) as (input & Hp & Hd).
  pose proof (dispatch0_as_client_call env name args input w Hin Hne Hproto Hp) as H0.
  unfold Server0.call_tool, Server.call_tool, try_catch.
  rewrite Hd, reply_as_bind, <- H0.
  destruct (Server0.dispatch env name args w) as [[r|e] w']; cbn [fst snd].
  - split; [reflexivity|]. split; [tauto|]. intros inner H. discriminate H.
  - split; [reflexivity|]. split.
    + intros result. split; intros H; discriminate H.
    + intros inner [= <-]. split; reflexivity.
Qed.

Lemma servers_agree_on_valid_arguments_witness :
  snd (Server0.call_tool sample_env "iterations_list"
         (VObj [("team", VStr "Core"); ("timeframe", VStr "current")])
         (fresh [answers 429 VNull; answers 200 VNull]))
  = snd (Server.call_tool sample_env "iterations_list"
           (VObj [("team", VStr "Core"); ("timeframe", VStr "current")])
           (fresh [answers 429 VNull; answers 200 VNull])).
Proof.
  apply (servers_agree_on_valid_arguments sample_env "iterations_list"
           (VObj [("team", VStr "Core"); ("timeframe", VStr "current")])
           (fresh [answers 429 VNull; answers 200 VNull])).
  - cbn. tauto.
  - discriminate.
  - discriminate.
  - unfold Server.valid_arguments. eexists. reflexivity.
Defined.

(** ** The addresses of the reading tools *)

Ltac tool_call schema :=
  intros w; rewrite call_tool_snd, dispatch_table;
  match goal with
  | |- context [Server.tool_schema ?n] =>
      change (Server.tool_schema n) with schema
  end;
  cbv beta iota;
  match goal with
  | |- context [Zod.parse ?s ?a] => change (Zod.parse s a) with (@Return (list Zod.Issue) Value a)
  | _ => idtac
  end;
  cbv beta iota; rewrite reply_snd; expose_client.

(** X13. The addresses of the tools that read, in the server of
    [dist/server.js]. [list_projects] asks the organization, whatever the
    project is. [boards_list_columns] asks the team when a team that is not
    empty is given and the project otherwise. [iterations_list] adds the time
    frame to the query, as [%24timeframe], when one is given.
    [iteration_work_items] encodes the team and puts the iteration identifier
    into the path as it is. Each is one GET; a team is one without lone
    surrogate, which [encodeURIComponent] would refuse. *)
Theorem reading_tools_addresses (env : Env) :
  let orgBase :=
    Ado.orgBase (Ado.mkADOOpts (ADO_ORG env) (ADO_PROJECT env) (ADO_PAT env)) in
  (forall args,
      one_call
        (get_request (Ado.baseUrl (ADO_ORG env) ++ "/_apis/projects?api-version=6.0")
           (ADO_PAT env))
        (Server.call_tool env "list_projects" args))
  /\ (forall args,
        one_call
          (get_request (orgBase ++ "/_apis/pipelines?api-version=6.0-preview.1")
             (ADO_PAT env))
          (Server.call_tool env "list_pipelines" args))
  /\ (forall id : Z,
        one_call
          (get_request (orgBase ++ "/_apis/wit/workitems/" ++ Str.of_Z id
                        ++ "?api-version=6.0") (ADO_PAT env))
          (Server.call_tool env "work_item_get" (VObj [("id", VNum id)])))
  /\ one_call
       (get_request (orgBase ++ "/_apis/work/boardcolumns?api-version=6.0")
          (ADO_PAT env))
       (Server.call_tool env "boards_list_columns" (VObj []))
  /\ one_call
       (get_request (orgBase ++ "/_apis/work/boardcolumns?api-version=6.0")
          (ADO_PAT env))
       (Server.call_tool env "boards_list_columns" (VObj [("team", VStr "")]))
  /\ (forall team : string,
        team <> "" ->
        Str.lone_surrogate team = false ->
        one_call
          (get_request (orgBase ++ "/" ++ encodeURIComponent team
                        ++ "/_apis/work/boardcolumns?api-version=6.0") (ADO_PAT env))
          (Server.call_tool env "boards_list_columns" (VObj [("team", VStr team)])))
  /\ (forall team : string,
        Str.lone_surrogate team = false ->
        one_call
          (get_request (orgBase ++ "/" ++ encodeURIComponent team
                        ++ "/_apis/work/teamsettings/iterations?api-version=6.0")
             (ADO_PAT env))
          (Server.call_tool env "iterations_list" (VObj [("team", VStr team)])))
  /\ (forall team timeframe : string,
        In timeframe ["past"; "current"; "future"] ->
        Str.lone_surrogate team = false ->
        one_call
          (get_request (orgBase ++ "/" ++ encodeURIComponent team
                        ++ "/_apis/work/teamsettings/iterations?api-version=6.0&%24timeframe="
                        ++ timeframe)
             (ADO_PAT env))
          (Server.call_tool env "iterations_list"
             (VObj [("team", VStr team); ("timeframe", VStr timeframe)])))
  /\ (forall team iterationId : string,
        Str.lone_surrogate team = false ->
        one_call
          (get_request (orgBase ++ "/" ++ encodeURIComponent team
                        ++ "/_apis/work/teamsettings/iterations/" ++ iterationId
                        ++ "/workitems?api-version=6.0") (ADO_PAT env))
          (Server.call_tool env "iteration_work_items"
             (VObj [("team", VStr team); ("iterationId", VStr iterationId)]))).
Proof.
  intros orgBase. subst orgBase.
  repeat match goal with |- _ /\ _ => split end.
  - intros args. eapply one_call_snd; [|apply adoGet_one_call].
    tool_call (@None Zod.Shape). reflexivity.
  - intros args. eapply one_call_snd; [|apply adoGet_one_call].
    tool_call (@None Zod.Shape). reflexivity.
  - intros id. eapply one_call_snd; [|apply adoGet_one_call].
    tool_call (Some Server.WorkItemGetSchema). reflexivity.
  - eapply one_call_snd; [|apply adoGet_one_call].
    tool_call (Some Server.BoardsListColumnsSchema). reflexivity.
  - eapply one_call_snd; [|apply adoGet_one_call].
    tool_call (Some Server.BoardsListColumnsSchema). reflexivity.
  - intros team Ht Hs. eapply one_call_snd; [|apply adoGet_one_call].
    tool_call (Some Server.BoardsListColumnsSchema).
    cbn [Js.prop Js.lookup String.eqb Ascii.eqb Bool.eqb Js.truthy Js.ToString].
    apply String.eqb_neq in Ht. rewrite Ht. cbn [negb].
    unfold bind at 1. rewrite encoded_run, Hs. reflexivity.
  - intros team Hs. eapply one_call_snd; [|apply adoGet_one_call].
    tool_call (Some Server.IterationsListSchema).
    cbn [Js.prop Js.lookup String.eqb Ascii.eqb Bool.eqb Js.ToString].
    rewrite encoded_run, Hs. reflexivity.
  - intros team timeframe Hin Hs. cbn [In] in Hin.
    destruct Hin as [<-|[<-|[<-|[]]]];
      (eapply one_call_snd; [|apply adoGet_one_call]);
      tool_call (Some Server.IterationsListSchema);
      cbn [Js.prop Js.lookup String.eqb Ascii.eqb Bool.eqb Js.ToString];
      rewrite encoded_run, Hs; reflexivity.
  - intros team iterationId Hs. eapply one_call_snd; [|apply adoGet_one_call].
    tool_call (Some Server.IterationWorkItemsSchema).
    cbn [Js.prop Js.lookup String.eqb Ascii.eqb Bool.eqb Js.ToString].
    rewrite encoded_run, Hs. reflexivity.
Qed.

Lemma reading_tools_addresses_witness :
  one_call
    (get_request
       (Ado.orgBase (Ado.mkADOOpts "contoso" (Some "My Project") "token")
        ++ "/" ++ encodeURIComponent "Core Team"
        ++ "/_apis/work/teamsettings/iterations?api-version=6.0&%24timeframe="
        ++ "current")
       "token")
    (Server.call_tool sample_env "iterations_list"
       (VObj [("team", VStr "Core Team"); ("timeframe", VStr "current")])).
Proof.
  apply (proj1 (proj2 (proj2 (proj2 (proj2 (proj2 (proj2 (proj2
           (reading_tools_addresses sample_env)))))))) "Core Team" "current").
  - cbn. tauto.
  - reflexivity.
Defined.

(** ** The token in the Authorization header *)

Lemma bytes_checked :
  forallb byte_ok bytes = true
  /\ forallb (fun a => forallb (pair_ok a) bytes) bytes = true.
Proof. split; vm_compute; reflexivity. Qed.

Lemma byte_range (c : ascii) : 0 <= Buffer.byte c < 256.
Proof. unfold Buffer.byte. pose proof (N_ascii_bounded c). lia. Qed.

Lemma in_bytes (a : Z) : 0 <= a < 256 -> In a bytes.
Proof.
  intros H. unfold bytes. rewrite <- (Z2Nat.id a) by lia.
  apply in_map, in_seq. lia.
Qed.

Lemma byte_facts (c : ascii) : byte_ok (Buffer.byte c) = true.
Proof.
  destruct bytes_checked as [H _]. rewrite forallb_forall in H.
  apply H, in_bytes, byte_range.
Qed.

Lemma pair_facts (a b : ascii) : pair_ok (Buffer.byte a) (Buffer.byte b) = true.
Proof.
  destruct bytes_checked as [_ H]. rewrite forallb_forall in H.
  specialize (H _ (in_bytes _ (byte_range a))). rewrite forallb_forall in H.
  apply H, in_bytes, byte_range.
Qed.

Lemma chr_byte (c : ascii) : chr (Buffer.byte c) = c.
Proof. unfold chr, Buffer.byte. now rewrite N2Z.id, ascii_N_embedding. Qed.

Lemma sextet_spec (n : Z) :
  sextet n = true ->
  base64_value (Buffer.digit n) = Some n /\ Ascii.eqb (Buffer.digit n) "=" = false.
Proof.
  unfold sextet. intros H.
  apply andb_true_iff in H. destruct H as [H E].
  apply andb_true_iff in H. destruct H as [_ V].
  split.
  - destruct (base64_value (Buffer.digit n)) as [v|]; [|discriminate].
    apply Z.eqb_eq in V. now subst.
  - now apply negb_true_iff in E.
Qed.

Lemma byte_ok_spec (a : Z) :
  byte_ok a = true ->
  sextet (Z.shiftr a 2) = true
  /\ sextet (Z.land a 63) = true
  /\ sextet (Z.shiftl (Z.land a 3) 4) = true
  /\ sextet (Z.shiftl (Z.land a 15) 2) = true
  /\ Z.lor (Z.shiftl (Z.shiftr a 2) 2) (Z.shiftr (Z.shiftl (Z.land a 3) 4) 4) = a
  /\ Z.lor (Z.shiftl (Z.shiftr a 4) 4) (Z.land a 15) = a
  /\ Z.lor (Z.shiftl (Z.shiftr a 6) 6) (Z.land a 63) = a
  /\ Z.shiftr (Z.shiftl (Z.land a 15) 2) 2 = Z.land a 15.
Proof. unfold byte_ok. rewrite !andb_true_iff, !Z.eqb_eq. tauto. Qed.

Lemma pair_ok_spec (a b : Z) :
  pair_ok a b = true ->
  sextet (Z.lor (Z.shiftl (Z.land a 3) 4) (Z.shiftr b 4)) = true
  /\ sextet (Z.lor (Z.shiftl (Z.land a 15) 2) (Z.shiftr b 6)) = true
  /\ Z.lor (Z.shiftl (Z.shiftr a 2) 2)
       (Z.shiftr (Z.lor (Z.shiftl (Z.land a 3) 4) (Z.shiftr b 4)) 4) = a
  /\ Z.land (Z.lor (Z.shiftl (Z.land a 3) 4) (Z.shiftr b 4)) 15 = Z.shiftr b 4
  /\ Z.shiftr (Z.lor (Z.shiftl (Z.land a 15) 2) (Z.shiftr b 6)) 2 = Z.land a 15
  /\ Z.land (Z.lor (Z.shiftl (Z.land a 15) 2) (Z.shiftr b 6)) 3 = Z.shiftr b 6.
Proof. unfold pair_ok. cbv zeta. rewrite !andb_true_iff, !Z.eqb_eq. tauto. Qed.

Lemma decode_one (a : ascii) :
  from_base64 (Buffer.toString_base64 (String a EmptyString))
  = Some (String a EmptyString).
Proof.
  destruct (byte_ok_spec _ (byte_facts a)) as (S1 & _ & S3 & _ & E1 & _).
  destruct (sextet_spec _ S1) as [V1 _]. destruct (sextet_spec _ S3) as [V2 _].
  cbn [Buffer.toString_base64 from_base64]. rewrite V1, V2.
  cbn [Ascii.eqb Bool.eqb andb String.eqb].
  now rewrite E1, chr_byte.
Qed.

Lemma decode_two (a b : ascii) :
  from_base64 (Buffer.toString_base64 (String a (String b EmptyString)))
  = Some (String a (String b EmptyString)).
Proof.
  destruct (byte_ok_spec _ (byte_facts a)) as (S1 & _).
  destruct (byte_ok_spec _ (byte_facts b)) as (_ & _ & _ & S4 & _ & E2 & _ & E4).
  destruct (pair_ok_spec _ _ (pair_facts a b)) as (S2 & _ & P1 & P2 & _).
  destruct (sextet_spec _ S1) as [V1 _]. destruct (sextet_spec _ S2) as [V2 _].
  destruct (sextet_spec _ S4) as [V3 N3].
  cbn [Buffer.toString_base64 from_base64]. rewrite V1, V2, N3, V3.
  cbn [Ascii.eqb Bool.eqb String.eqb].
  now rewrite P1, P2, E4, E2, !chr_byte.
Qed.

Lemma decode_three (a b c : ascii) (rest r : string) :
  from_base64 (Buffer.toString_base64 rest) = Some r ->
  from_base64 (Buffer.toString_base64 (String a (String b (String c rest))))
  = Some (String a (String b (String c r))).
Proof.
  intros IH.
  destruct (byte_ok_spec _ (byte_facts a)) as (S1 & _).
  destruct (byte_ok_spec _ (byte_facts b)) as (_ & _ & _ & _ & _ & E2 & _).
  destruct (byte_ok_spec _ (byte_facts c)) as (_ & S4 & _ & _ & _ & _ & E3 & _).
  destruct (pair_ok_spec _ _ (pair_facts a b)) as (S2 & _ & P1 & P2 & _).
  destruct (pair_ok_spec _ _ (pair_facts b c)) as (_ & S3 & _ & _ & P3 & P4).
  destruct (sextet_spec _ S1) as [V1 _]. destruct (sextet_spec _ S2) as [V2 _].
  destruct (sextet_spec _ S3) as [V3 N3]. destruct (sextet_spec _ S4) as [V4 N4].
  cbn [Buffer.toString_base64 from_base64]. rewrite V1, V2, N3, V3, N4, V4, IH.
  now rewrite P1, P2, P3, P4, E2, E3, !chr_byte.
Qed.

(** The bytes can be read back from their base64. *)
Lemma from_base64_toString (s : string) :
  from_base64 (Buffer.toString_base64 s) = Some s.
Proof.
  revert s. fix IH 1. intros [|a [|b [|c rest]]].
  - reflexivity.
  - apply decode_one.
  - apply decode_two.
  - apply decode_three, IH.
Qed.

Lemma toString_base64_length (s : string) :
  String.length (Buffer.toString_base64 s) = (4 * ((String.length s + 2) / 3))%nat.
Proof.
  revert s. fix IH 1. intros [|a [|b [|c rest]]]; try reflexivity.
  cbn [Buffer.toString_base64 String.length]. rewrite IH.
  replace (S (S (S (String.length rest))) + 2)%nat
    with (String.length rest + 2 + 1 * 3)%nat by lia.
  rewrite Nat.div_add by lia. lia.
Qed.

(** X14. The Authorization header determines the token: the bytes of
    [":" + pat] can be read back from their base64, so two tokens give the
    same header only when they are equal. The base64 of [n] bytes has
    [4 * ceil(n / 3)] characters. *)
Theorem authHeader_injective :
  (forall pat pat', Ado.authHeader pat = Ado.authHeader pat' -> pat = pat')
  /\ (forall s, from_base64 (Buffer.toString_base64 s) = Some s)
  /\ (forall pat,
        String.length (Ado.authHeader pat)
        = (6 + 4 * ((String.length pat + 3) / 3))%nat).
Proof.
  split; [|split].
  - intros pat pat' H. unfold Ado.authHeader in H.
    apply append_inv_head in H.
    pose proof (from_base64_toString (":" ++ pat)) as D.
    rewrite H, from_base64_toString in D. cbn [append] in D. congruence.
  - exact from_base64_toString.
  - intros pat. unfold Ado.authHeader. rewrite length_append, toString_base64_length.
    cbn [append String.length]. do 3 f_equal. lia.
Qed.

Lemma authHeader_injective_witness : "token" = "token".
Proof.
  apply (proj1 authHeader_injective "token" "token"). reflexivity.
Defined.

(** ** The tools that post *)

Lemma check_numbers (p : list Zod.PathSeg) (ids : list Z) :
  Zod.check (Zod.array_ (Zod.number_ None None)) p (VArr (map VNum ids)) = [].
Proof.
  cbn [Zod.check]. generalize 0. induction ids as [|n ids IH]; intros i; [reflexivity|].
  cbn [map]. rewrite IH. reflexivity.
Qed.

Lemma check_strings (p : list Zod.PathSeg) (l : list string) :
  Zod.check (Zod.array_ (Zod.string_ None)) p (VArr (map VStr l)) = [].
Proof.
  cbn [Zod.check]. generalize 0. induction l as [|s l IH]; intros i; [reflexivity|].
  cbn [map]. rewrite IH. reflexivity.
Qed.

Lemma serialize_numbers (ids : list Z) :
  JSON.stringify (VArr (map VNum ids))
  = Some ("[" ++ Str.join "," (map Str.of_Z ids) ++ "]").
Proof.
  unfold JSON.stringify. cbn [JSON.serialize]. rewrite map_map. cbn [JSON.serialize].
  destruct ids as [|n ids]; reflexivity.
Qed.

Lemma serialize_strings (l : list string) :
  JSON.stringify (VArr (map VStr l))
  = Some ("[" ++ Str.join "," (map JSON.quote l) ++ "]").
Proof.
  unfold JSON.stringify. cbn [JSON.serialize]. rewrite map_map. cbn [JSON.serialize].
  destruct l as [|s l]; reflexivity.
Qed.

Lemma stringify_object (props : list (string * Value)) :
  JSON.stringify (VObj props)
  = Some match flat_map (fun kv => match JSON.stringify (snd kv) with
                                   | Some s => [JSON.quote (fst kv) ++ ":" ++ s]
                                   | None => []
                                   end) props with
         | [] => "{}"
         | parts => "{" ++ Str.join "," parts ++ "}"
         end.
Proof.
  unfold JSON.stringify. cbn [JSON.serialize String.eqb append].
  destruct (flat_map _ props); reflexivity.
Qed.

Ltac posting_call shape P :=
  intros w; rewrite call_tool_snd, dispatch_table;
  match goal with
  | |- context [Server.tool_schema ?n] =>
      change (Server.tool_schema n) with (Some shape)
  end;
  cbv beta iota; rewrite P; rewrite reply_snd; expose_client.

(** X15. The tools that post, in the server of [dist/server.js], each with
    one POST of the content type [application/json]. [wiql_query_team] posts
    the query as [{query}] to the encoded team, a team without lone
    surrogate. [work_items_get] posts the
    identifiers to the batch address: without [fields] the body has the
    property [ids] alone, the undefined [fields] being left out by
    [JSON.stringify]; an empty list of identifiers passes the schema and is
    posted as it is. [work_item_comment_add] posts [{text}] to the comments
    of the work item. *)
Theorem posting_tools_requests (env : Env) :
  let orgBase :=
    Ado.orgBase (Ado.mkADOOpts (ADO_ORG env) (ADO_PROJECT env) (ADO_PAT env)) in
  (forall team wiql : string,
      1 <= Str.length team -> 5 <= Str.length wiql ->
      Str.lone_surrogate team = false ->
      one_call
        (post_request (orgBase ++ "/" ++ encodeURIComponent team
                       ++ "/_apis/wit/wiql?api-version=6.0")
           (ADO_PAT env) (VObj [("query", VStr wiql)]) "application/json")
        (Server.call_tool env "wiql_query_team"
           (VObj [("team", VStr team); ("wiql", VStr wiql)]))
      /\ JSON.stringify (VObj [("query", VStr wiql)])
         = Some ("{" ++ JSON.quote "query" ++ ":" ++ JSON.quote wiql ++ "}"))
  /\ (forall ids : list Z,
        one_call
          (post_request (orgBase ++ "/_apis/wit/workitemsbatch?api-version=6.0")
             (ADO_PAT env) (VObj [("ids", VArr (map VNum ids))]) "application/json")
          (Server.call_tool env "work_items_get"
             (VObj [("ids", VArr (map VNum ids))]))
        /\ JSON.stringify (VObj [("ids", VArr (map VNum ids))])
           = Some ("{" ++ JSON.quote "ids" ++ ":["
                   ++ Str.join "," (map Str.of_Z ids) ++ "]}"))
  /\ (forall (ids : list Z) (fields : list string),
        one_call
          (post_request (orgBase ++ "/_apis/wit/workitemsbatch?api-version=6.0")
             (ADO_PAT env)
             (VObj [("ids", VArr (map VNum ids)); ("fields", VArr (map VStr fields))])
             "application/json")
          (Server.call_tool env "work_items_get"
             (VObj [("ids", VArr (map VNum ids));
                    ("fields", VArr (map VStr fields))]))
        /\ JSON.stringify
             (VObj [("ids", VArr (map VNum ids)); ("fields", VArr (map VStr fields))])
           = Some ("{" ++ JSON.quote "ids" ++ ":["
                   ++ Str.join "," (map Str.of_Z ids) ++ "],"
                   ++ JSON.quote "fields" ++ ":["
                   ++ Str.join "," (map JSON.quote fields) ++ "]}"))
  /\ (forall (id : Z) (text : string),
        1 <= Str.length text ->
        one_call
          (post_request (orgBase ++ "/_apis/wit/workItems/" ++ Str.of_Z id
                         ++ "/comments?api-version=6.0-preview.4")
             (ADO_PAT env) (VObj [("text", VStr text)]) "application/json")
          (Server.call_tool env "work_item_comment_add"
             (VObj [("id", VNum id); ("text", VStr text)]))).
Proof.
  intros orgBase. subst orgBase.
  repeat match goal with |- _ /\ _ => split end.
  - intros team wiql Ht Hw Hs. split; [|reflexivity].
    assert (P : Zod.parse Server.WiqlQueryTeamSchema
                  (VObj [("team", VStr team); ("wiql", VStr wiql)])
                = Return (VObj [("team", VStr team); ("wiql", VStr wiql)])).
    { unfold Zod.parse, Server.WiqlQueryTeamSchema.
      cbn [flat_map fst snd Js.lookup String.eqb Ascii.eqb Bool.eqb Zod.check app].
      apply Z.ltb_ge in Ht, Hw. rewrite Ht, Hw. reflexivity. }
    eapply one_call_snd; [|apply (adoPost_one_call _ _ _ None)].
    posting_call Server.WiqlQueryTeamSchema P.
    cbn [Js.prop Js.lookup String.eqb Ascii.eqb Bool.eqb Js.ToString].
    rewrite encoded_run, Hs. reflexivity.
  - intros ids. split.
    + assert (P : Zod.parse Server.WorkItemsGetSchema
                    (VObj [("ids", VArr (map VNum ids))])
                  = Return (VObj [("ids", VArr (map VNum ids))])).
      { unfold Zod.parse, Server.WorkItemsGetSchema.
        cbn [flat_map fst snd Js.lookup String.eqb Ascii.eqb Bool.eqb].
        rewrite check_numbers.
        rewrite (output_plain (Zod.array_ (Zod.number_ None None)) eq_refl).
        reflexivity. }
      eapply one_call_snd;
        [|apply (adoPost_one_call _ _
                   (VObj [("ids", VArr (map VNum ids)); ("fields", VUndefined)]) None)].
      posting_call Server.WorkItemsGetSchema P. reflexivity.
    + rewrite stringify_object. cbn [flat_map fst snd].
      rewrite serialize_numbers. cbn [app Str.join]. f_equal.
      cbn. repeat first [rewrite append_assoc|progress cbn [append]]. reflexivity.
  - intros ids fields. split.
    + assert (P : Zod.parse Server.WorkItemsGetSchema
                    (VObj [("ids", VArr (map VNum ids));
                           ("fields", VArr (map VStr fields))])
                  = Return (VObj [("ids", VArr (map VNum ids));
                                  ("fields", VArr (map VStr fields))])).
      { unfold Zod.parse, Server.WorkItemsGetSchema.
        cbn [flat_map fst snd Js.lookup String.eqb Ascii.eqb Bool.eqb].
        rewrite check_numbers.
        change (Zod.check (Zod.optional_ (Zod.array_ (Zod.string_ None)))
                  [Zod.Key "fields"] (VArr (map VStr fields)))
          with (Zod.check (Zod.array_ (Zod.string_ None))
                  [Zod.Key "fields"] (VArr (map VStr fields))).
        rewrite check_strings.
        rewrite (output_plain (Zod.array_ (Zod.number_ None None)) eq_refl).
        rewrite (output_plain (Zod.optional_ (Zod.array_ (Zod.string_ None))) eq_refl).
        reflexivity. }
      eapply one_call_snd; [|apply (adoPost_one_call _ _ _ None)].
      posting_call Server.WorkItemsGetSchema P. reflexivity.
    + rewrite stringify_object. cbn [flat_map fst snd].
      rewrite serialize_numbers, serialize_strings. cbn [app Str.join]. f_equal.
      cbn. repeat first [rewrite append_assoc|progress cbn [append]]. reflexivity.
  - intros id text Ht.
    assert (P : Zod.parse Server.WorkItemCommentAddSchema
                  (VObj [("id", VNum id); ("text", VStr text)])
                = Return (VObj [("id", VNum id); ("text", VStr text)])).
    { unfold Zod.parse, Server.WorkItemCommentAddSchema.
      cbn [flat_map fst snd Js.lookup String.eqb Ascii.eqb Bool.eqb Zod.check app].
      apply Z.ltb_ge in Ht. rewrite Ht. reflexivity. }
    eapply one_call_snd; [|apply (adoPost_one_call _ _ _ None)].
    posting_call Server.WorkItemCommentAddSchema P. reflexivity.
Qed.

Lemma posting_tools_requests_witness :
  one_call
    (post_request
       (Ado.orgBase (Ado.mkADOOpts "contoso" (Some "My Project") "token")
        ++ "/_apis/wit/workItems/" ++ Str.of_Z 42
        ++ "/comments?api-version=6.0-preview.4")
       "token" (VObj [("text", VStr "done")]) "application/json")
    (Server.call_tool sample_env "work_item_comment_add"
       (VObj [("id", VNum 42); ("text", VStr "done")])).
Proof.
  apply (proj2 (proj2 (proj2 (posting_tools_requests sample_env))) 42 "done").
  vm_compute. discriminate.
Defined.

(** ** The start of the two servers *)

Lemma required_passes (k msg : string) (v : option string) :
  (forall s, v = Some s -> s <> "" -> 1 <= Str.length s) ->
  Startup.required k msg v = [] <-> Startup.unset v = false.
Proof.
  intros W. destruct v as [s|]; cbn [Startup.required Startup.unset].
  - destruct (String.eqb_spec s "") as [->|N].
    + cbn. split; discriminate.
    + specialize (W s eq_refl N). apply Z.ltb_ge in W. rewrite W. tauto.
  - split; discriminate.
Qed.

(** X16. The two servers start on the same environments: when [ADO_ORG]
    and [ADO_PAT] are both set and not empty, and then with the same
    organization, token and project, hence with the same client;
    [ADO_PROJECT] is never required. Otherwise the earlier server exits with
    status 1 and the server of [dist/server.js] throws the [ZodError] of the
    environment schema. The message [ADO_ORG is required] is that of an
    empty variable; for a variable that is not set zod reports [Required]. *)
Theorem start_conditions (penv : Startup.ProcessEnv) :
  (forall k s, Startup.getenv k penv = Some s -> s <> "" -> 1 <= Str.length s) ->
  (forall e, Startup.env penv = Return e <-> Startup.env0 penv = Startup.Running e)
  /\ (forall e,
        Startup.env penv = Return e ->
        Startup.getenv "ADO_ORG" penv = Some (ADO_ORG e) /\ ADO_ORG e <> ""
        /\ Startup.getenv "ADO_PAT" penv = Some (ADO_PAT e) /\ ADO_PAT e <> ""
        /\ ADO_PROJECT e = Startup.getenv "ADO_PROJECT" penv
        /\ Server0.ado e = Server.ado e)
  /\ ((exists issues, Startup.env penv = Throw issues)
      <-> Startup.env0 penv
          = Startup.Exit 1 "Missing ADO_ORG or ADO_PAT environment variables.")
  /\ (Startup.getenv "ADO_ORG" penv = None ->
      exists issues,
        Startup.env penv = Throw issues
        /\ In (Zod.mkIssue [Zod.Key "ADO_ORG"] "Required") issues)
  /\ (Startup.getenv "ADO_ORG" penv = Some "" ->
      exists issues,
        Startup.env penv = Throw issues
        /\ In (Zod.mkIssue [Zod.Key "ADO_ORG"] "ADO_ORG is required") issues).
Proof.
  intros W.
  pose proof (required_passes "ADO_ORG" "ADO_ORG is required"
                (Startup.getenv "ADO_ORG" penv) (W "ADO_ORG")) as O.
  pose proof (required_passes "ADO_PAT" "ADO_PAT is required"
                (Startup.getenv "ADO_PAT" penv) (W "ADO_PAT")) as P.
  unfold Startup.env, Startup.env0. cbv zeta.
  destruct (Startup.required "ADO_ORG" _ _) as [|i l] eqn:RO;
    destruct (Startup.required "ADO_PAT" _ _) as [|j m] eqn:RP;
    destruct (Startup.unset (Startup.getenv "ADO_ORG" penv)) eqn:UO;
    destruct (Startup.unset (Startup.getenv "ADO_PAT" penv)) eqn:UP;
    try (exfalso; intuition congruence); clear O P;
    cbn [orb app];
    (split; [intros e; split; intros H; try discriminate H; congruence|]);
    (split; [intros e H; try discriminate H|]);
    try (split; [split; [intros [issues H]; discriminate H|intros H; discriminate H]|]);
    try (split; [split; [reflexivity|intros _; eexists; reflexivity]|]).
  - injection H as <-. cbn [ADO_ORG ADO_PAT ADO_PROJECT].
    destruct (Startup.getenv "ADO_ORG" penv) as [org|]; [|discriminate UO].
    destruct (Startup.getenv "ADO_PAT" penv) as [pat|]; [|discriminate UP].
    cbn in UO, UP. apply String.eqb_neq in UO, UP.
    repeat split; try assumption. apply ado_agree.
  - split; intros E; rewrite E in UO; discriminate UO.
  - split; intros E; rewrite E in UO; discriminate UO.
  - split; intros E; rewrite E in RO; cbn in RO; injection RO as <- <-;
      eexists; (split; [reflexivity|left; reflexivity]).
  - split; intros E; rewrite E in RO; cbn in RO; injection RO as <- <-;
      eexists; (split; [reflexivity|left; reflexivity]).
Qed.

Lemma start_conditions_witness :
  Startup.env [("ADO_ORG", "contoso"); ("ADO_PAT", "token")]
  = Return (mkEnv "contoso" "token" None)
  <-> Startup.env0 [("ADO_ORG", "contoso"); ("ADO_PAT", "token")]
      = Startup.Running (mkEnv "contoso" "token" None).
Proof.
  refine (proj1 (start_conditions [("ADO_ORG", "contoso"); ("ADO_PAT", "token")] _)
            (mkEnv "contoso" "token" None)).
  intros k s H N. cbn [Startup.getenv] in H.
  destruct (String.eqb "ADO_ORG" k); [injection H as <-; vm_compute; discriminate|].
  destruct (String.eqb "ADO_PAT" k); [injection H as <-; vm_compute; discriminate|].
  discriminate H.
Defined.
